(** * Productivity insights and notification planning

    A shallow embedding of the analytics core of [task-manager-backend.py]
    (the four analyzers, the insight generator and the notification planner)
    together with the properties its specification states about it.

    Rows fetched by a cursor are passed in as arguments; what a function
    would insert or return is its result.  The clock ([datetime.now()]) is an
    argument as well. *)

From Stdlib Require Import ZArith List String Ascii Bool Lia.
From Stdlib Require Import Floats Uint63 DecimalString Permutation Sorted.
Import ListNotations.

Local Open Scope string_scope.
Local Open Scope Z_scope.

(** ** The pieces of the Python runtime the backend relies on *)
Module Py.

(** The two exception classes the backend names in its [except] clauses. *)
Inductive caught : Type := ValueError | TypeError.

(** What a call can end in where no [except] clause stands: one of those
    two, or the [AttributeError] of a method called on a value that has no
    method of that name. *)
Inductive exn : Type :=
| Caught (e : caught)
| AttributeError.
Coercion Caught : caught >-> exn.

Inductive result_of (E A : Type) : Type :=
| Ok (a : A)
| Raise (e : E).
Arguments Ok {E A} a.
Arguments Raise {E A} & e.

(** The date operations raise [ValueError] or [TypeError] only; a call as
    a whole can raise any of the three. *)
Definition guarded : Type -> Type := result_of caught.
Definition result : Type -> Type := result_of exn.

Definition bind {E A B} (c : result_of E A) (k : A -> result_of E B)
    : result_of E B :=
  match c with
  | Ok a => k a
  | Raise e => Raise e
  end.

Notation "x <- c ;; k" := (bind c (fun x => k))
  (at level 61, c at next level, right associativity).

(** A date operation used where nothing catches what it raises. *)
Definition unguarded {A} (c : guarded A) : result A :=
  match c with
  | Ok a => Ok a
  | Raise e => Raise (Caught e)
  end.

(** [try: body / except (ValueError, TypeError): on_error]. *)
Definition try_except {A} (body : guarded A) (on_error : A) : A :=
  match body with
  | Ok a => a
  | Raise ValueError => on_error
  | Raise TypeError => on_error
  end.

(** What [dict(row)] holds for a TIMESTAMP column.  The declared type gives
    the column NUMERIC affinity: a text that spells a number is kept, and
    read back, as that number, and any other text as it is. *)
Inductive value : Type :=
| PyNone
| PyInt (n : Z)
| PyFloat (x : float)
| PyStr (s : string).

(** Truth value of such a value: [None], zero and the empty string are
    false.  The value is returned when it is true. *)
Definition truthy_value (v : value) : option value :=
  match v with
  | PyNone => None
  | PyInt n => if n =? 0 then None else Some v
  | PyFloat x => if PrimFloat.eqb x 0%float then None else Some v
  | PyStr EmptyString => None
  | PyStr _ => Some v
  end.

(** Truth value of a row field that holds text or NULL: [None] and the empty
    string are false.  The text is returned when the field is true. *)
Definition truthy (field : option string) : option string :=
  match field with
  | Some EmptyString => None
  | Some s => Some s
  | None => None
  end.

(** [field or default] on a text field. *)
Definition str_or (field : option string) (default : string) : string :=
  match truthy field with
  | Some s => s
  | None => default
  end.

(** [field or default] on an integer field: NULL and 0 are false. *)
Definition int_or (field : option Z) (default : Z) : Z :=
  match field with
  | Some 0 => default
  | Some n => n
  | None => default
  end.

(** [str(n)] for an integer. *)
Definition str_of_int (n : Z) : string := NilZero.string_of_int (Z.to_int n).

(** [sep.join(items)]. *)
Definition join (sep : string) (items : list string) : string :=
  String.concat sep items.

(** [text.startswith(p)]. *)
Definition startswith (text p : string) : bool := String.prefix p text.

(** [range(n)] as a list of integers. *)
Definition range (n : nat) : list Z := map Z.of_nat (seq 0 n).

(** *** Stable sorting

    [sorted(l, key=k, reverse=True)] and [l.sort(key=k, reverse=True)]: the
    elements in non-increasing key order, elements with equal keys in the
    order they had in [l]. *)
Section Sorting.
Context {A : Type} (key : A -> Z).

(** [x] stood before every element of [l] in the input, so it goes in
    front of the first element whose key does not exceed its own. *)
Fixpoint insert_desc (x : A) (l : list A) : list A :=
  match l with
  | [] => [x]
  | y :: l' => if key y <=? key x then x :: y :: l' else y :: insert_desc x l'
  end.

Fixpoint sorted_desc (l : list A) : list A :=
  match l with
  | [] => []
  | x :: l' => insert_desc x (sorted_desc l')
  end.

(** The order a stable descending sort yields on an input whose elements
    stand in the order [before]: larger key first, input order among
    equal keys. *)
Definition lex_desc (before : A -> A -> Prop) (a b : A) : Prop :=
  key b < key a \/ (key a = key b /\ before a b).

(** [max(l, key=k)]: the first element with the largest key. *)
Fixpoint max_by (best : A) (l : list A) : A :=
  match l with
  | [] => best
  | x :: l' => max_by (if key best <? key x then x else best) l'
  end.

(** [min(l, key=k)]: the first element with the smallest key. *)
Fixpoint min_by (best : A) (l : list A) : A :=
  match l with
  | [] => best
  | x :: l' => min_by (if key x <? key best then x else best) l'
  end.
End Sorting.

(** *** Numbers

    A percentage field holds either the integer literal of the [else] branch
    or a float that [round(_, 1)] returned.  Such a float is the double
    nearest to [t/10] for an integer [t]; it is kept as [t], which orders and
    prints as the float does. *)
Inductive num : Type :=
| Int (n : Z)
| Tenths (t : Z).

(** Ten times the value of a number, for comparisons. *)
Definition times10 (x : num) : Z :=
  match x with
  | Int n => 10 * n
  | Tenths t => t
  end.

(** [str(x)], as an f-string interpolates it. *)
Definition str_of_num (x : num) : string :=
  match x with
  | Int n => str_of_int n
  | Tenths t =>
      (if t <? 0 then "-" else "") ++
      str_of_int (Z.abs t / 10) ++ "." ++ str_of_int (Z.abs t mod 10)
  end.

(** [float(n)]; exact for the counts it is used on ([0 <= n < 2^53]). *)
Definition float_of_int (n : Z) : float := PrimFloat.of_uint63 (Uint63.of_Z n).

(** [a / b * 100] on two counts: true division, then a float product. *)
Definition percent (a b : Z) : float :=
  PrimFloat.mul (PrimFloat.div (float_of_int a) (float_of_int b)) (float_of_int 100).

(** [n / d] rounded to the nearest integer, ties to the even one ([0 < d]). *)
Definition div_half_even (n d : Z) : Z :=
  let q := n / d in
  let r := n mod d in
  if 2 * r <? d then q
  else if d <? 2 * r then q + 1
  else if Z.even q then q else q + 1.

(** [round(x, 1)] on a float: the exact binary value, correctly rounded to
    one decimal place (ties to even), as the number of tenths. *)
Definition round1 (x : float) : Z :=
  match Prim2SF x with
  | S754_finite sign m e =>
      let n := 10 * Z.pos m in
      let t := if 0 <=? e then n * 2 ^ e else div_half_even n (2 ^ (- e)) in
      if sign then - t else t
  | _ => 0
  end.

End Py.

(** ** [datetime]: values, arithmetic, formatting and parsing *)
Module Datetime.
Import Py.

(** A [datetime.datetime].  [tzinfo] is [None] for a naive value and the UTC
    offset in seconds for an aware one. *)
Record datetime : Type := mkdatetime {
  year : Z;
  month : Z;
  day : Z;
  hour : Z;
  minute : Z;
  second : Z;
  microsecond : Z;
  tzinfo : option Z
}.

Definition is_leap (y : Z) : bool :=
  (y mod 4 =? 0) && (negb (y mod 100 =? 0) || (y mod 400 =? 0)).

Definition days_in_month (y m : Z) : Z :=
  if m =? 2 then (if is_leap y then 29 else 28)
  else if (m =? 4) || (m =? 6) || (m =? 9) || (m =? 11) then 30
  else 31.

Definition days_before_year (y : Z) : Z :=
  let p := y - 1 in p * 365 + p / 4 - p / 100 + p / 400.

Definition days_before_month (y m : Z) : Z :=
  fold_left (fun acc k => acc + days_in_month y (k + 1)) (range (Z.to_nat (m - 1))) 0.

(** Proleptic Gregorian ordinal: 1 January of year 1 is day 1. *)
Definition ymd2ord (y m d : Z) : Z :=
  days_before_year y + days_before_month y m + d.

Definition us_per_day : Z := 86400000000.

(** Microseconds of the wall-clock fields since the start of day 1. *)
Definition wall_us (d : datetime) : Z :=
  ((((ymd2ord (year d) (month d) (day d) - 1) * 24 + hour d) * 60 + minute d) * 60
   + second d) * 1000000 + microsecond d.

(** The operand pairs Python accepts: both naive (wall clocks are compared)
    or both aware (instants are compared).  A naive and an aware value make
    subtraction and ordering raise [TypeError]. *)
Definition aligned (a b : datetime) : guarded (Z * Z) :=
  match tzinfo a, tzinfo b with
  | None, None => Ok (wall_us a, wall_us b)
  | Some oa, Some ob => Ok (wall_us a - oa * 1000000, wall_us b - ob * 1000000)
  | _, _ => Raise TypeError
  end.

(** [a - b], a [timedelta] held in microseconds. *)
Definition sub (a b : datetime) : guarded Z :=
  p <- aligned a b ;; Ok (fst p - snd p).

(** [delta.days]: whole days, rounded towards minus infinity. *)
Definition days (delta : Z) : Z := delta / us_per_day.

(** [a <= b] and [a > b]. *)
Definition le (a b : datetime) : guarded bool :=
  p <- aligned a b ;; Ok (fst p <=? snd p).

Definition gt (a b : datetime) : guarded bool :=
  p <- aligned a b ;; Ok (snd p <? fst p).

(** Year of the day with ordinal [n], found downwards from an upper bound. *)
Fixpoint year_of_ord (fuel : nat) (y n : Z) : Z :=
  match fuel with
  | O => y
  | S fuel' => if days_before_year y <? n then y else year_of_ord fuel' (y - 1) n
  end.

Fixpoint month_of_ord (fuel : nat) (y m n : Z) : Z :=
  match fuel with
  | O => m
  | S fuel' => if days_before_month y m <? n then m else month_of_ord fuel' y (m - 1) n
  end.

(** The naive datetime that lies [us] microseconds after the start of day 1. *)
Definition of_wall_us (us : Z) : datetime :=
  let n := us / us_per_day + 1 in
  let r := us mod us_per_day in
  let y := year_of_ord 16 (n / 365 + 1) n in
  let m := month_of_ord 12 y 12 (n - days_before_year y) in
  mkdatetime y m (n - days_before_year y - days_before_month y m)
    (r / 3600000000) (r / 60000000 mod 60) (r / 1000000 mod 60) (r mod 1000000)
    None.

(** [d + datetime.timedelta(hours=h)]; the offset of an aware value is kept. *)
Definition add_hours (d : datetime) (h : Z) : datetime :=
  let r := of_wall_us (wall_us d + h * 3600000000) in
  mkdatetime (year r) (month r) (day r) (hour r) (minute r) (second r)
    (microsecond r) (tzinfo d).

Definition pad (width : nat) (n : Z) : string :=
  let s := str_of_int n in
  String.concat "" (repeat "0"%string (width - String.length s)) ++ s.

(** [d.strftime('%Y-%m-%d')]. *)
Definition strftime_date (d : datetime) : string :=
  pad 4 (year d) ++ "-" ++ pad 2 (month d) ++ "-" ++ pad 2 (day d).

(** [d.strftime('%Y-%m-%d %H:%M:%S')]. *)
Definition strftime_datetime (d : datetime) : string :=
  strftime_date d ++ " " ++ pad 2 (hour d) ++ ":" ++ pad 2 (minute d) ++ ":"
  ++ pad 2 (second d).

(** *** A reference parser

    [datetime.fromisoformat] belongs to the interpreter, so the backend below
    is stated over any parser.  [fromisoformat_ref] is one to run it with: it
    accepts what [isoformat()] writes, [YYYY-MM-DD] alone or followed by one
    separator character, [HH:MM:SS], an optional [.ffffff] and an optional
    [+HH:MM] or [-HH:MM] offset, and rejects every other text. *)
Definition digit (c : ascii) : option Z :=
  let n := Z.of_nat (nat_of_ascii c) in
  if (48 <=? n) && (n <=? 57) then Some (n - 48) else None.

Fixpoint digits (k : nat) (acc : Z) (s : string) : option (Z * string) :=
  match k with
  | O => Some (acc, s)
  | S k' =>
      match s with
      | String c s' =>
          match digit c with
          | Some v => digits k' (acc * 10 + v) s'
          | None => None
          end
      | EmptyString => None
      end
  end.

Definition expect (c : ascii) (s : string) : option string :=
  match s with
  | String c' s' => if Ascii.eqb c c' then Some s' else None
  | EmptyString => None
  end.

Definition obind {A B} (o : option A) (k : A -> option B) : option B :=
  match o with
  | Some a => k a
  | None => None
  end.

Notation "' p <~ o ;; k" := (obind o (fun p => k))
  (at level 61, p pattern, o at next level, right associativity).

Definition parse_date (s : string) : option (Z * Z * Z * string) :=
  ' (y, s) <~ digits 4 0 s ;;
  ' s <~ expect "-" s ;;
  ' (m, s) <~ digits 2 0 s ;;
  ' s <~ expect "-" s ;;
  ' (d, s) <~ digits 2 0 s ;;
  if (1 <=? y) && (1 <=? m) && (m <=? 12) && (1 <=? d) && (d <=? days_in_month y m)
  then Some (y, m, d, s) else None.

Definition parse_clock (s : string) : option (Z * Z * Z * string) :=
  ' (h, s) <~ digits 2 0 s ;;
  ' s <~ expect ":" s ;;
  ' (m, s) <~ digits 2 0 s ;;
  ' s <~ expect ":" s ;;
  ' (sec, s) <~ digits 2 0 s ;;
  if (h <? 24) && (m <? 60) && (sec <? 60) then Some (h, m, sec, s) else None.

Definition parse_fraction (s : string) : option (Z * string) :=
  match s with
  | String "." s' => digits 6 0 s'
  | _ => Some (0, s)
  end.

Definition parse_offset (s : string) : option (option Z) :=
  match s with
  | EmptyString => Some None
  | String c s' =>
      ' sign <~ (if Ascii.eqb c "+" then Some 1
                 else if Ascii.eqb c "-" then Some (-1) else None) ;;
      ' (h, s) <~ digits 2 0 s' ;;
      ' s <~ expect ":" s ;;
      ' (m, s) <~ digits 2 0 s ;;
      match s with
      | EmptyString =>
          if (h <? 24) && (m <? 60) then Some (Some (sign * (h * 3600 + m * 60)))
          else None
      | _ => None
      end
  end.

Definition fromisoformat_ref (s : string) : option datetime :=
  ' (y, m, d, s) <~ parse_date s ;;
  match s with
  | EmptyString => Some (mkdatetime y m d 0 0 0 0 None)
  | String _ s =>
      ' (h, mi, sec, s) <~ parse_clock s ;;
      ' (us, s) <~ parse_fraction s ;;
      ' tz <~ parse_offset s ;;
      Some (mkdatetime y m d h mi sec us tz)
  end.

End Datetime.

(** ** The backend: rows, analyzers, generator and planner *)
Module Backend.
Import Py Datetime.

(** A row of [tasks], as [dict(row)] presents it.  [due_date] and
    [completed_at] are declared TIMESTAMP and can hold a number as well as a
    text; [completed_at] is only ever written as [isoformat()] text. *)
Record Task : Type := mkTask {
  id : string;
  title : string;
  description : option string;
  category : option string;
  priority : option Z;
  status : option string;
  created_at : option string;
  due_date : value;
  completed_at : value;
  recurring_type : option string;
  parent_task_id : option string;
  user_id : string
}.

(** A row of [user_activity]. *)
Record Activity : Type := mkActivity {
  activity_task_id : option string;
  action_type : string;
  timestamp : option string;
  metadata : option string
}.

(** A row of [notification_settings]; SQLite keeps the boolean as an integer. *)
Record Settings : Type := mkSettings {
  enable_push : option Z;
  focus_hours : option string;
  notification_frequency : option string
}.

(** The payloads the analyzers return (Python dicts with fixed keys). *)
Record ProductiveTime : Type := mkProductiveTime {
  productive_hours : list string;
  pt_message : string;
  hour_data : list (Z * Z)
}.

Record CompletionRate : Type := mkCompletionRate {
  completion_rate : num;
  on_time_percentage : num;
  completed_count : Z;
  pending_count : Z;
  cr_message : string
}.

Record CategoryEntry : Type := mkCategoryEntry {
  ce_category : string;
  task_count : Z;
  ce_on_time_percentage : num
}.

Record CategoryPerformance : Type := mkCategoryPerformance {
  categories : list CategoryEntry;
  cp_message : string
}.

Record Recommendation : Type := mkRecommendation {
  rec_id : string;
  rec_title : string;
  score : Z;
  rec_priority : Z;
  rec_due_date : value;
  rec_category : string
}.

Record Recommendations : Type := mkRecommendations {
  recommended_tasks : list Recommendation;
  ro_message : string;
  reasoning : string
}.

(** [insight_data] is the payload itself; the backend stores its JSON text. *)
Inductive InsightData : Type :=
| ProductiveTimeData (p : ProductiveTime)
| CompletionRateData (c : CompletionRate)
| CategoryPerformanceData (c : CategoryPerformance)
| TaskRecommendationsData (r : Recommendations).

(** A row of [productivity_insights]. *)
Record Insight : Type := mkInsight {
  insight_user_id : string;
  insight_type : string;
  insight_data : InsightData
}.

Record Notification : Type := mkNotification {
  n_type : string;
  n_title : string;
  n_message : string;
  scheduled_time : string;
  n_priority : string
}.

(** The counters kept per category while grouping. *)
Record CategoryData : Type := mkCategoryData {
  count : Z;
  on_time : Z;
  total_with_due_date : Z
}.

(** A Python dict keyed by category, in insertion order. *)
Definition contains (key : string) (d : list (string * CategoryData)) : bool :=
  existsb (fun kv => String.eqb key (fst kv)) d.

Fixpoint update (key : string) (f : CategoryData -> CategoryData)
    (d : list (string * CategoryData)) : list (string * CategoryData) :=
  match d with
  | [] => []
  | (k, v) :: d' => if String.eqb key k then (k, f v) :: d' else (k, v) :: update key f d'
  end.

Definition is_true (flag : option Z) : bool :=
  match flag with
  | Some 0 => false
  | Some _ => true
  | None => false
  end.

(** A list comprehension whose condition may raise. *)
Fixpoint filter_raising {E A} (p : A -> result_of E bool) (l : list A)
    : result_of E (list A) :=
  match l with
  | [] => Ok []
  | x :: l' =>
      keep <- p x ;;
      rest <- filter_raising p l' ;;
      Ok (if keep then x :: rest else rest)
  end.

(** [round(part / whole * 100 if whole > 0 else 0, 1)]. *)
Definition rounded_percentage (part whole : Z) : num :=
  if 0 <? whole then Tenths (round1 (percent part whole)) else Int 0.

Definition len {A} (l : list A) : Z := Z.of_nat (List.length l).

(** The hour of day in 12-hour form. *)
Definition format_hour (hour : Z) : string :=
  let ampm := if hour <? 12 then "AM" else "PM" in
  let formatted_hour := if hour <? 12 then hour else hour - 12 in
  let formatted_hour := if formatted_hour =? 0 then 12 else formatted_hour in
  str_of_int formatted_hour ++ " " ++ ampm.

Section Core.

(** [datetime.datetime.fromisoformat] on a text; [None] stands for its
    [ValueError]. *)
Variable fromisoformat : string -> option datetime.

(** [datetime.datetime.fromisoformat(value)]: [TypeError] on a value that
    is not text. *)
Definition parse (v : value) : guarded datetime :=
  match v with
  | PyStr text =>
      match fromisoformat text with
      | Some d => Ok d
      | None => Raise ValueError
      end
  | _ => Raise TypeError
  end.

(** *** analyze_productive_time *)

(** One pass of the loop: the hour appended for [task], if any. *)
Definition completion_hour (task : Task) : option Z :=
  match truthy_value (completed_at task) with
  | Some stamp =>
      try_except (completion_time <- parse stamp ;; Ok (Some (hour completion_time))) None
  | None => None
  end.

Definition completion_hours (completed_tasks : list Task) : list Z :=
  flat_map (fun task => match completion_hour task with
                        | Some h => [h]
                        | None => []
                        end) completed_tasks.

(** [hours.count(h)]. *)
Definition occurrences (hours : list Z) (h : Z) : Z :=
  Z.of_nat (count_occ Z.eq_dec hours h).

Definition hour_counts (hours : list Z) : list (Z * Z) :=
  map (fun h => (h, occurrences hours h)) (range 24).

Definition analyze_productive_time (completed_tasks : list Task)
    (activity_logs : list Activity) : option ProductiveTime :=
  match completed_tasks with
  | [] => None
  | _ =>
      match completion_hours completed_tasks with
      | [] => None
      | hours =>
          let counts := hour_counts hours in
          let sorted_hours := sorted_desc snd counts in
          let top_hours := firstn 3 sorted_hours in
          let formatted_hours :=
            map (fun hc => format_hour (fst hc))
                (filter (fun hc => 0 <? snd hc) top_hours) in
          Some (mkProductiveTime formatted_hours
                  ("You're most productive around " ++ join ", " formatted_hours)
                  counts)
      end
  end.

(** *** analyze_completion_rate *)

(** One pass of the loop over [(on_time_count, late_count)]. *)
Definition on_time_step (counts : Z * Z) (task : Task) : Z * Z :=
  match truthy_value (due_date task), truthy_value (completed_at task) with
  | Some due_text, Some completed_text =>
      try_except
        (due <- parse due_text ;;
         completed <- parse completed_text ;;
         early <- le completed due ;;
         Ok (if early : bool then (fst counts + 1, snd counts)
             else (fst counts, snd counts + 1)))
        counts
  | _, _ => counts
  end.

Definition analyze_completion_rate (completed_tasks pending_tasks : list Task)
    : option CompletionRate :=
  let total_tasks := len completed_tasks + len pending_tasks in
  if total_tasks =? 0 then None
  else
    let rate := percent (len completed_tasks) total_tasks in
    let counts := fold_left on_time_step completed_tasks (0, 0) in
    let total_with_due_date := fst counts + snd counts in
    let on_time := rounded_percentage (fst counts) total_with_due_date in
    Some (mkCompletionRate (Tenths (round1 rate)) on_time
            (len completed_tasks) (len pending_tasks)
            ("You've completed " ++ str_of_num (Tenths (round1 rate))
             ++ "% of your tasks, with " ++ str_of_num on_time
             ++ "% completed on time.")).

(** *** analyze_category_performance *)

Definition add_count (c : CategoryData) : CategoryData :=
  mkCategoryData (count c + 1) (on_time c) (total_with_due_date c).
Definition add_total (c : CategoryData) : CategoryData :=
  mkCategoryData (count c) (on_time c) (total_with_due_date c + 1).
Definition add_on_time (c : CategoryData) : CategoryData :=
  mkCategoryData (count c) (on_time c + 1) (total_with_due_date c).

(** One pass of the grouping loop.  The total is counted before the dates are
    compared, so it stays counted when the comparison raises. *)
Definition category_step (groups : list (string * CategoryData)) (task : Task)
    : list (string * CategoryData) :=
  let name := str_or (category task) "Uncategorized" in
  let groups :=
    if contains name groups then groups
    else (groups ++ [(name, mkCategoryData 0 0 0)])%list in
  let groups := update name add_count groups in
  match truthy_value (due_date task), truthy_value (completed_at task) with
  | Some due_text, Some completed_text =>
      match parse due_text with
      | Raise _ => groups
      | Ok due =>
          match parse completed_text with
          | Raise _ => groups
          | Ok completed =>
              let groups := update name add_total groups in
              match le completed due with
              | Ok true => update name add_on_time groups
              | Ok false => groups
              | Raise _ => groups
              end
          end
      end
  | _, _ => groups
  end.

Definition category_entry (item : string * CategoryData) : CategoryEntry :=
  mkCategoryEntry (fst item) (count (snd item))
    (rounded_percentage (on_time (snd item)) (total_with_due_date (snd item))).

Definition pct (e : CategoryEntry) : Z := times10 (ce_on_time_percentage e).

Definition best_message (best : CategoryEntry) : string :=
  "You perform best in '" ++ ce_category best ++ "' tasks ("
  ++ str_of_num (ce_on_time_percentage best) ++ "% on time)".

Definition worst_message (worst : CategoryEntry) : string :=
  " and may need improvement in '" ++ ce_category worst ++ "' ("
  ++ str_of_num (ce_on_time_percentage worst) ++ "% on time)".

Definition single_message (only : CategoryEntry) : string :=
  "You've completed " ++ str_of_int (task_count only) ++ " tasks in the '"
  ++ ce_category only ++ "' category".

(** The message branch.  An empty list is not reached: a non-empty input
    makes at least one group. *)
Definition category_message (category_performance : list CategoryEntry)
    : option string :=
  match category_performance with
  | [] => None
  | [only] => Some (single_message only)
  | first :: rest =>
      let best_category := max_by pct first rest in
      let worst_category := min_by pct first rest in
      Some (best_message best_category
            ++ (if pct worst_category <? 700 then worst_message worst_category
                else ""))
  end.

Definition category_groups (completed_tasks : list Task)
    : list (string * CategoryData) :=
  fold_left category_step completed_tasks [].

Definition analyze_category_performance (completed_tasks : list Task)
    : option CategoryPerformance :=
  match completed_tasks with
  | [] => None
  | _ =>
      let category_performance :=
        sorted_desc task_count (map category_entry (category_groups completed_tasks)) in
      match category_message category_performance with
      | Some message => Some (mkCategoryPerformance category_performance message)
      | None => None
      end
  end.

(** *** recommend_task_order *)

(** The due-date factor of one task; [now] is what [datetime.now()] returns
    while this task is scored. *)
Definition due_date_score (now : datetime) (task : Task) : Z :=
  match truthy_value (due_date task) with
  | Some text =>
      try_except
        (due <- parse text ;;
         delta <- sub due now ;;
         let days_until_due := days delta in
         Ok (if days_until_due <? 0 then 40
             else if days_until_due =? 0 then 30
             else if days_until_due =? 1 then 20
             else if days_until_due <? 7 then 10
             else 0))
        0
  | None => 0
  end.

(** [task['priority'] or 3] and the base score made from it. *)
Definition task_priority (task : Task) : Z := int_or (priority task) 3.

Definition base_score (task : Task) : Z := (6 - task_priority task) * 10.

Definition score_task (now : datetime) (task : Task) : Recommendation :=
  let total_score := base_score task + due_date_score now task in
  mkRecommendation (id task) (title task) total_score (task_priority task)
    (due_date task) (str_or (category task) "Uncategorized").

(** The scoring loop; [clock i] is the wall clock, in microseconds, read
    while the task at position [i] is scored. *)
Fixpoint score_tasks (clock : nat -> Z) (i : nat) (tasks : list Task)
    : list Recommendation :=
  match tasks with
  | [] => []
  | task :: tasks' =>
      score_task (of_wall_us (clock i)) task :: score_tasks clock (S i) tasks'
  end.

Definition recommend_task_order (clock : nat -> Z)
    (pending_tasks completed_tasks : list Task) : option Recommendations :=
  match pending_tasks with
  | [] => None
  | _ =>
      let task_scores := sorted_desc score (score_tasks clock 0 pending_tasks) in
      Some (mkRecommendations (firstn 5 task_scores)
              "Here's your suggested task order for maximum productivity"
              "Based on urgency, priority, and your past completion patterns")
  end.

(** *** schedule_smart_notifications *)

(** The condition of the due-today comprehension,
    [task['due_date'] and task['due_date'].startswith(today)]: a number that
    is not zero is true and has no [startswith]. *)
Definition due_on (today : string) (task : Task) : result bool :=
  match truthy_value (due_date task) with
  | Some (PyStr text) => Ok (startswith text today)
  | Some _ => Raise AttributeError
  | None => Ok false
  end.

(** The condition of the high-priority comprehension.  Nothing catches what
    parsing or comparing raises here. *)
Definition is_high_priority (now : datetime) (task : Task) : result bool :=
  match priority task with
  | Some p =>
      if (p =? 1) || (p =? 2) then
        match truthy_value (due_date task) with
        | Some stamp =>
            due <- unguarded (parse stamp) ;;
            later <- unguarded (gt due now) ;;
            if later : bool then
              due' <- unguarded (parse stamp) ;;
              delta <- unguarded (sub due' now) ;;
              Ok (days delta <=? 3)
            else Ok false
        | None => Ok false
        end
      else Ok false
  | None => Ok false
  end.

Definition due_today_notification (now : datetime) (due_today : list Task)
    : Notification :=
  let task_names := map title (firstn 3 due_today) in
  let task_names :=
    if 3 <? len due_today
    then (task_names ++ [("and " ++ str_of_int (len due_today - 3) ++ " more")%string])%list
    else task_names in
  mkNotification "due_today"
    ("You have " ++ str_of_int (len due_today) ++ " tasks due today")
    ("Tasks due today: " ++ join ", " task_names)
    (strftime_datetime now)
    "high".

Definition high_priority_notification (now : datetime) (high_priority : list Task)
    : Notification :=
  mkNotification "high_priority"
    "High priority tasks coming up"
    ("Remember to work on: " ++ join ", " (map title (firstn 2 high_priority)))
    (strftime_datetime (add_hours now 2))
    "medium".

Definition productive_time_notification (first : Task) : Notification :=
  mkNotification "productive_time"
    "It's your productive time!"
    ("This is usually when you get the most done. Time to tackle '"
     ++ title first ++ "'?")
    "Next occurrence of productive time"
    "low".

(** [insight_data.get('productive_hours', [])]. *)
Definition get_productive_hours (data : InsightData) : list string :=
  match data with
  | ProductiveTimeData p => productive_hours p
  | _ => []
  end.

Definition when_nonempty {A B} (l : list A) (item : B) : list B :=
  match l with
  | [] => []
  | _ => [item]
  end.

(** [settings] and [productive_time_insight] are what [fetchone()] gave,
    [pending_tasks] the fetched pending rows, [clock] the wall clock in
    microseconds.  [Ok None] is the bare [return]. *)
Definition schedule_smart_notifications (settings : option Settings)
    (pending_tasks : list Task) (productive_time_insight : option Insight)
    (clock : Z) : result (option (list Notification)) :=
  match settings with
  | None => Ok None
  | Some settings =>
      if negb (is_true (enable_push settings)) then Ok None
      else
        match pending_tasks with
        | [] => Ok None
        | first :: _ =>
            let now := of_wall_us clock in
            due_today <- filter_raising (due_on (strftime_date now)) pending_tasks ;;
            let notifications :=
              when_nonempty due_today (due_today_notification now due_today) in
            high_priority <- filter_raising (is_high_priority now) pending_tasks ;;
            let notifications :=
              (notifications
               ++ when_nonempty high_priority
                    (high_priority_notification now high_priority))%list in
            let notifications :=
              match productive_time_insight with
              | Some insight =>
                  (notifications
                   ++ when_nonempty (get_productive_hours (insight_data insight))
                        (productive_time_notification first))%list
              | None => notifications
              end in
            Ok (Some notifications)
        end
  end.

(** *** generate_task_insights *)

Definition insight_of {A} (user : string) (kind : string) (wrap : A -> InsightData)
    (analysis : option A) : list Insight :=
  match analysis with
  | Some data => [mkInsight user kind (wrap data)]
  | None => []
  end.

(** The rows the generator collects in [insights] and then inserts. *)
Definition new_insights (user : string) (clock : nat -> Z)
    (completed_tasks pending_tasks : list Task) (activity_logs : list Activity)
    : list Insight :=
  if 5 <? len completed_tasks then
    (insight_of user "productive_time" ProductiveTimeData
       (analyze_productive_time completed_tasks activity_logs)
     ++ insight_of user "completion_rate" CompletionRateData
          (analyze_completion_rate completed_tasks pending_tasks)
     ++ insight_of user "category_performance" CategoryPerformanceData
          (analyze_category_performance completed_tasks)
     ++ (if 1 <? len pending_tasks
         then insight_of user "task_recommendations" TaskRecommendationsData
                (recommend_task_order clock pending_tasks completed_tasks)
         else []))%list
  else [].

(** The whole run: the rows committed, then the planner call that ends it.
    [settings] and [latest] are the rows that call fetches, [planner_clock]
    the wall clock it reads. *)
Definition generate_task_insights (user : string) (clock : nat -> Z)
    (completed_tasks pending_tasks : list Task) (activity_logs : list Activity)
    (settings : option Settings) (latest : option Insight) (planner_clock : Z)
    : list Insight * result unit :=
  (new_insights user clock completed_tasks pending_tasks activity_logs,
   _ <- schedule_smart_notifications settings pending_tasks latest planner_clock ;;
   Ok tt).

End Core.
End Backend.

(** ** The statements of the specification, and sample rows *)
Module Spec.
Import Py Datetime Backend.

(** A pending and a completed row with the columns the core reads. *)
Definition pending_task (id title : string) (category : option string)
    (priority : option Z) (due_date : value) : Task :=
  mkTask id title None category priority (Some "pending") None due_date PyNone
    None None "user-1".

Definition completed_task (id title : string) (category : option string)
    (due_date completed_at : value) : Task :=
  mkTask id title None category (Some 3) (Some "completed") None due_date
    completed_at None None "user-1".

(** Friday 15 March 2024, 09:00:00, as the wall clock in microseconds. *)
Definition sample_clock : Z := 63846090000000000.

Definition push_on : Settings := mkSettings (Some 1) (Some "[]") (Some "medium").
Definition push_off : Settings := mkSettings (Some 0) (Some "[]") (Some "medium").

(** [task] with its category column set to NULL. *)
Definition without_category (task : Task) : Task :=
  mkTask (id task) (title task) (description task) None (priority task)
    (status task) (created_at task) (due_date task) (completed_at task)
    (recurring_type task) (parent_task_id task) (user_id task).

Section Statements.
Variable fromisoformat : string -> option datetime.

(** A date field that holds a text, not empty, which parses. *)
Definition parsed (field : value) : option datetime :=
  match field with
  | PyStr text => if String.eqb text "" then None else fromisoformat text
  | _ => None
  end.

(** *** Recommender *)

(** The whole-day difference between the due date and [now], where there is
    one: the due date parses and can be subtracted from [now]. *)
Definition whole_days_until_due (now : datetime) (task : Task) : option Z :=
  match parsed (due_date task) with
  | Some due =>
      match sub due now with
      | Ok delta => Some (days delta)
      | Raise _ => None
      end
  | None => None
  end.

Definition urgency_bonus (days_until_due : option Z) : Z :=
  match days_until_due with
  | Some d =>
      if d <? 0 then 40
      else if d =? 0 then 30
      else if d =? 1 then 20
      else if (2 <=? d) && (d <=? 6) then 10
      else 0
  | None => 0
  end.

(** The priority as the specification words it: 3 when missing or null. *)
Definition stated_priority (task : Task) : Z :=
  match priority task with
  | Some p => p
  | None => 3
  end.

Definition stated_score (now : datetime) (task : Task) : Z :=
  (6 - stated_priority task) * 10 + urgency_bonus (whole_days_until_due now task).

(** The priority the code scores with: 3 when missing, null or 0. *)
Definition effective_priority (task : Task) : Z :=
  match priority task with
  | Some p => if p =? 0 then 3 else p
  | None => 3
  end.

Definition amended_score (now : datetime) (task : Task) : Z :=
  (6 - effective_priority task) * 10
  + urgency_bonus (whole_days_until_due now task).

(** *** Productive time *)

(** The hour of day a task was completed at, when its completion timestamp
    parses. *)
Definition completion_hour_of (task : Task) : option Z :=
  option_map hour (parsed (completed_at task)).

Definition completed_at_hour (h : Z) (task : Task) : bool :=
  match completion_hour_of task with
  | Some h' => h' =? h
  | None => false
  end.

(** The count of the bucket [h]. *)
Definition completions_at (tasks : list Task) (h : Z) : Z :=
  len (filter (completed_at_hour h) tasks).

(** Bucket [a] stands before bucket [b]: more completions, or as many and
    the lower hour. *)
Definition outranks (cnt : Z -> Z) (a b : Z) : Prop :=
  cnt b < cnt a \/ (cnt a = cnt b /\ a < b).

(** The hour in 12-hour form, as the specification words it. *)
Definition twelve_hour (h : Z) : string :=
  str_of_int (if h mod 12 =? 0 then 12 else h mod 12) ++ " "
  ++ (if h <? 12 then "AM" else "PM").

(** *** Completion rate *)

(** The due date and the completion date of a task, when both parse. *)
Definition both_dates (task : Task) : option (datetime * datetime) :=
  match parsed (due_date task), parsed (completed_at task) with
  | Some due, Some completed => Some (due, completed)
  | _, _ => None
  end.

(** The tasks the on-time percentage is taken over: both dates parse and can
    be compared (both naive or both aware). *)
Definition in_sample (task : Task) : bool :=
  match both_dates task with
  | Some (due, completed) =>
      match le completed due with
      | Ok _ => true
      | Raise _ => false
      end
  | None => false
  end.

(** On time: completed at or before the due date. *)
Definition finished_on_time (task : Task) : bool :=
  match both_dates task with
  | Some (due, completed) =>
      match le completed due with
      | Ok early => early
      | Raise _ => false
      end
  | None => false
  end.

(** The sample as the specification words it: both dates parse. *)
Definition stated_sample (task : Task) : bool :=
  match both_dates task with
  | Some _ => true
  | None => false
  end.

(** *** Notification planner *)

Definition high_priority_value (task : Task) : bool :=
  match priority task with
  | Some p => (p =? 1) || (p =? 2)
  | None => false
  end.

(** High priority, due strictly after [now] and within three days. *)
Definition upcoming_high_priority (now : datetime) (task : Task) : bool :=
  high_priority_value task
  && match parsed (due_date task) with
     | Some due =>
         match gt due now, sub due now with
         | Ok later, Ok delta => later && (days delta <=? 3)
         | _, _ => false
         end
     | None => false
     end.

(** The due date is a number other than zero. *)
Definition numeric_due (task : Task) : bool :=
  match due_date task with
  | PyInt n => negb (n =? 0)
  | PyFloat x => negb (PrimFloat.eqb x 0%float)
  | _ => false
  end.

(** The due date is a text, not empty, that starts with [today]. *)
Definition due_text_on (today : string) (task : Task) : bool :=
  match due_date task with
  | PyStr text => negb (String.eqb text "") && String.prefix today text
  | _ => false
  end.

(** The planner's date test can take [task]: the task is not of high
    priority, or its due date is missing, zero or empty, or is a text that
    parses to a naive value. *)
Definition datable (task : Task) : bool :=
  if high_priority_value task then
    match due_date task with
    | PyStr text =>
        if String.eqb text "" then true
        else
          match fromisoformat text with
          | Some due =>
              match tzinfo due with
              | None => true
              | Some _ => false
              end
          | None => false
          end
    | PyInt n => n =? 0
    | PyFloat x => PrimFloat.eqb x 0%float
    | PyNone => true
    end
  else true.

(** The planner can take the due date of [task]: it is no number other
    than zero, and the date test can take the task. *)
Definition plannable (task : Task) : bool :=
  negb (numeric_due task) && datable task.

(** The candidates in their order: due today, high priority, productive
    time. *)
Definition candidates (now : datetime) (pending_tasks : list Task)
    (productive_time_insight : option Insight) : list Notification :=
  let due_today := filter (due_text_on (strftime_date now)) pending_tasks in
  let high_priority := filter (upcoming_high_priority now) pending_tasks in
  (when_nonempty due_today (due_today_notification now due_today)
   ++ when_nonempty high_priority (high_priority_notification now high_priority)
   ++ match productive_time_insight, pending_tasks with
      | Some insight, first :: _ =>
          when_nonempty (get_productive_hours (insight_data insight))
            (productive_time_notification first)
      | _, _ => []
      end)%list.

(** *** Insight generator *)

Definition of_kind (kind : string) (insights : list Insight) : list Insight :=
  filter (fun i => String.eqb (insight_type i) kind) insights.

(** The record an analysis makes when its gate is open. *)
Definition record_of {A} (user kind : string) (wrap : A -> InsightData)
    (gate : bool) (analysis : option A) : list Insight :=
  match gate, analysis with
  | true, Some data => [mkInsight user kind (wrap data)]
  | _, _ => []
  end.

(** *** Categories *)


(** The bucket a task is counted in: its category, or "Uncategorized" when
    the column is NULL or the empty string. *)
Definition category_name (task : Task) : string :=
  match category task with
  | Some c => if String.eqb c "" then "Uncategorized" else c
  | None => "Uncategorized"
  end.

Definition tasks_in (name : string) (tasks : list Task) : list Task :=
  filter (fun task => String.eqb (category_name task) name) tasks.

(** The distinct buckets of a list of tasks. *)
Definition distinct_categories (tasks : list Task) : list string :=
  nodup string_dec (map category_name tasks).

(** [d.get(key)] on the grouping dict, and the count it holds for [key]. *)
Definition lookup (key : string) (d : list (string * CategoryData))
    : option CategoryData :=
  match find (fun kv => String.eqb key (fst kv)) d with
  | Some kv => Some (snd kv)
  | None => None
  end.

Definition count_of (key : string) (d : list (string * CategoryData)) : Z :=
  match lookup key d with
  | Some data => count data
  | None => 0
  end.

(** The positions of a list, paired with its elements. *)
Definition indexed {A} (l : list A) : list (nat * A) :=
  combine (seq 0 (List.length l)) l.

End Statements.

(** *** Percentages *)

(** [x] is [part / whole * 100] rounded to one decimal: a number of tenths
    that lies at most half a tenth from the exact quotient. *)
Definition rounded_share (x : num) (part whole : Z) : bool :=
  match x with
  | Tenths t => 2 * Z.abs (t * whole - 1000 * part) <=? whole
  | Int _ => false
  end.

(** Every share [part] of [whole], for [whole] from 1 to [bound], is rounded
    so by the float expression the analyzers use. *)
Definition shares_rounded (bound : nat) : bool :=
  forallb (fun whole =>
             forallb (fun part =>
                        rounded_share (Tenths (round1 (percent part whole)))
                          part whole)
               (range (S (Z.to_nat whole))))
    (map (Z.add 1) (range bound)).

(** Sample pending rows: overdue, far off, priority 0, no priority, and two
    with equal scores. *)
Definition due_yesterday : Task :=
  pending_task "t1" "File report" (Some "work") (Some 1) (PyStr "2024-03-14T09:00:00").
Definition due_in_ten_days : Task :=
  pending_task "t2" "Renew passport" None (Some 5) (PyStr "2024-03-25T09:00:00").
Definition priority_zero : Task :=
  pending_task "t3" "Sort inbox" (Some "") (Some 0) PyNone.
Definition priority_zero_dated : Task :=
  pending_task "t4" "Water plants" (Some "home") (Some 0) (PyStr "2024-03-15T19:00:00").
Definition priority_seven : Task :=
  pending_task "t5" "Someday" None (Some 7) PyNone.
Definition no_priority : Task :=
  pending_task "t6" "Call bank" None None (PyStr "2024-03-16T19:00:00").
Definition sample_pending : list Task :=
  [due_in_ten_days; priority_seven; no_priority; due_yesterday; priority_zero;
   priority_zero_dated].

Definition fixed_clock (i : nat) : Z := sample_clock.

(** A pending row whose due date was written as the text "2024", which the
    column keeps as a number, and a high-priority one with the number 0. *)
Definition numeric_due_date : Task :=
  pending_task "t10" "Plan trip" None (Some 3) (PyInt 2024).
Definition zero_due_date : Task :=
  pending_task "t11" "Archive mail" None (Some 1) (PyInt 0).

(** A high-priority pending row whose due date is not a date. *)
Definition bad_due_date : Task :=
  pending_task "t7" "Submit taxes" None (Some 1) (PyStr "next friday").

(** Pending rows the planner can take: one due today, one due in two days. *)
Definition due_today_evening : Task :=
  pending_task "t8" "Book flights" None (Some 3) (PyStr "2024-03-15T19:00:00").
Definition due_sunday : Task :=
  pending_task "t9" "Prepare slides" (Some "work") (Some 2) (PyStr "2024-03-17T19:00:00").
Definition plannable_pending : list Task := [due_today_evening; due_sunday].

(** Completed rows: on time, no due date, late, a due date that is not a
    date, an aware due date against a naive completion, and a completion
    timestamp that is not one. *)
Definition sample_completed : list Task :=
  [completed_task "c1" "Draft" (Some "work")
     (PyStr "2024-03-10T10:00:00") (PyStr "2024-03-09T14:05:00");
   completed_task "c2" "Laundry" (Some "") PyNone (PyStr "2024-03-09T14:25:00");
   completed_task "c3" "Dentist" None (PyStr "2024-03-01") (PyStr "2024-03-09T09:25:00");
   completed_task "c4" "Review" (Some "work") (PyStr "soon") (PyStr "2024-03-09T00:25:00");
   completed_task "c5" "Groceries" (Some "home")
     (PyStr "2024-03-10T10:00:00+00:00") (PyStr "2024-03-09T12:25:00");
   completed_task "c6" "Repair" (Some "home") (PyStr "2024-03-10T10:00:00") (PyStr "done")].

(** Two completed rows whose dates all parse: one finished on time, and one
    whose due date carries a UTC offset while its completion date has
    none. *)
Definition mixed_offsets : list Task :=
  [completed_task "c1" "Draft" (Some "work")
     (PyStr "2024-03-10T10:00:00") (PyStr "2024-03-09T14:05:00");
   completed_task "c5" "Groceries" (Some "home")
     (PyStr "2024-03-10T10:00:00+00:00") (PyStr "2024-03-09T12:25:00")].

(** Six completed rows without due dates. *)
Definition six_completed : list Task :=
  map (fun name => completed_task name name None PyNone (PyStr "2024-03-10T14:05:00"))
      ["a"; "b"; "c"; "d"; "e"; "f"].
End Spec.

(** ** The request handlers and the scheduled job, over the stored tables

    A handler takes the tables and returns them as it leaves them, with its
    response or the exception it ends in.  What it reads from outside (the
    fresh id, the clocks) comes in an [Env]; the order a query returns its
    rows in, and the JSON texts, belong to the libraries and are parameters. *)
Module Store.
Import Py Datetime Backend.

(** A key of a JSON request body: missing, [null], or a value. *)
Inductive field (A : Type) : Type :=
| Absent
| Null
| Value (a : A).
Arguments Absent {A}.
Arguments Null {A}.
Arguments Value {A} a.

(** [data.get(key)]. *)
Definition get {A} (f : field A) : option A :=
  match f with
  | Value a => Some a
  | _ => None
  end.

(** [data.get(key, default)]: the default stands in for a missing key only. *)
Definition get_or {A} (f : field A) (default : A) : option A :=
  match f with
  | Absent => Some default
  | Null => None
  | Value a => Some a
  end.

(** [key in data]. *)
Definition has {A} (f : field A) : bool :=
  match f with
  | Absent => false
  | _ => true
  end.

(** The body of a task request. *)
Record TaskBody : Type := mkTaskBody {
  b_title : field string;
  b_description : field string;
  b_category : field string;
  b_priority : field Z;
  b_status : field string;
  b_due_date : field string;
  b_recurring_type : field string;
  b_parent_task_id : field string;
  b_user_id : field string;
  b_original_due_date : field string
}.

(** The body of a settings request.  A JSON list under [focus_hours] is held
    as the text [json.dumps] gives for it, which is what gets stored. *)
Record SettingsBody : Type := mkSettingsBody {
  sb_user_id : field string;
  sb_enable_push : field Z;
  sb_focus_hours : field string;
  sb_notification_frequency : field string
}.

(** The four tables, rows in insertion order.  [user_activity] and
    [notification_settings] rows are paired with their [user_id] column. *)
Record Db : Type := mkDb {
  tasks : list Task;
  user_activity : list (string * Activity);
  notification_settings : list (string * Settings);
  productivity_insights : list Insight
}.

(** What a request reads from outside: the fresh [uuid4], the value of
    [CURRENT_TIMESTAMP] at each inserting statement and of [datetime.now()]
    at each call (numbered as they stand in the handler), and the clocks of
    the insight run and the planner call it ends with. *)
Record Env : Type := mkEnv {
  uuid4 : string;
  current_timestamp : nat -> string;
  now : nat -> Z;
  scoring_clock : nat -> Z;
  planner_clock : Z
}.

Inductive failure : Type :=
| PyError (e : exn)
| IntegrityError.

(** How a request ends: a JSON response with its status code, or an
    exception (which the framework turns into a 500). *)
Inductive outcome (A : Type) : Type :=
| Respond (code : Z) (body : A)
| Fail (f : failure).
Arguments Respond {A} code body.
Arguments Fail {A} f.

Definition message_body : Type := list (string * string).

(** [d.isoformat()] of a naive datetime. *)
Definition isoformat (d : datetime) : string :=
  strftime_date d ++ "T" ++ pad 2 (hour d) ++ ":" ++ pad 2 (minute d) ++ ":"
  ++ pad 2 (second d)
  ++ (if microsecond d =? 0 then "" else "." ++ pad 6 (microsecond d)).

Definition status_is (value : string) (task : Task) : bool :=
  match status task with
  | Some s => String.eqb s value
  | None => false
  end.

(** [WHERE user_id = ? AND status = ?] on [tasks]. *)
Definition rows_with_status (user value : string) (db : Db) : list Task :=
  filter (fun task => String.eqb (user_id task) user && status_is value task)
    (tasks db).

(** [WHERE id = ? AND user_id = ?] on [tasks]. *)
Definition owned (task_id user : string) (task : Task) : bool :=
  String.eqb (id task) task_id && String.eqb (user_id task) user.

(** [SELECT * FROM notification_settings WHERE user_id = ?], [fetchone()]. *)
Definition settings_of (user : string) (db : Db) : option Settings :=
  option_map snd (find (fun row => String.eqb (fst row) user) (notification_settings db)).

Definition with_tasks (db : Db) (rows : list Task) : Db :=
  mkDb rows (user_activity db) (notification_settings db) (productivity_insights db).

Definition log_activity (db : Db) (user : string) (entry : Activity) : Db :=
  mkDb (tasks db) (user_activity db ++ [(user, entry)])%list
    (notification_settings db) (productivity_insights db).

Definition with_settings (db : Db) (rows : list (string * Settings)) : Db :=
  mkDb (tasks db) (user_activity db) rows (productivity_insights db).

Definition add_insights (db : Db) (rows : list Insight) : Db :=
  mkDb (tasks db) (user_activity db) (notification_settings db)
    (productivity_insights db ++ rows)%list.

(** [SET column = ?] for a key of the body that is present. *)
Definition assign {A} (f : field A) (old : option A) : option A :=
  match f with
  | Absent => old
  | Null => None
  | Value a => Some a
  end.

Definition ok_or_fail {A} (r : result unit) (code : Z) (body : A) : outcome A :=
  match r with
  | Ok _ => Respond code body
  | Raise e => Fail (PyError e)
  end.

Section Handlers.

Variable fromisoformat : string -> option datetime.

(** What a column of NUMERIC affinity, as [due_date TIMESTAMP] is, keeps of
    a text written to it: the number the text spells, or the text itself. *)
Variable numeric_affinity : string -> value.

(** The rows of a query in the order [ORDER BY completed_at DESC] and
    [ORDER BY due_date ASC] return them. *)
Variable by_completed_desc : list Task -> list Task.
Variable by_due_asc : list Task -> list Task.
(** [ORDER BY timestamp DESC LIMIT 100] and [ORDER BY generated_at DESC
    LIMIT 1] over the rows that match. *)
Variable recent_activity : list Activity -> list Activity.
Variable latest : list Insight -> option Insight.
(** [SELECT DISTINCT user_id FROM tasks]. *)
Variable distinct : list string -> list string.
(** [json.dumps] of the metadata dicts a handler builds from its body, and
    [json.loads]; [J] is a decoded JSON value. *)
Variable created_metadata : TaskBody -> string.
Variable completed_metadata : string -> TaskBody -> string.
Variable updated_metadata : TaskBody -> string.
Variable J : Type.
Variable json_loads : string -> option J.

(** *** schedule_smart_notifications(user_id) *)
Definition schedule_smart_notifications (db : Db) (user : string) (env : Env)
    : result (option (list Notification)) :=
  Backend.schedule_smart_notifications fromisoformat
    (settings_of user db)
    (by_due_asc (rows_with_status user "pending" db))
    (latest (filter (fun i => String.eqb (insight_user_id i) user
                              && String.eqb (insight_type i) "productive_time")
               (productivity_insights db)))
    (planner_clock env).

(** *** generate_task_insights(user_id): fetch, analyse, insert and commit,
    then call the planner. *)
Definition generate_task_insights (db : Db) (user : string) (env : Env)
    : Db * result unit :=
  let completed_tasks := by_completed_desc (rows_with_status user "completed" db) in
  let pending_tasks := by_due_asc (rows_with_status user "pending" db) in
  let activity_logs :=
    recent_activity
      (map snd (filter (fun row => String.eqb (fst row) user) (user_activity db))) in
  let insights :=
    new_insights fromisoformat user (scoring_clock env) completed_tasks
      pending_tasks activity_logs in
  let db := add_insights db insights in
  (db, _ <- schedule_smart_notifications db user env ;; Ok tt).

(** What the [due_date] column keeps of [data.get('due_date')]. *)
Definition kept (text : option string) : value :=
  match text with
  | Some text => numeric_affinity text
  | None => PyNone
  end.

(** *** create_task *)
Definition create_task (db : Db) (data : TaskBody) (env : Env)
    : Db * outcome message_body :=
  match truthy (get (b_title data)), truthy (get (b_user_id data)) with
  | Some title, Some user =>
      let task_id := uuid4 env in
      (* the primary key: a second row under the same id fails the INSERT *)
      if existsb (fun task => String.eqb (id task) task_id) (tasks db)
      then (db, Fail IntegrityError)
      else
        let row :=
          mkTask task_id title (get (b_description data)) (get (b_category data))
            (get_or (b_priority data) 3) (Some "pending")
            (Some (current_timestamp env 0)) (kept (get (b_due_date data))) PyNone
            (get (b_recurring_type data)) (get (b_parent_task_id data)) user in
        let db := with_tasks db (tasks db ++ [row])%list in
        let db :=
          log_activity db user
            (mkActivity (Some task_id) "task_created"
               (Some (current_timestamp env 1)) (Some (created_metadata data))) in
        let run := generate_task_insights db user env in
        (fst run,
         ok_or_fail (snd run) 201
           [("id", task_id); ("message", "Task created successfully")])
  | _, _ =>
      (db, Respond 400 [("error", "Title and user_id are required")])
  end.

(** *** update_task *)

(** The row after [UPDATE tasks SET ...]: the keys present in the body, and
    [completed_at] when the task is being completed.  The stamp is what
    [isoformat()] writes, which has dashes and colons and so stays a text. *)
Definition updated_row (data : TaskBody) (completed : option string) (task : Task)
    : Task :=
  mkTask (id task)
    (match b_title data with
     | Value t => t
     | _ => title task
     end)
    (assign (b_description data) (description task))
    (assign (b_category data) (category task))
    (assign (b_priority data) (priority task))
    (assign (b_status data) (status task))
    (created_at task)
    (match b_due_date data with
     | Absent => due_date task
     | _ => kept (get (b_due_date data))
     end)
    (match completed with
     | Some stamp => PyStr stamp
     | None => completed_at task
     end)
    (assign (b_recurring_type data) (recurring_type task))
    (parent_task_id task)
    (user_id task).

(** [data.get('status') == 'completed' and 'status' in data]. *)
Definition completing (data : TaskBody) : bool :=
  match get (b_status data) with
  | Some s => String.eqb s "completed"
  | None => false
  end.

Definition any_update_field (data : TaskBody) : bool :=
  has (b_title data) || has (b_description data) || has (b_category data)
  || has (b_priority data) || has (b_status data) || has (b_due_date data)
  || has (b_recurring_type data).

Definition update_task (db : Db) (task_id : string) (data : TaskBody) (env : Env)
    : Db * outcome message_body :=
  match truthy (get (b_user_id data)) with
  | None => (db, Respond 400 [("error", "User ID is required")])
  | Some user =>
      if negb (existsb (owned task_id user) (tasks db))
      then (db, Respond 404 [("error", "Task not found or access denied")])
      else if negb (any_update_field data)
      then (db, Respond 400 [("error", "No valid fields to update")])
      else
        match b_title data with
        | Null =>
            (* title is NOT NULL: the UPDATE fails, and the completion log
               written before it was not committed *)
            (db, Fail IntegrityError)
        | _ =>
            let completed :=
              if completing data
              then Some (isoformat (of_wall_us (now env 0)))
              else None in
            let rows :=
              map (fun task => if owned task_id user task
                               then updated_row data completed task
                               else task) (tasks db) in
            let logged :=
              if completing data
              then log_activity db user
                     (mkActivity (Some task_id) "task_completed"
                        (Some (current_timestamp env 0))
                        (Some (completed_metadata
                                 (isoformat (of_wall_us (now env 1))) data)))
              else db in
            let db := with_tasks logged rows in
            let db :=
              log_activity db user
                (mkActivity (Some task_id) "task_updated"
                   (Some (current_timestamp env 1)) (Some (updated_metadata data))) in
            if has (b_status data) || has (b_priority data) || has (b_due_date data)
            then
              let run := generate_task_insights db user env in
              (fst run,
               ok_or_fail (snd run) 200 [("message", "Task updated successfully")])
            else (db, Respond 200 [("message", "Task updated successfully")])
        end
  end.

(** *** delete_task *)
Definition delete_task (db : Db) (task_id : string) (user_arg : option string)
    (env : Env) : Db * outcome message_body :=
  match truthy user_arg with
  | None => (db, Respond 400 [("error", "User ID is required")])
  | Some user =>
      if negb (existsb (owned task_id user) (tasks db))
      then (db, Respond 404 [("error", "Task not found or access denied")])
      else
        let db :=
          with_tasks db (filter (fun task => negb (owned task_id user task)) (tasks db)) in
        let db :=
          log_activity db user
            (mkActivity (Some task_id) "task_deleted"
               (Some (current_timestamp env 0)) None) in
        (db, Respond 200 [("message", "Task deleted successfully")])
  end.

(** *** update_notification_settings *)
Definition updated_settings (data : SettingsBody) (row : Settings) : Settings :=
  mkSettings (assign (sb_enable_push data) (enable_push row))
    (assign (sb_focus_hours data) (focus_hours row))
    (assign (sb_notification_frequency data) (notification_frequency row)).

Definition update_notification_settings (db : Db) (data : SettingsBody) (env : Env)
    : Db * outcome message_body :=
  match truthy (get (sb_user_id data)) with
  | None => (db, Respond 400 [("error", "User ID is required")])
  | Some user =>
      let stored :=
        if existsb (fun row => String.eqb (fst row) user) (notification_settings db)
        then
          if has (sb_enable_push data) || has (sb_focus_hours data)
             || has (sb_notification_frequency data)
          then
            Some (with_settings db
                    (map (fun row => if String.eqb (fst row) user
                                     then (fst row, updated_settings data (snd row))
                                     else row) (notification_settings db)))
          else None
        else
          Some (with_settings db
                  (notification_settings db
                   ++ [(user, mkSettings (get_or (sb_enable_push data) 1)
                                (get_or (sb_focus_hours data) "[]")
                                (get_or (sb_notification_frequency data) "medium"))])%list)
      in
      match stored with
      | None => (db, Respond 400 [("error", "No valid fields to update")])
      | Some db =>
          (db,
           ok_or_fail (_ <- schedule_smart_notifications db user env ;; Ok tt) 200
             [("message", "Notification settings updated successfully")])
      end
  end.

(** *** get_notification_settings *)

(** The settings as the response shows them.  [enable_push] is the literal
    [True] when the row was just made, the stored column otherwise. *)
Inductive flag : Type :=
| PyTrue
| Stored (value : option Z).

Record SettingsView : Type := mkSettingsView {
  view_user_id : string;
  view_enable_push : flag;
  view_focus_hours : J;
  view_notification_frequency : option string
}.

(** [json.loads(settings['focus_hours'])]: [TypeError] on NULL, [ValueError]
    on a text that is not JSON. *)
Definition load_focus_hours (stored : option string) : result J :=
  match stored with
  | None => Raise TypeError
  | Some text =>
      match json_loads text with
      | Some value => Ok value
      | None => Raise ValueError
      end
  end.

Definition get_notification_settings (db : Db) (user_arg : option string)
    : Db * outcome (sum message_body SettingsView) :=
  match truthy user_arg with
  | None => (db, Respond 400 (inl [("error", "User ID is required")]))
  | Some user =>
      match settings_of user db with
      | None =>
          let db :=
            with_settings db
              (notification_settings db
               ++ [(user, mkSettings (Some 1) (Some "[]") (Some "medium"))])%list in
          (db,
           match load_focus_hours (Some "[]") with
           | Ok hours =>
               Respond 200 (inr (mkSettingsView user PyTrue hours (Some "medium")))
           | Raise e => Fail (PyError e)
           end)
      | Some row =>
          (db,
           match load_focus_hours (focus_hours row) with
           | Ok hours =>
               Respond 200
                 (inr (mkSettingsView user (Stored (enable_push row)) hours
                         (notification_frequency row)))
           | Raise e => Fail (PyError e)
           end)
      end
  end.

(** *** scheduled_insights_generation: one insight run per user, in the
    order the query lists them; an exception ends the job.  [envs k] is what
    the run for the user at position [k] reads. *)
Fixpoint insight_runs (db : Db) (users : list string) (envs : nat -> Env) (k : nat)
    : Db * result unit :=
  match users with
  | [] => (db, Ok tt)
  | user :: users' =>
      let run := generate_task_insights db user (envs k) in
      match snd run with
      | Ok _ => insight_runs (fst run) users' envs (S k)
      | Raise e => (fst run, Raise e)
      end
  end.

Definition scheduled_insights_generation (db : Db) (envs : nat -> Env)
    : Db * result unit :=
  insight_runs db (distinct (map user_id (tasks db))) envs 0.

End Handlers.
End Store.

(** ** Further readings of the code, used by the properties beyond the
    specification *)
Module Derived.
Import Py Datetime Backend Spec.

Definition sum_Z (l : list Z) : Z := fold_right Z.add 0 l.

(** The due-date factor by elapsed time: [diff] is the due date minus the
    clock, in microseconds. *)
Definition urgency_by_time (diff : Z) : Z :=
  if diff <? 0 then 40
  else if diff <? us_per_day then 30
  else if diff <? 2 * us_per_day then 20
  else if diff <? 7 * us_per_day then 10
  else 0.

(** A priority the data model allows: NULL or 1 to 5. *)
Definition valid_priority (task : Task) : Prop :=
  match priority task with
  | Some p => 1 <= p <= 5
  | None => True
  end.

(** The stored productive-time insight lists at least one hour. *)
Definition has_hours (productive_time_insight : option Insight) : bool :=
  match productive_time_insight with
  | Some insight =>
      match get_productive_hours (insight_data insight) with
      | [] => false
      | _ => true
      end
  | None => false
  end.

Definition when (b : bool) (kind : string) : list string :=
  if b then [kind] else [].

(** The logs of [after] continue those of [before]: no activity row and no
    insight row is changed or removed. *)
Definition extends (before after : Store.Db) : Prop :=
  (exists added,
      Store.user_activity after = (Store.user_activity before ++ added)%list)
  /\ (exists added,
        Store.productivity_insights after
        = (Store.productivity_insights before ++ added)%list).

(** The tasks of the users other than [user], in table order. *)
Definition tasks_of_others (user : string) (db : Store.Db) : list Task :=
  filter (fun task => negb (String.eqb (user_id task) user)) (Store.tasks db).

(** A request was turned down: a 4xx response, or a constraint violation. *)
Definition turned_down {A} (out : Store.outcome A) : Prop :=
  match out with
  | Store.Respond code _ => 400 <= code
  | Store.Fail Store.IntegrityError => True
  | Store.Fail (Store.PyError _) => False
  end.

(** What the tables hold on [user]: their task rows, activity rows, settings
    row and insight rows, each in table order. *)
Definition holdings (user : string) (db : Store.Db)
    : list Task * list (string * Activity) * option Settings * list Insight :=
  (filter (fun task => String.eqb (user_id task) user) (Store.tasks db),
   filter (fun row => String.eqb (fst row) user) (Store.user_activity db),
   Store.settings_of user db,
   filter (fun i => String.eqb (insight_user_id i) user)
     (Store.productivity_insights db)).

(** The insight rows [after] has beyond those of [before]. *)
Definition added_by (before after : Store.Db) : list Insight :=
  skipn (List.length (Store.productivity_insights before))
    (Store.productivity_insights after).

(** Stand-ins for the library parameters of the handlers, to run them with:
    queries return rows in table order, the newest insight is the last one
    inserted, and metadata texts are left empty. *)
Definition table_order (rows : list Task) : list Task := rows.
Definition last_hundred (rows : list Activity) : list Activity :=
  firstn 100 (rev rows).
Definition newest (rows : list Insight) : option Insight := hd_error (rev rows).
Definition first_seen (users : list string) : list string :=
  rev (nodup string_dec (rev users)).
Definition no_metadata (data : Store.TaskBody) : string := "{}".
Definition no_completion_metadata (stamp : string) (data : Store.TaskBody) : string := "{}".
Definition loads_empty_list (text : string) : option (list string) :=
  if String.eqb text "[]" then Some [] else None.

(** A stand-in for the affinity of the column: a text of decimal digits is
    kept as the integer it spells, every other text as it is (signs,
    fractions and exponents are left out). *)
Fixpoint digits_value (acc : Z) (text : string) : option Z :=
  match text with
  | EmptyString => Some acc
  | String c rest =>
      match digit c with
      | Some d => digits_value (acc * 10 + d) rest
      | None => None
      end
  end.

Definition whole_number (text : string) : value :=
  match text, digits_value 0 text with
  | String _ _, Some n => PyInt n
  | _, _ => PyStr text
  end.

Definition empty_body : Store.TaskBody :=
  Store.mkTaskBody Store.Absent Store.Absent Store.Absent Store.Absent Store.Absent
    Store.Absent Store.Absent Store.Absent Store.Absent Store.Absent.


(** A body that names its user and sets the status. *)
Definition status_body (user value : string) : Store.TaskBody :=
  Store.mkTaskBody Store.Absent Store.Absent Store.Absent Store.Absent
    (Store.Value value) Store.Absent Store.Absent Store.Absent (Store.Value user)
    Store.Absent.

Definition sample_env : Store.Env :=
  Store.mkEnv "id-1" (fun _ => "2024-03-15 08:00:00") (fun _ => sample_clock)
    fixed_clock sample_clock.

Definition empty_db : Store.Db := Store.mkDb [] [] [] [].

(** One user with the sample pending rows and push enabled. *)
Definition sample_db : Store.Db :=
  Store.mkDb sample_pending [] [("user-1", push_on)] [].

(** A pending row of a second user. *)
Definition other_user_task : Task :=
  mkTask "o1" "Pay rent" None None (Some 2) (Some "pending") None
    (PyStr "2024-03-20T09:00:00") PyNone None None "user-2".

Definition two_user_db : Store.Db :=
  Store.mkDb (sample_pending ++ [other_user_task]) [] [("user-1", push_on)] [].

(** The first user has push enabled and a high-priority task whose due date
    is not a date. *)
Definition failing_db : Store.Db :=
  Store.mkDb [bad_due_date; other_user_task] [] [("user-1", push_on)] [].


Definition push_off_body : Store.SettingsBody :=
  Store.mkSettingsBody (Store.Value "user-1") (Store.Value 0) Store.Absent
    Store.Absent.


Section Readings.
Variable fromisoformat : string -> option datetime.

(** The due date of [task] as a naive value, when it has one. *)
Definition naive_due (task : Task) : option datetime :=
  match parsed fromisoformat (due_date task) with
  | Some due =>
      match tzinfo due with
      | None => Some due
      | Some _ => None
      end
  | None => None
  end.

Definition has_completion (task : Task) : bool :=
  match parsed fromisoformat (completed_at task) with
  | Some _ => true
  | None => false
  end.

(** What the planner's unguarded date test raises on [task]: [ValueError]
    where the text does not parse, [TypeError] where it parses to a value
    with an offset. *)
Definition planner_error (task : Task) : exn :=
  match parsed fromisoformat (due_date task) with
  | Some _ => TypeError
  | None => ValueError
  end.

Definition undatable (task : Task) : bool := negb (datable fromisoformat task).

(** The exception a planner call on these pending rows ends in, if any.
    The due-today pass runs over all rows first, so a numeric due date
    anywhere decides; otherwise the first row the date test cannot take. *)
Definition planner_failure_of (pending_tasks : list Task) : option exn :=
  if existsb numeric_due pending_tasks then Some AttributeError
  else option_map planner_error (find undatable pending_tasks).

(** High priority, with a naive due date strictly after [now] and less
    than four times 24 hours ahead. *)
Definition within_four_days (now : datetime) (task : Task) : bool :=
  high_priority_value task
  && match naive_due task with
     | Some due =>
         (wall_us now <? wall_us due)
         && (wall_us due - wall_us now <? 4 * us_per_day)
     | None => false
     end.

(** The exception the insight run of [user] ends in, if any: the one its
    planner call raises on the pending rows as the query returns them. *)
Definition run_failure (by_due_asc : list Task -> list Task) (db : Store.Db)
    (user : string) : option exn :=
  match Store.settings_of user db with
  | Some settings =>
      if is_true (enable_push settings)
      then planner_failure_of
             (by_due_asc (Store.rows_with_status user "pending" db))
      else None
  | None => None
  end.

Definition fails (by_due_asc : list Task -> list Task) (db : Store.Db)
    (user : string) : bool :=
  match run_failure by_due_asc db user with
  | Some _ => true
  | None => false
  end.

(** Both dates of [task] are present and parse. *)
Definition has_both_dates (task : Task) : bool :=
  match both_dates fromisoformat task with
  | Some _ => true
  | None => false
  end.

(** What one pass of the grouping loop adds to the counters of the task's
    category. *)
Definition task_delta (task : Task) (data : CategoryData) : CategoryData :=
  mkCategoryData (count data + 1)
    (on_time data + (if finished_on_time fromisoformat task then 1 else 0))
    (total_with_due_date data + (if has_both_dates task then 1 else 0)).

(** A counter of the category [key] in the grouping dict, 0 when the
    category has no entry. *)
Definition stat (proj : CategoryData -> Z) (key : string)
    (d : list (string * CategoryData)) : Z :=
  match lookup key d with
  | Some data => proj data
  | None => 0
  end.

End Readings.
End Derived.

(** ** Facts about the runtime pieces *)
Module PyFacts.
Import Py.

Section SortingFacts.
Context {A : Type} (key : A -> Z).

Lemma insert_desc_perm (x : A) (l : list A) :
  Permutation (insert_desc key x l) (x :: l).
Proof.
  induction l as [|y l IH]; simpl.
  - apply Permutation_refl.
  - destruct (key y <=? key x).
    + apply Permutation_refl.
    + eapply perm_trans; [apply perm_skip, IH | apply perm_swap].
Qed.

Lemma sorted_desc_perm (l : list A) : Permutation (sorted_desc key l) l.
Proof.
  induction l as [|x l IH]; simpl.
  - constructor.
  - eapply perm_trans; [apply insert_desc_perm | now apply perm_skip].
Qed.

Lemma sorted_desc_in (x : A) (l : list A) : In x (sorted_desc key l) <-> In x l.
Proof.
  split; apply Permutation_in;
    [ apply sorted_desc_perm | apply Permutation_sym, sorted_desc_perm ].
Qed.

Lemma sorted_desc_length (l : list A) :
  List.length (sorted_desc key l) = List.length l.
Proof. apply Permutation_length, sorted_desc_perm. Qed.

Lemma insert_desc_in (x y : A) (l : list A) :
  In y (insert_desc key x l) <-> y = x \/ In y l.
Proof.
  split; intro H.
  - apply (Permutation_in _ (insert_desc_perm x l)) in H.
    destruct H as [H | H]; auto.
  - apply (Permutation_in _ (Permutation_sym (insert_desc_perm x l))).
    destruct H as [H | H]; [left; auto | right; auto].
Qed.

(** Elements that stood in input order [before] one another come out in
    key order, and in input order where keys are equal. *)
Section Lex.
Variable before : A -> A -> Prop.

Lemma insert_desc_lex (x : A) (l : list A) :
  Forall (before x) l ->
  StronglySorted (lex_desc key before) l ->
  StronglySorted (lex_desc key before) (insert_desc key x l).
Proof.
  induction l as [|y l IH]; simpl; intros Hb Hs.
  - repeat constructor.
  - inversion Hb as [|? ? Hby Hbl]; subst.
    inversion Hs as [|? ? Hsl Hyl]; subst.
    destruct (key y <=? key x) eqn:E.
    + apply Z.leb_le in E.
      constructor; [exact Hs |].
      constructor.
      * unfold lex_desc. destruct (Z.eq_dec (key x) (key y)); [right | left]; auto; lia.
      * rewrite Forall_forall in *. intros z Hz.
        specialize (Hyl z Hz). specialize (Hbl z Hz).
        unfold lex_desc in *.
        destruct (Z.eq_dec (key x) (key z)); [right; auto | left].
        destruct Hyl as [Hlt | [Heq _]]; lia.
    + apply Z.leb_gt in E.
      constructor; [apply IH; assumption |].
      rewrite Forall_forall in *. intros z Hz.
      apply insert_desc_in in Hz. destruct Hz as [-> | Hz].
      * left; exact E.
      * now apply Hyl.
Qed.

Lemma sorted_desc_lex (l : list A) :
  StronglySorted before l ->
  StronglySorted (lex_desc key before) (sorted_desc key l).
Proof.
  induction 1 as [|x l Hs IH Hx]; simpl.
  - constructor.
  - apply insert_desc_lex; [| exact IH].
    apply Forall_forall. intros z Hz.
    rewrite Forall_forall in Hx. apply Hx.
    apply sorted_desc_in. exact Hz.
Qed.
End Lex.

Lemma StronglySorted_weaken (R S : A -> A -> Prop) (l : list A) :
  (forall a b, R a b -> S a b) -> StronglySorted R l -> StronglySorted S l.
Proof.
  intros HRS. induction 1 as [|x l Hs IH Hx]; constructor; auto.
  eapply Forall_impl; [| exact Hx]. intros b. apply HRS.
Qed.

Lemma sorted_desc_sorted (l : list A) :
  StronglySorted (fun a b => key b <= key a) (sorted_desc key l).
Proof.
  assert (Hall : StronglySorted (fun _ _ : A => True) l).
  { induction l; constructor; auto. now apply Forall_forall. }
  apply (sorted_desc_lex (fun _ _ => True)) in Hall.
  eapply StronglySorted_weaken; [| exact Hall].
  intros a b [H | [H _]]; lia.
Qed.

Lemma insert_desc_filter (k : Z) (x : A) (l : list A) :
  filter (fun a => key a =? k) (insert_desc key x l)
  = if key x =? k then x :: filter (fun a => key a =? k) l
    else filter (fun a => key a =? k) l.
Proof.
  induction l as [|y l IH]; simpl.
  - reflexivity.
  - destruct (key y <=? key x) eqn:E; simpl.
    + reflexivity.
    + rewrite IH. apply Z.leb_gt in E.
      destruct (key x =? k) eqn:Ex; [| reflexivity].
      apply Z.eqb_eq in Ex.
      destruct (key y =? k) eqn:Ey; [| reflexivity].
      apply Z.eqb_eq in Ey. lia.
Qed.

(** Stability: the elements of any one key keep their input order. *)
Lemma sorted_desc_stable (k : Z) (l : list A) :
  filter (fun a => key a =? k) (sorted_desc key l)
  = filter (fun a => key a =? k) l.
Proof.
  induction l as [|x l IH]; simpl.
  - reflexivity.
  - rewrite insert_desc_filter, IH. reflexivity.
Qed.


End SortingFacts.

End PyFacts.

(** ** Properties of the backend *)
Module Properties.
Import Py Datetime Backend Spec PyFacts.

(** *** Recommender: scores *)

Lemma due_date_score_bonus (parser : string -> option datetime) (now : datetime)
    (task : Task) :
  due_date_score parser now task
  = urgency_bonus (whole_days_until_due parser now task).
Proof.
  unfold due_date_score, whole_days_until_due, parsed, parse, truthy_value.
  destruct (due_date task) as [|n|x|[|c text]]; simpl; try reflexivity.
  { destruct (n =? 0); reflexivity. }
  { destruct (PrimFloat.eqb x 0); reflexivity. }
  destruct (parser (String c text)) as [due|]; simpl; try reflexivity.
  destruct (sub due now) as [delta|[]]; simpl; try reflexivity.
  destruct (days delta <? 0) eqn:E0; [reflexivity|].
  destruct (days delta =? 0) eqn:E1; [reflexivity|].
  destruct (days delta =? 1) eqn:E2; [reflexivity|].
  apply Z.ltb_ge in E0. apply Z.eqb_neq in E1, E2.
  destruct (days delta <? 7) eqn:E3;
    [apply Z.ltb_lt in E3 | apply Z.ltb_ge in E3].
  - replace (2 <=? days delta) with true by (symmetry; apply Z.leb_le; lia).
    replace (days delta <=? 6) with true by (symmetry; apply Z.leb_le; lia).
    reflexivity.
  - replace (days delta <=? 6) with false by (symmetry; apply Z.leb_gt; lia).
    rewrite andb_false_r. reflexivity.
Qed.

Lemma task_priority_effective (task : Task) :
  task_priority task = effective_priority task.
Proof.
  unfold task_priority, effective_priority, int_or.
  destruct (priority task) as [[|p|p]|]; reflexivity.
Qed.

Lemma score_task_amended (parser : string -> option datetime) (now : datetime)
    (task : Task) :
  score (score_task parser now task) = amended_score parser now task.
Proof.
  unfold score_task, amended_score, base_score; simpl.
  now rewrite due_date_score_bonus, task_priority_effective.
Qed.

Lemma score_tasks_nth (parser : string -> option datetime) (clock : nat -> Z)
    (tasks : list Task) :
  forall k i,
    nth_error (score_tasks parser clock k tasks) i
    = option_map (score_task parser (of_wall_us (clock (k + i)%nat)))
        (nth_error tasks i).
Proof.
  induction tasks as [|task tasks IH]; intros k i; simpl.
  - destruct i; reflexivity.
  - destruct i as [|i]; simpl.
    + now rewrite Nat.add_0_r.
    + rewrite IH. now rewrite Nat.add_succ_r.
Qed.

Lemma score_tasks_length (parser : string -> option datetime) (clock : nat -> Z)
    (tasks : list Task) :
  forall k, List.length (score_tasks parser clock k tasks) = List.length tasks.
Proof.
  induction tasks as [|task tasks IH]; intro k; simpl; [reflexivity|].
  now rewrite IH.
Qed.

Lemma score_tasks_scores (parser : string -> option datetime) (clock : nat -> Z)
    (tasks : list Task) :
  forall k,
    map score (score_tasks parser clock k tasks)
    = map (fun it => amended_score parser (of_wall_us (clock (fst it))) (snd it))
        (combine (seq k (List.length tasks)) tasks).
Proof.
  induction tasks as [|task tasks IH]; intro k; [reflexivity|].
  cbn [score_tasks List.length seq combine map fst snd].
  now rewrite score_task_amended, IH.
Qed.

Lemma score_tasks_ext (parser : string -> option datetime) (clock clock' : nat -> Z)
    (tasks : list Task) :
  forall k,
    (forall i, (i < List.length tasks)%nat -> clock' (k + i)%nat = clock (k + i)%nat) ->
    score_tasks parser clock' k tasks = score_tasks parser clock k tasks.
Proof.
  induction tasks as [|task tasks IH]; intros k H; simpl; [reflexivity|].
  f_equal.
  - specialize (H 0%nat). rewrite Nat.add_0_r in H. rewrite H; [reflexivity|].
    simpl; lia.
  - apply IH. intros i Hi. specialize (H (S i)).
    rewrite Nat.add_succ_r in H. apply H. simpl; lia.
Qed.

(** C3, as the specification states it, fails at a task whose priority is
    the integer 0: the code scores it as priority 3 (30 points), the stated
    formula gives (6 - 0) * 10 = 60. *)
Lemma stated_score_fails_at_priority_zero :
  score (score_task fromisoformat_ref (of_wall_us sample_clock) priority_zero) = 30
  /\ stated_score fromisoformat_ref (of_wall_us sample_clock) priority_zero = 60
  /\ score (score_task fromisoformat_ref (of_wall_us sample_clock) priority_zero)
     <> stated_score fromisoformat_ref (of_wall_us sample_clock) priority_zero.
Proof.
  repeat split; try reflexivity.
  vm_compute. discriminate.
Qed.

(** C3 (amended): the score of the pending task at every position is
    (6 - priority) * 10, the priority taken as 3 when it is missing, null or
    0, plus the urgency bonus of the whole-day difference between its due
    date and the clock read for it: 40 below zero, 30 at zero, 20 at one, 10
    from two to six, and 0 beyond or when there is no difference to take (no
    due date, an empty or unparseable one, or one that cannot be subtracted
    from the naive clock).  A priority-1 task due yesterday scores 90, a
    priority-5 task due in ten days scores 10. *)
Theorem recommender_score :
  (forall (parser : string -> option datetime) (clock : nat -> Z)
          (pending_tasks : list Task),
      map score (score_tasks parser clock 0 pending_tasks)
      = map (fun it => amended_score parser (of_wall_us (clock (fst it))) (snd it))
          (indexed pending_tasks))
  /\ score (score_task fromisoformat_ref (of_wall_us sample_clock) due_yesterday) = 90
  /\ score (score_task fromisoformat_ref (of_wall_us sample_clock) due_in_ten_days) = 10.
Proof.
  split; [| split; reflexivity].
  intros parser clock pending_tasks. apply score_tasks_scores.
Qed.

(** C4, as the specification states it, fails at priority 0, an integer
    outside 1-5: the code replaces it by 3, so the base score is 30, inside
    the 10-50 range, and not (6 - 0) * 10. *)
Lemma base_score_fails_at_priority_zero :
  priority priority_zero_dated = Some 0
  /\ base_score priority_zero_dated = 30
  /\ base_score priority_zero_dated <> (6 - 0) * 10
  /\ rec_priority (score_task fromisoformat_ref (of_wall_us sample_clock)
                     priority_zero_dated) = 3.
Proof.
  repeat split; try reflexivity.
  vm_compute. discriminate.
Qed.

(** C4 (amended): a pending task whose priority is a non-zero integer
    outside 1-5 is scored like any other: it gets an entry, the entry keeps
    its priority, and its base score is (6 - priority) * 10, outside the
    10-50 range.  The default 3 replaces a missing or null priority and the
    integer 0, and nothing else. *)
Theorem out_of_range_priority (parser : string -> option datetime)
    (clock : nat -> Z) (pending_tasks : list Task) (i : nat) (task : Task) (p : Z) :
  nth_error pending_tasks i = Some task ->
  priority task = Some p ->
  p <> 0 ->
  p < 1 \/ 5 < p ->
  (exists r,
      nth_error (score_tasks parser clock 0 pending_tasks) i = Some r
      /\ rec_id r = id task
      /\ rec_priority r = p
      /\ base_score task = (6 - p) * 10
      /\ (base_score task < 10 \/ 50 < base_score task)
      /\ score r = (6 - p) * 10 + due_date_score parser (of_wall_us (clock i)) task)
  /\ (forall other, task_priority other = effective_priority other).
Proof.
  intros Hnth Hp Hnz Hout. split; [| apply task_priority_effective].
  exists (score_task parser (of_wall_us (clock i)) task).
  assert (Hprio : task_priority task = p).
  { rewrite task_priority_effective. unfold effective_priority. rewrite Hp.
    destruct (p =? 0) eqn:E; [apply Z.eqb_eq in E; contradiction | reflexivity]. }
  rewrite score_tasks_nth, Hnth. simpl.
  unfold base_score. rewrite Hprio.
  repeat split; try reflexivity; lia.
Qed.

Lemma out_of_range_priority_witness :
  exists r,
    nth_error (score_tasks fromisoformat_ref fixed_clock 0 sample_pending) 1 = Some r
    /\ rec_priority r = 7 /\ score r = -10.
Proof.
  destruct (out_of_range_priority fromisoformat_ref fixed_clock sample_pending 1
              priority_seven 7) as [[r (Hr & _ & Hp & _ & _ & Hs)] _].
  - reflexivity.
  - reflexivity.
  - lia.
  - lia.
  - exists r. repeat split; [exact Hr | exact Hp | rewrite Hs; reflexivity].
Defined.

(** *** Recommender: order *)

Lemma firstn_In {A} (x : A) (n : nat) (l : list A) :
  In x (firstn n l) -> In x l.
Proof.
  revert n. induction l as [|y l IH]; intros [|n]; simpl; try tauto.
  intros [H | H]; [left; exact H | right; eapply IH; exact H].
Qed.

Lemma StronglySorted_firstn {A} (R : A -> A -> Prop) (n : nat) (l : list A) :
  StronglySorted R l -> StronglySorted R (firstn n l).
Proof.
  intro H. revert n. induction H as [|x l Hs IH Hx]; intros [|n]; simpl;
    try constructor.
  - apply IH.
  - apply Forall_forall. intros y Hy.
    rewrite Forall_forall in Hx. apply Hx.
    eapply firstn_In; exact Hy.
Qed.

(** C9: for a non-empty pending list the recommender returns the first five
    entries of a list that holds exactly the scored tasks, in non-increasing
    score order, with the entries of any one score in their input order; the
    result has min(5, n) entries and is a function of the pending rows and
    the clock alone. *)
Theorem recommendations_sorted_stable_top5 (parser : string -> option datetime)
    (clock : nat -> Z) (pending_tasks completed_tasks : list Task) :
  pending_tasks <> [] ->
  exists r full,
    recommend_task_order parser clock pending_tasks completed_tasks = Some r
    /\ recommended_tasks r = firstn 5 full
    /\ Permutation full (score_tasks parser clock 0 pending_tasks)
    /\ StronglySorted (fun a b => score b <= score a) full
    /\ (forall s,
          filter (fun a => score a =? s) full
          = filter (fun a => score a =? s) (score_tasks parser clock 0 pending_tasks))
    /\ StronglySorted (fun a b => score b <= score a) (recommended_tasks r)
    /\ List.length (recommended_tasks r) = Nat.min 5 (List.length pending_tasks)
    /\ (forall clock' completed_tasks',
          (forall i, (i < List.length pending_tasks)%nat -> clock' i = clock i) ->
          recommend_task_order parser clock' pending_tasks completed_tasks' = Some r).
Proof.
  intro Hne.
  destruct pending_tasks as [|task rest]; [contradiction|].
  set (pending := task :: rest) in *.
  exists (mkRecommendations
            (firstn 5 (sorted_desc score (score_tasks parser clock 0 pending)))
            "Here's your suggested task order for maximum productivity"
            "Based on urgency, priority, and your past completion patterns").
  exists (sorted_desc score (score_tasks parser clock 0 pending)).
  split; [reflexivity|].
  split; [reflexivity|].
  split; [apply sorted_desc_perm|].
  split; [apply sorted_desc_sorted|].
  split; [intro s; apply sorted_desc_stable|].
  split; [apply StronglySorted_firstn, sorted_desc_sorted|].
  split.
  - cbn [recommended_tasks].
    now rewrite length_firstn, sorted_desc_length, score_tasks_length.
  - intros clock' completed_tasks' Hclock.
    unfold recommend_task_order, pending.
    rewrite (score_tasks_ext parser clock clock' (task :: rest) 0); [reflexivity|].
    intros i Hi. simpl. now apply Hclock.
Qed.

Lemma recommendations_sorted_stable_top5_witness :
  exists r,
    recommend_task_order fromisoformat_ref fixed_clock sample_pending [] = Some r
    /\ map score (recommended_tasks r) = [90; 60; 50; 30; 10].
Proof.
  destruct (recommendations_sorted_stable_top5 fromisoformat_ref fixed_clock
              sample_pending []) as (r & full & Hr & _).
  - discriminate.
  - exists r. split; [exact Hr|].
    vm_compute in Hr. injection Hr as <-. reflexivity.
Defined.

(** *** Category grouping *)

Lemma str_or_category_name (task : Task) :
  str_or (category task) "Uncategorized" = category_name task.
Proof.
  unfold str_or, truthy, category_name.
  destruct (category task) as [[|c text]|]; reflexivity.
Qed.

Lemma update_keys (key : string) (f : CategoryData -> CategoryData)
    (d : list (string * CategoryData)) :
  map fst (update key f d) = map fst d.
Proof.
  induction d as [|[k v] d IH]; simpl; [reflexivity|].
  destruct (String.eqb key k); simpl; [reflexivity | now rewrite IH].
Qed.

Lemma lookup_cons (key k : string) (v : CategoryData)
    (d : list (string * CategoryData)) :
  lookup key ((k, v) :: d) = if String.eqb key k then Some v else lookup key d.
Proof.
  unfold lookup; simpl. destruct (String.eqb key k); reflexivity.
Qed.

Lemma lookup_update (key key' : string) (f : CategoryData -> CategoryData)
    (d : list (string * CategoryData)) :
  lookup key' (update key f d)
  = if String.eqb key key' then option_map f (lookup key d) else lookup key' d.
Proof.
  induction d as [|[k v] d IH]; simpl.
  - destruct (String.eqb key key'); reflexivity.
  - destruct (String.eqb key k) eqn:Ek.
    + rewrite !lookup_cons, Ek.
      apply String.eqb_eq in Ek; subst k.
      rewrite (String.eqb_sym key' key).
      destruct (String.eqb key key'); reflexivity.
    + rewrite !lookup_cons, Ek, IH.
      destruct (String.eqb key key') eqn:Ekk.
      * apply String.eqb_eq in Ekk; subst key'. now rewrite Ek.
      * reflexivity.
Qed.

Lemma lookup_contains (key : string) (d : list (string * CategoryData)) :
  contains key d = match lookup key d with Some _ => true | None => false end.
Proof.
  unfold contains, lookup.
  induction d as [|[k v] d IH]; simpl; [reflexivity|].
  destruct (String.eqb key k); simpl; [reflexivity | exact IH].
Qed.

Lemma contains_in (key : string) (d : list (string * CategoryData)) :
  contains key d = true <-> In key (map fst d).
Proof.
  unfold contains. rewrite existsb_exists. split.
  - intros [kv [Hin Heq]]. apply String.eqb_eq in Heq. subst.
    now apply in_map.
  - intro Hin. apply in_map_iff in Hin. destruct Hin as [kv [Heq Hin]].
    exists kv. split; [exact Hin|]. subst. apply String.eqb_refl.
Qed.

Lemma lookup_app_new (key key' : string) (z : CategoryData)
    (d : list (string * CategoryData)) :
  lookup key' (d ++ [(key, z)])
  = match lookup key' d with
    | Some v => Some v
    | None => if String.eqb key' key then Some z else None
    end.
Proof.
  unfold lookup.
  induction d as [|[k v] d IH]; simpl.
  - destruct (String.eqb key' key); reflexivity.
  - destruct (String.eqb key' k); simpl; [reflexivity | exact IH].
Qed.

Lemma lookup_in (key : string) (data : CategoryData)
    (d : list (string * CategoryData)) :
  NoDup (map fst d) -> In (key, data) d -> lookup key d = Some data.
Proof.
  unfold lookup.
  induction d as [|[k v] d IH]; simpl; intros Hnd Hin; [contradiction|].
  inversion Hnd as [|? ? Hnotin Hnd']; subst.
  destruct Hin as [Heq | Hin].
  - injection Heq as -> ->. now rewrite String.eqb_refl.
  - destruct (String.eqb key k) eqn:Ek.
    + apply String.eqb_eq in Ek; subst k. exfalso. apply Hnotin.
      change key with (fst (key, data)). now apply in_map.
    + now apply IH.
Qed.

Lemma count_of_update_same (key key' : string) (f : CategoryData -> CategoryData)
    (d : list (string * CategoryData)) :
  (forall data, count (f data) = count data) ->
  count_of key' (update key f d) = count_of key' d.
Proof.
  intro Hf. unfold count_of. rewrite lookup_update.
  destruct (String.eqb key key') eqn:E; [| reflexivity].
  apply String.eqb_eq in E; subst key'.
  destruct (lookup key d); simpl; [apply Hf | reflexivity].
Qed.

Lemma count_of_add_count (key key' : string) (d : list (string * CategoryData)) :
  contains key d = true ->
  count_of key' (update key add_count d)
  = count_of key' d + (if String.eqb key key' then 1 else 0).
Proof.
  intro Hc. unfold count_of. rewrite lookup_update.
  destruct (String.eqb key key') eqn:E; [| lia].
  apply String.eqb_eq in E; subst key'.
  rewrite lookup_contains in Hc.
  destruct (lookup key d); [reflexivity | discriminate].
Qed.

Lemma count_of_new (key key' : string) (d : list (string * CategoryData)) :
  count_of key' (d ++ [(key, mkCategoryData 0 0 0)]) = count_of key' d.
Proof.
  unfold count_of. rewrite lookup_app_new.
  destruct (lookup key' d); [reflexivity|].
  destruct (String.eqb key' key); reflexivity.
Qed.

Lemma contains_new (key : string) (z : CategoryData)
    (d : list (string * CategoryData)) :
  contains key (d ++ [(key, z)]) = true.
Proof.
  apply contains_in. rewrite map_app. apply in_or_app. right. now left.
Qed.

Ltac step_cases parser task :=
  unfold category_step;
  rewrite str_or_category_name;
  destruct (truthy_value (due_date task)) as [due_text|];
  [ destruct (truthy_value (completed_at task)) as [completed_text|];
    [ destruct (parse parser due_text) as [due|];
      [ destruct (parse parser completed_text) as [completed|];
        [ destruct (le completed due) as [[|]|] | ] | ] | ] | ].

Lemma category_step_keys (parser : string -> option datetime)
    (groups : list (string * CategoryData)) (task : Task) :
  map fst (category_step parser groups task)
  = if contains (category_name task) groups then map fst groups
    else (map fst groups ++ [category_name task])%list.
Proof.
  step_cases parser task; rewrite ?update_keys;
    destruct (contains (category_name task) groups); try reflexivity;
    now rewrite map_app.
Qed.

Lemma category_step_count (parser : string -> option datetime)
    (groups : list (string * CategoryData)) (task : Task) (key : string) :
  count_of key (category_step parser groups task)
  = count_of key groups + (if String.eqb (category_name task) key then 1 else 0).
Proof.
  assert (Hbase : forall g,
    g = (if contains (category_name task) groups then groups
         else (groups ++ [(category_name task, mkCategoryData 0 0 0)])%list) ->
    count_of key (update (category_name task) add_count g)
    = count_of key groups
      + (if String.eqb (category_name task) key then 1 else 0)).
  { intros g ->. rewrite count_of_add_count.
    - destruct (contains (category_name task) groups); [reflexivity|].
      now rewrite count_of_new.
    - destruct (contains (category_name task) groups) eqn:E; [exact E|].
      apply contains_new. }
  step_cases parser task;
    rewrite ?(count_of_update_same _ _ add_on_time) by reflexivity;
    rewrite ?(count_of_update_same _ _ add_total) by reflexivity;
    now apply Hbase.
Qed.

Lemma category_groups_keys (parser : string -> option datetime)
    (tasks : list Task) :
  forall groups,
    NoDup (map fst groups) ->
    NoDup (map fst (fold_left (category_step parser) tasks groups))
    /\ (forall key,
          In key (map fst (fold_left (category_step parser) tasks groups))
          <-> In key (map fst groups) \/ In key (map category_name tasks)).
Proof.
  induction tasks as [|task tasks IH]; intros groups Hnd; simpl.
  - split; [exact Hnd | intro key; tauto].
  - assert (Hstep : NoDup (map fst (category_step parser groups task))).
    { rewrite category_step_keys.
      destruct (contains (category_name task) groups) eqn:E; [exact Hnd|].
      apply NoDup_app; [exact Hnd | repeat constructor; simpl; tauto |].
      intros x Hx [<- | []].
      apply contains_in in Hx. congruence. }
    destruct (IH _ Hstep) as [Hnd' Hkeys]. split; [exact Hnd'|].
    intro key. rewrite Hkeys, category_step_keys.
    destruct (contains (category_name task) groups) eqn:E.
    + apply contains_in in E. split; [tauto|].
      intros [H | [<- | H]]; tauto.
    + rewrite in_app_iff; simpl. tauto.
Qed.

Lemma category_groups_count (parser : string -> option datetime)
    (tasks : list Task) (key : string) :
  forall groups,
    count_of key (fold_left (category_step parser) tasks groups)
    = count_of key groups + len (tasks_in key tasks).
Proof.
  unfold len.
  induction tasks as [|task tasks IH]; intro groups; simpl.
  - lia.
  - rewrite IH, category_step_count.
    destruct (String.eqb (category_name task) key); simpl List.length; lia.
Qed.

Lemma category_groups_facts (parser : string -> option datetime)
    (completed_tasks : list Task) :
  NoDup (map fst (category_groups parser completed_tasks))
  /\ (forall key,
        In key (map fst (category_groups parser completed_tasks))
        <-> In key (map category_name completed_tasks))
  /\ (forall key data,
        In (key, data) (category_groups parser completed_tasks) ->
        count data = len (tasks_in key completed_tasks))
  /\ List.length (category_groups parser completed_tasks)
     = List.length (distinct_categories completed_tasks).
Proof.
  unfold category_groups.
  destruct (category_groups_keys parser completed_tasks [] (NoDup_nil _))
    as [Hnd Hkeys].
  assert (Hk : forall key,
    In key (map fst (fold_left (category_step parser) completed_tasks []))
    <-> In key (map category_name completed_tasks)).
  { intro key. rewrite Hkeys. simpl. tauto. }
  repeat split; try apply Hk; try exact Hnd.
  - intros key data Hin.
    pose proof (category_groups_count parser completed_tasks key []) as Hc.
    unfold count_of in Hc at 1. rewrite (lookup_in _ _ _ Hnd Hin) in Hc.
    rewrite Hc. reflexivity.
  - rewrite <- (length_map fst).
    apply Permutation_length, NoDup_Permutation;
      [exact Hnd | apply NoDup_nodup |].
    intro key. unfold distinct_categories. rewrite nodup_In. apply Hk.
Qed.


Lemma category_entries (parser : string -> option datetime)
    (completed_tasks : list Task) (e : CategoryEntry) :
  In e (sorted_desc task_count
          (map category_entry (category_groups parser completed_tasks))) ->
  In (ce_category e) (map category_name completed_tasks)
  /\ task_count e = len (tasks_in (ce_category e) completed_tasks).
Proof.
  intro Hin. apply sorted_desc_in, in_map_iff in Hin.
  destruct Hin as [[key data] [<- Hin]].
  destruct (category_groups_facts parser completed_tasks) as (_ & Hk & Hc & _).
  simpl. split.
  - apply Hk. change key with (fst (key, data)). now apply in_map.
  - now apply Hc.
Qed.



(** *** Empty category *)

Lemma analyze_category_performance_some (parser : string -> option datetime)
    (completed_tasks : list Task) :
  completed_tasks <> [] ->
  exists message,
    analyze_category_performance parser completed_tasks
    = Some (mkCategoryPerformance
              (sorted_desc task_count
                 (map category_entry (category_groups parser completed_tasks)))
              message).
Proof.
  intro Hne.
  unfold analyze_category_performance.
  destruct completed_tasks as [|task rest]; [contradiction|].
  destruct (sorted_desc task_count
              (map category_entry (category_groups parser (task :: rest))))
    as [|first [|second others]] eqn:E.
  - exfalso. apply (f_equal (@List.length _)) in E.
    rewrite sorted_desc_length, length_map in E.
    destruct (category_groups_facts parser (task :: rest)) as (_ & _ & _ & Hlen).
    rewrite Hlen in E.
    assert (Hin : In (category_name task) (distinct_categories (task :: rest))).
    { unfold distinct_categories. apply nodup_In. now left. }
    destruct (distinct_categories (task :: rest)); [contradiction | discriminate].
  - eexists. reflexivity.
  - eexists. reflexivity.
Qed.

(** C10: a task whose category is the empty string is handled as one whose
    category is NULL.  The grouping step and the scoring step do the same on
    both, so both analyzers return the same on any list with the one in place
    of the other; the category analyzer counts the task in the entry named
    "Uncategorized", and the recommender's entry for it carries that name. *)
Theorem empty_category_is_uncategorized (parser : string -> option datetime)
    (task : Task) :
  category task = Some "" ->
  (forall groups,
      category_step parser groups task
      = category_step parser groups (without_category task))
  /\ (forall now,
        score_task parser now task = score_task parser now (without_category task)
        /\ rec_category (score_task parser now task) = "Uncategorized")
  /\ (forall before after,
        analyze_category_performance parser (before ++ task :: after)
        = analyze_category_performance parser (before ++ without_category task :: after))
  /\ (forall before after,
        exists r e,
          analyze_category_performance parser (before ++ task :: after) = Some r
          /\ In e (categories r)
          /\ ce_category e = "Uncategorized"
          /\ task_count e = len (tasks_in "Uncategorized" (before ++ task :: after))
          /\ In task (tasks_in "Uncategorized" (before ++ task :: after)))
  /\ (forall clock before after completed_tasks,
        recommend_task_order parser clock (before ++ task :: after) completed_tasks
        = recommend_task_order parser clock (before ++ without_category task :: after)
            completed_tasks).
Proof.
  intro Hcat.
  assert (Hstep : forall groups,
    category_step parser groups task
    = category_step parser groups (without_category task)).
  { intro groups. unfold category_step, without_category. simpl.
    rewrite Hcat. reflexivity. }
  assert (Hscore : forall now,
    score_task parser now task = score_task parser now (without_category task)).
  { intro now. unfold score_task, base_score, task_priority, due_date_score,
      without_category. simpl. rewrite Hcat. reflexivity. }
  assert (Hname : category_name task = "Uncategorized").
  { unfold category_name. now rewrite Hcat. }
  split; [exact Hstep|]. split; [| split; [| split]].
  - intro now. split; [apply Hscore|].
    unfold score_task. simpl. rewrite Hcat. reflexivity.
  - intros before after. unfold analyze_category_performance, category_groups.
    rewrite !fold_left_app. simpl. rewrite <- Hstep.
    destruct before; reflexivity.
  - intros before after.
    destruct (analyze_category_performance_some parser (before ++ task :: after))
      as [message Hr].
    { destruct before; discriminate. }
    destruct (category_groups_facts parser (before ++ task :: after))
      as (_ & Hkeys & Hcount & _).
    assert (Hin : In "Uncategorized"
                    (map fst (category_groups parser (before ++ task :: after)))).
    { apply Hkeys. rewrite <- Hname. apply in_map, in_elt. }
    apply in_map_iff in Hin. destruct Hin as [[key data] [Hkey Hin]].
    simpl in Hkey. subst key.
    eexists. exists (category_entry ("Uncategorized", data)).
    split; [exact Hr|]. cbn [categories].
    split; [apply sorted_desc_in; now apply in_map|].
    split; [reflexivity|]. split; [now apply Hcount|].
    unfold tasks_in. apply filter_In. split; [apply in_elt|].
    rewrite Hname. reflexivity.
  - intros clock before after completed_tasks. unfold recommend_task_order.
    assert (Heq : forall k,
      score_tasks parser clock k (before ++ task :: after)
      = score_tasks parser clock k (before ++ without_category task :: after)).
    { induction before as [|b before IH]; intro k; simpl.
      - now rewrite Hscore.
      - now rewrite IH. }
    rewrite Heq. destruct before; reflexivity.
Qed.

Lemma empty_category_is_uncategorized_witness :
  category priority_zero = Some ""
  /\ rec_category (score_task fromisoformat_ref (of_wall_us sample_clock) priority_zero)
     = "Uncategorized".
Proof.
  split; [reflexivity|].
  apply (empty_category_is_uncategorized fromisoformat_ref priority_zero).
  reflexivity.
Defined.

(** *** Productive time *)

Lemma completion_hour_spec (parser : string -> option datetime) (task : Task) :
  completion_hour parser task = completion_hour_of parser task.
Proof.
  unfold completion_hour, completion_hour_of, parsed, parse, truthy_value.
  destruct (completed_at task) as [|n|x|[|c text]]; simpl; try reflexivity.
  - destruct (n =? 0); reflexivity.
  - destruct (PrimFloat.eqb x 0); reflexivity.
  - destruct (parser (String c text)); reflexivity.
Qed.

Lemma completion_hours_empty (parser : string -> option datetime)
    (tasks : list Task) :
  completion_hours parser tasks = []
  <-> forall task, In task tasks -> parsed parser (completed_at task) = None.
Proof.
  unfold completion_hours.
  induction tasks as [|task tasks IH]; simpl.
  - split; [intros _ t [] | reflexivity].
  - rewrite completion_hour_spec. unfold completion_hour_of.
    destruct (parsed parser (completed_at task)) as [d|] eqn:E; simpl.
    + split; [discriminate|]. intro H.
      specialize (H task (or_introl eq_refl)). congruence.
    + rewrite IH. split.
      * intros H t [<- | Ht]; [exact E | now apply H].
      * intros H t Ht. apply H. now right.
Qed.

Lemma occurrences_completions (parser : string -> option datetime)
    (tasks : list Task) (h : Z) :
  occurrences (completion_hours parser tasks) h = completions_at parser tasks h.
Proof.
  unfold occurrences, completions_at, len, completion_hours.
  f_equal.
  induction tasks as [|task tasks IH]; simpl; [reflexivity|].
  rewrite count_occ_app, IH. unfold completed_at_hour.
  rewrite completion_hour_spec.
  destruct (completion_hour_of parser task) as [h'|]; simpl; [| reflexivity].
  destruct (Z.eq_dec h' h) as [->|Hne].
  - now rewrite Z.eqb_refl.
  - apply Z.eqb_neq in Hne. now rewrite Hne.
Qed.

Lemma range_in (n : nat) (h : Z) : In h (range n) <-> 0 <= h < Z.of_nat n.
Proof.
  unfold range. rewrite in_map_iff. split.
  - intros [k [<- Hk]]. apply in_seq in Hk. lia.
  - intro H. exists (Z.to_nat h). split; [lia|]. apply in_seq. lia.
Qed.

Lemma hour_counts_in (hours : list Z) (p : Z * Z) :
  In p (hour_counts hours)
  <-> 0 <= fst p < 24 /\ snd p = occurrences hours (fst p).
Proof.
  unfold hour_counts. rewrite in_map_iff. split.
  - intros [h [<- Hh]]. apply range_in in Hh. simpl. split; [lia | reflexivity].
  - intros [Hr Hs]. exists (fst p). split.
    + destruct p; simpl in *. now subst.
    + apply range_in. simpl. lia.
Qed.

Lemma indexed_sorted (f : Z -> Z) (n a : nat) :
  StronglySorted (fun p q : Z * Z => fst p < fst q)
    (map (fun h => (h, f h)) (map Z.of_nat (seq a n))).
Proof.
  revert a. induction n as [|n IH]; intro a; simpl; constructor.
  - apply IH.
  - apply Forall_forall. intros q Hq.
    apply in_map_iff in Hq. destruct Hq as [h [<- Hh]].
    apply in_map_iff in Hh. destruct Hh as [k [<- Hk]].
    apply in_seq in Hk. simpl. lia.
Qed.

Lemma StronglySorted_filter {A} (R : A -> A -> Prop) (f : A -> bool) (l : list A) :
  StronglySorted R l -> StronglySorted R (filter f l).
Proof.
  induction 1 as [|x l Hs IH Hx]; simpl; [constructor|].
  destruct (f x); [| exact IH].
  constructor; [exact IH|].
  apply Forall_forall. intros y Hy. apply filter_In in Hy.
  rewrite Forall_forall in Hx. now apply Hx.
Qed.

Lemma StronglySorted_app_inv {A} (R : A -> A -> Prop) (l1 l2 : list A) :
  StronglySorted R (l1 ++ l2) ->
  forall a b, In a l1 -> In b l2 -> R a b.
Proof.
  induction l1 as [|x l1 IH]; simpl; intros Hs a b Ha Hb; [contradiction|].
  inversion Hs as [|? ? Hs' Hx]; subst.
  destruct Ha as [<- | Ha].
  - rewrite Forall_forall in Hx. apply Hx. apply in_or_app. now right.
  - now apply IH.
Qed.

Lemma StronglySorted_map_fst (cnt : Z -> Z) (l : list (Z * Z)) :
  (forall p, In p l -> snd p = cnt (fst p)) ->
  StronglySorted (lex_desc snd (fun p q => fst p < fst q)) l ->
  StronglySorted (outranks cnt) (map fst l).
Proof.
  intros Hcnt Hs. induction Hs as [|x l Hs IH Hx]; simpl; constructor.
  - apply IH. intros p Hp. apply Hcnt. now right.
  - apply Forall_forall. intros h Hh.
    apply in_map_iff in Hh. destruct Hh as [q [<- Hq]].
    rewrite Forall_forall in Hx. specialize (Hx q Hq).
    unfold lex_desc in Hx. unfold outranks.
    rewrite <- (Hcnt x (or_introl eq_refl)), <- (Hcnt q (or_intror Hq)).
    exact Hx.
Qed.

Lemma filter_all {A} (f : A -> bool) (l : list A) :
  (forall x, In x l -> f x = true) -> filter f l = l.
Proof.
  induction l as [|x l IH]; simpl; intro H; [reflexivity|].
  rewrite (H x (or_introl eq_refl)). f_equal. apply IH.
  intros y Hy. apply H. now right.
Qed.

Lemma format_hour_twelve (h : Z) : 0 <= h < 24 -> format_hour h = twelve_hour h.
Proof.
  intro Hh. unfold format_hour, twelve_hour.
  destruct (h <? 12) eqn:E; [apply Z.ltb_lt in E | apply Z.ltb_ge in E].
  - now rewrite (Z.mod_small h 12) by lia.
  - replace (h mod 12) with (h - 12); [reflexivity|].
    apply (Z.mod_unique_pos h 12 1 (h - 12)); lia.
Qed.

Lemma completion_hours_in (parser : string -> option datetime)
    (tasks : list Task) (h : Z) :
  In h (completion_hours parser tasks) ->
  exists task, In task tasks /\ parsed parser (completed_at task) <> None.
Proof.
  unfold completion_hours. rewrite in_flat_map.
  intros [task [Hin Hh]]. exists task. split; [exact Hin|].
  rewrite completion_hour_spec in Hh. unfold completion_hour_of in Hh.
  destruct (parsed parser (completed_at task)); [discriminate | contradiction].
Qed.

Lemma top_buckets (cnt : Z -> Z) (counts : list (Z * Z)) :
  (forall p, In p counts <-> 0 <= fst p < 24 /\ snd p = cnt (fst p)) ->
  StronglySorted (fun p q : Z * Z => fst p < fst q) counts ->
  forall hs,
    hs = map fst (filter (fun hc => 0 <? snd hc) (firstn 3 (sorted_desc snd counts))) ->
    (List.length hs <= 3)%nat
    /\ (forall h, In h hs -> 0 <= h < 24 /\ 0 < cnt h)
    /\ StronglySorted (outranks cnt) hs
    /\ (forall h', 0 <= h' < 24 -> 0 < cnt h' -> ~ In h' hs ->
          List.length hs = 3%nat /\ forall h, In h hs -> outranks cnt h h').
Proof.
  intros Hcounts Hsorted hs ->.
  set (sorted := sorted_desc snd counts).
  assert (Hin : forall p, In p sorted -> 0 <= fst p < 24 /\ snd p = cnt (fst p)).
  { intros p Hp. apply Hcounts. now apply sorted_desc_in in Hp. }
  assert (Hlex : StronglySorted (lex_desc snd (fun p q => fst p < fst q)) sorted).
  { now apply sorted_desc_lex. }
  split; [| split; [| split]].
  - rewrite length_map.
    eapply Nat.le_trans; [apply filter_length_le|].
    rewrite length_firstn. apply Nat.le_min_l.
  - intros h Hh. apply in_map_iff in Hh. destruct Hh as [p [<- Hp]].
    apply filter_In in Hp. destruct Hp as [Hp Hpos].
    apply firstn_In, Hin in Hp. destruct Hp as [Hr Hc].
    apply Z.ltb_lt in Hpos. split; [exact Hr | now rewrite <- Hc].
  - apply StronglySorted_map_fst.
    + intros p Hp. apply filter_In in Hp. destruct Hp as [Hp _].
      now apply firstn_In, Hin in Hp.
    + now apply StronglySorted_filter, StronglySorted_firstn.
  - intros h' Hr Hpos Hnot.
    assert (Hp' : In (h', cnt h') sorted).
    { apply sorted_desc_in, Hcounts. simpl. split; [exact Hr | reflexivity]. }
    rewrite <- (firstn_skipn 3 sorted) in Hp', Hlex.
    apply in_app_or in Hp'. destruct Hp' as [Hp' | Hp'].
    { exfalso. apply Hnot. apply in_map_iff. exists (h', cnt h').
      split; [reflexivity|]. apply filter_In. split; [exact Hp'|].
      simpl. now apply Z.ltb_lt. }
    assert (Hbefore : forall p, In p (firstn 3 sorted) ->
              lex_desc snd (fun p q : Z * Z => fst p < fst q) p (h', cnt h')).
    { intros p Hp. eapply StronglySorted_app_inv; eauto. }
    assert (Hall : filter (fun hc => 0 <? snd hc) (firstn 3 sorted) = firstn 3 sorted).
    { apply filter_all. intros p Hp. specialize (Hbefore p Hp).
      unfold lex_desc in Hbefore. simpl in Hbefore. apply Z.ltb_lt.
      destruct Hbefore as [H | [H _]]; lia. }
    rewrite Hall. split.
    + rewrite length_map, length_firstn.
      assert (Hlen : (3 < List.length sorted)%nat).
      { destruct (Nat.le_gt_cases (List.length sorted) 3) as [Hle | Hgt];
          [| exact Hgt].
        rewrite skipn_all2 in Hp' by exact Hle. contradiction. }
      lia.
    + intros h Hh. apply in_map_iff in Hh. destruct Hh as [p [<- Hp]].
      specialize (Hbefore p Hp). unfold lex_desc in Hbefore. simpl in Hbefore.
      apply firstn_In, Hin in Hp. destruct Hp as [_ Hc].
      unfold outranks. rewrite <- Hc. exact Hbefore.
Qed.

(** C5: the productive-time analyzer returns nothing exactly when no task
    has a completion timestamp that parses.  Otherwise [productive_hours]
    renders a list of at most three hours, each with a non-zero count, in
    descending count order with the lower hour first among equal counts, and
    every bucket with completions that is left out is outranked by all three
    listed.  Hours print in 12-hour form: 0 as "12 AM", 12 as "12 PM". *)
Theorem productive_time_top_hours (parser : string -> option datetime)
    (completed_tasks : list Task) (activity_logs : list Activity) :
  match analyze_productive_time parser completed_tasks activity_logs with
  | None =>
      forall task, In task completed_tasks ->
                   parsed parser (completed_at task) = None
  | Some r =>
      (exists task, In task completed_tasks
                    /\ parsed parser (completed_at task) <> None)
      /\ exists hs,
          productive_hours r = map format_hour hs
          /\ (List.length hs <= 3)%nat
          /\ (forall h, In h hs ->
                0 <= h < 24 /\ 0 < completions_at parser completed_tasks h)
          /\ StronglySorted (outranks (completions_at parser completed_tasks)) hs
          /\ (forall h', 0 <= h' < 24 ->
                0 < completions_at parser completed_tasks h' ->
                ~ In h' hs ->
                List.length hs = 3%nat
                /\ forall h, In h hs ->
                     outranks (completions_at parser completed_tasks) h h')
  end
  /\ format_hour 0 = "12 AM"
  /\ format_hour 12 = "12 PM"
  /\ (forall h, 0 <= h < 24 -> format_hour h = twelve_hour h).
Proof.
  split; [| split; [reflexivity | split; [reflexivity | apply format_hour_twelve]]].
  unfold analyze_productive_time.
  destruct completed_tasks as [|task rest]; [intros t []|].
  destruct (completion_hours parser (task :: rest)) as [|h0 hours] eqn:E.
  - now apply completion_hours_empty.
  - split.
    + apply (completion_hours_in parser (task :: rest) h0).
      rewrite E. now left.
    + eexists. cbn [productive_hours].
      split; [symmetry; apply map_map|].
      apply (top_buckets (completions_at parser (task :: rest))
               (hour_counts (h0 :: hours))); [| apply indexed_sorted | reflexivity].
      intro p. rewrite hour_counts_in, <- E, occurrences_completions. tauto.
Qed.

(** *** Completion rate *)

Lemma truthy_parsed (parser : string -> option datetime) (field : value) :
  parsed parser field
  = match truthy_value field with
    | Some stamp =>
        match parse parser stamp with
        | Ok d => Some d
        | Raise _ => None
        end
    | None => None
    end.
Proof.
  destruct field as [|n|x|[|c text]]; simpl; try reflexivity;
    [destruct (n =? 0) | destruct (PrimFloat.eqb x 0) | destruct (parser _)];
    reflexivity.
Qed.

Lemma on_time_step_spec (parser : string -> option datetime) (counts : Z * Z)
    (task : Task) :
  on_time_step parser counts task
  = (fst counts + (if finished_on_time parser task then 1 else 0),
     snd counts + (if in_sample parser task && negb (finished_on_time parser task)
                   then 1 else 0)).
Proof.
  unfold on_time_step, finished_on_time, in_sample, both_dates.
  rewrite !truthy_parsed.
  destruct counts as [a b]; simpl.
  destruct (truthy_value (due_date task)) as [due_text|],
           (truthy_value (completed_at task)) as [completed_text|];
    try (simpl; f_equal; lia);
    try (destruct (parse parser due_text) as [?|[|]]; simpl; f_equal; lia).
  destruct (parse parser due_text) as [due|[|]]; simpl; try (f_equal; lia).
  destruct (parse parser completed_text) as [completed|[|]]; simpl;
    try (f_equal; lia).
  destruct (le completed due) as [[|]|[|]]; simpl; f_equal; lia.
Qed.

Lemma on_time_counts (parser : string -> option datetime) (tasks : list Task) :
  forall counts,
    fst (fold_left (on_time_step parser) tasks counts)
    = fst counts + len (filter (finished_on_time parser) tasks)
    /\ fst (fold_left (on_time_step parser) tasks counts)
       + snd (fold_left (on_time_step parser) tasks counts)
       = fst counts + snd counts + len (filter (in_sample parser) tasks).
Proof.
  unfold len.
  induction tasks as [|task tasks IH]; intro counts; simpl; [lia|].
  destruct (IH (on_time_step parser counts task)) as [H1 H2].
  rewrite on_time_step_spec in H1, H2 |- *. simpl in H1, H2.
  assert (Himp : finished_on_time parser task = true -> in_sample parser task = true).
  { unfold finished_on_time, in_sample.
    destruct (both_dates parser task) as [[due completed]|]; [| discriminate].
    destruct (le completed due); [reflexivity | discriminate]. }
  split; [rewrite H1 | rewrite H2];
    destruct (finished_on_time parser task), (in_sample parser task);
    simpl; try lia;
    specialize (Himp eq_refl); discriminate.
Qed.

Lemma in_sample_iff (parser : string -> option datetime) (task : Task) :
  in_sample parser task = true
  <-> exists due completed,
        both_dates parser task = Some (due, completed)
        /\ (tzinfo due = None <-> tzinfo completed = None).
Proof.
  unfold in_sample.
  destruct (both_dates parser task) as [[due completed]|].
  - unfold le, aligned, bind.
    split.
    + intro H. exists due, completed. split; [reflexivity|].
      destruct (tzinfo completed), (tzinfo due); try discriminate;
        split; intro; congruence.
    + intros (due' & completed' & Heq & Htz). injection Heq as <- <-.
      destruct (tzinfo completed), (tzinfo due); try reflexivity;
        destruct Htz as [Hd Hc];
        first [specialize (Hd eq_refl) | specialize (Hc eq_refl)]; discriminate.
  - split; [discriminate|]. intros (? & ? & H & _). discriminate.
Qed.

Lemma len_nil_iff {A} (l : list A) : len l = 0 <-> l = [].
Proof.
  unfold len. destruct l; simpl; split; try reflexivity; try discriminate; lia.
Qed.

Lemma shares_rounded_100 : shares_rounded 100 = true.
Proof. vm_compute. reflexivity. Qed.

Lemma shares_rounded_spec (bound : nat) (part whole : Z) :
  shares_rounded bound = true ->
  0 <= part <= whole ->
  1 <= whole <= Z.of_nat bound ->
  rounded_share (Tenths (round1 (percent part whole))) part whole = true.
Proof.
  intros Hall Hpart Hwhole. unfold shares_rounded in Hall.
  rewrite forallb_forall in Hall.
  assert (Hin : In whole (map (Z.add 1) (range bound))).
  { apply in_map_iff. exists (whole - 1). split; [lia|]. apply range_in. lia. }
  specialize (Hall whole Hin). rewrite forallb_forall in Hall.
  apply Hall. apply range_in. lia.
Qed.

(** Up to a hundred tasks, the float expression [part / whole * 100] and
    [round(_, 1)] give the exact quotient rounded to one decimal. *)
Lemma rounded_share_percent (part whole : Z) :
  0 <= part <= whole ->
  1 <= whole <= 100 ->
  rounded_share (Tenths (round1 (percent part whole))) part whole = true.
Proof.
  intros Hpart Hwhole.
  apply (shares_rounded_spec 100 part whole shares_rounded_100 Hpart).
  lia.
Qed.

Lemma filter_len_le {A} (f : A -> bool) (l : list A) : len (filter f l) <= len l.
Proof. unfold len. pose proof (filter_length_le f l). lia. Qed.

Lemma finished_in_sample (parser : string -> option datetime) (tasks : list Task) :
  len (filter (finished_on_time parser) tasks)
  <= len (filter (in_sample parser) tasks).
Proof.
  unfold len. apply inj_le.
  induction tasks as [|task tasks IH]; simpl; [lia|].
  assert (Himp : finished_on_time parser task = true -> in_sample parser task = true).
  { unfold finished_on_time, in_sample.
    destruct (both_dates parser task) as [[due completed]|]; [| discriminate].
    destruct (le completed due); [reflexivity | discriminate]. }
  destruct (finished_on_time parser task), (in_sample parser task); simpl;
    try lia.
Qed.

(** C6, as the specification states it, fails on a completed task whose due
    date carries a UTC offset while its completion date has none.  Both
    dates parse, so the task is in the stated subset, which then has two
    tasks of which one finished on time: 50.0.  The analyzer leaves the task
    out and reports 100.0. *)
Lemma on_time_sample_leaves_out_mixed_offsets :
  map (stated_sample fromisoformat_ref) mixed_offsets = [true; true]
  /\ map (finished_on_time fromisoformat_ref) mixed_offsets = [true; false]
  /\ option_map on_time_percentage
       (analyze_completion_rate fromisoformat_ref mixed_offsets [])
     = Some (Tenths 1000)
  /\ rounded_share (Tenths 1000) 1 2 = false
  /\ rounded_share (Tenths 500) 1 2 = true.
Proof. repeat split. Qed.

(** C6 (amended): the completion-rate analyzer returns nothing exactly when
    both lists are empty.  Otherwise it reports the two counts;
    [completion_rate] is completed / (completed + pending) * 100 rounded to
    one decimal; and [on_time_percentage] is taken over the completed tasks
    whose due and completion dates both parse and can be compared (both
    without or both with a UTC offset), as the share of those completed at
    or before the due date, rounded to one decimal, and is the integer 0
    when there is no such task.  The rounding is shown against the exact
    quotient for up to a hundred tasks, and as the float expression for any
    number.  Six completed tasks without due dates and no pending task give
    100.0 and 0. *)
Theorem completion_rate_spec (parser : string -> option datetime)
    (completed_tasks pending_tasks : list Task) :
  match analyze_completion_rate parser completed_tasks pending_tasks with
  | None => completed_tasks = [] /\ pending_tasks = []
  | Some r =>
      (completed_tasks <> [] \/ pending_tasks <> [])
      /\ completed_count r = len completed_tasks
      /\ pending_count r = len pending_tasks
      /\ (len completed_tasks + len pending_tasks <= 100 ->
          rounded_share (completion_rate r) (len completed_tasks)
            (len completed_tasks + len pending_tasks) = true)
      /\ completion_rate r
         = Tenths (round1 (percent (len completed_tasks)
                             (len completed_tasks + len pending_tasks)))
      /\ match filter (in_sample parser) completed_tasks with
         | [] => on_time_percentage r = Int 0
         | sample =>
             (len completed_tasks <= 100 ->
              rounded_share (on_time_percentage r)
                (len (filter (finished_on_time parser) completed_tasks))
                (len sample) = true)
             /\ on_time_percentage r
                = Tenths (round1 (percent
                                    (len (filter (finished_on_time parser)
                                            completed_tasks))
                                    (len sample)))
         end
      /\ (forall task, in_sample parser task = true
                       <-> exists due completed,
                             both_dates parser task = Some (due, completed)
                             /\ (tzinfo due = None <-> tzinfo completed = None))
      /\ ((forall task, In task completed_tasks -> both_dates parser task = None) ->
          on_time_percentage r = Int 0)
      /\ cr_message r
         = "You've completed " ++ str_of_num (completion_rate r)
           ++ "% of your tasks, with " ++ str_of_num (on_time_percentage r)
           ++ "% completed on time."
  end
  /\ (List.length completed_tasks = 6%nat ->
      pending_tasks = [] ->
      (forall task, In task completed_tasks -> due_date task = PyNone) ->
      exists r,
        analyze_completion_rate parser completed_tasks pending_tasks = Some r
        /\ completion_rate r = Tenths 1000
        /\ on_time_percentage r = Int 0
        /\ str_of_num (completion_rate r) = "100.0"
        /\ str_of_num (on_time_percentage r) = "0").
Proof.
  assert (Hotp : forall r,
    analyze_completion_rate parser completed_tasks pending_tasks = Some r ->
    on_time_percentage r
    = match filter (in_sample parser) completed_tasks with
      | [] => Int 0
      | sample =>
          Tenths (round1 (percent
                            (len (filter (finished_on_time parser) completed_tasks))
                            (len sample)))
      end).
  { intros r Hr. unfold analyze_completion_rate in Hr.
    destruct (len completed_tasks + len pending_tasks =? 0); [discriminate|].
    injection Hr as <-. cbn [on_time_percentage].
    destruct (on_time_counts parser completed_tasks (0, 0)) as [H1 H2].
    simpl in H1, H2. rewrite H2, H1. unfold rounded_percentage.
    destruct (filter (in_sample parser) completed_tasks) as [|t sample] eqn:E.
    - reflexivity.
    - replace (0 <? len (t :: sample)) with true; [reflexivity|].
      symmetry. apply Z.ltb_lt. unfold len. simpl List.length. lia. }
  assert (Hempty :
    (forall task, In task completed_tasks -> both_dates parser task = None) ->
    filter (in_sample parser) completed_tasks = []).
  { intro Hnone.
    destruct (filter (in_sample parser) completed_tasks) as [|t sample] eqn:E;
      [reflexivity|].
    assert (Hin : In t (filter (in_sample parser) completed_tasks))
      by (rewrite E; now left).
    apply filter_In in Hin. destruct Hin as [Hin Hs].
    unfold in_sample in Hs. rewrite (Hnone t Hin) in Hs. discriminate. }
  assert (Hlen : forall A (l : list A), 0 <= len l) by (intros; unfold len; lia).
  split.
  - destruct (analyze_completion_rate parser completed_tasks pending_tasks)
      as [r|] eqn:Er.
    + assert (Hfields : completed_count r = len completed_tasks
                        /\ pending_count r = len pending_tasks
                        /\ completion_rate r
                           = Tenths (round1 (percent (len completed_tasks)
                                               (len completed_tasks
                                                + len pending_tasks)))
                        /\ cr_message r
                           = "You've completed " ++ str_of_num (completion_rate r)
                             ++ "% of your tasks, with "
                             ++ str_of_num (on_time_percentage r)
                             ++ "% completed on time."
                        /\ len completed_tasks + len pending_tasks <> 0).
      { unfold analyze_completion_rate in Er.
        destruct (len completed_tasks + len pending_tasks =? 0) eqn:E;
          [discriminate|].
        apply Z.eqb_neq in E. injection Er as <-.
        repeat split; try reflexivity. exact E. }
      destruct Hfields as (Hc & Hp & Hrate & Hmsg & Hnz).
      split; [| split; [| split; [| split; [| split; [| split;
        [| split; [| split]]]]]]].
      * destruct completed_tasks; [| left; discriminate].
        destruct pending_tasks; [| right; discriminate].
        exfalso. apply Hnz. reflexivity.
      * exact Hc.
      * exact Hp.
      * intro Hbound. rewrite Hrate. apply rounded_share_percent.
        -- pose proof (Hlen _ completed_tasks). pose proof (Hlen _ pending_tasks).
           lia.
        -- pose proof (Hlen _ completed_tasks). pose proof (Hlen _ pending_tasks).
           lia.
      * exact Hrate.
      * rewrite (Hotp r eq_refl).
        destruct (filter (in_sample parser) completed_tasks) as [|t sample] eqn:E;
          [reflexivity|].
        split; [| reflexivity].
        intro Hbound. apply rounded_share_percent.
        -- split; [apply Hlen|]. rewrite <- E. apply finished_in_sample.
        -- split.
           ++ unfold len. simpl List.length. lia.
           ++ rewrite <- E.
              pose proof (filter_len_le (in_sample parser) completed_tasks). lia.
      * intro task. apply in_sample_iff.
      * intro Hnone. rewrite (Hotp r eq_refl), (Hempty Hnone). reflexivity.
      * exact Hmsg.
    + unfold analyze_completion_rate in Er.
      destruct (len completed_tasks + len pending_tasks =? 0) eqn:E;
        [| discriminate].
      apply Z.eqb_eq in E. unfold len in E.
      destruct completed_tasks; [| cbn [List.length] in E; lia].
      destruct pending_tasks; [| cbn [List.length] in E; lia].
      split; reflexivity.
  - intros Hsix -> Hdue.
    assert (Hnone : forall task, In task completed_tasks ->
                                 both_dates parser task = None).
    { intros task Hin. unfold both_dates, parsed. now rewrite (Hdue task Hin). }
    destruct (analyze_completion_rate parser completed_tasks []) as [r|] eqn:Er.
    + exists r. split; [reflexivity|].
      assert (Hz : on_time_percentage r = Int 0).
      { rewrite (Hotp r eq_refl), (Hempty Hnone). reflexivity. }
      assert (Hrate : completion_rate r = Tenths 1000).
      { unfold analyze_completion_rate, len in Er. rewrite Hsix in Er.
        simpl in Er. injection Er as <-. reflexivity. }
      rewrite Hz, Hrate. repeat split; reflexivity.
    + unfold analyze_completion_rate, len in Er. rewrite Hsix in Er.
      simpl in Er. discriminate.
Qed.

Lemma completion_rate_spec_witness :
  exists r,
    analyze_completion_rate fromisoformat_ref six_completed [] = Some r
    /\ str_of_num (completion_rate r) = "100.0"
    /\ str_of_num (on_time_percentage r) = "0".
Proof.
  destruct (completion_rate_spec fromisoformat_ref six_completed []) as [_ H].
  destruct H as (r & Hr & _ & _ & H1 & H2).
  - reflexivity.
  - reflexivity.
  - intros task Hin. simpl in Hin.
    repeat (destruct Hin as [<- | Hin]; [reflexivity|]). contradiction.
  - exists r. repeat split; assumption.
Defined.

(** *** Insight generator *)

(** C8: the generator makes records only with more than five completed
    tasks, a task-recommendations record only with, besides, more than one
    pending task, and for each analyzer one record of its type when it
    returns a result and none when it returns nothing; it makes no other
    record. *)
Theorem generator_records (parser : string -> option datetime) (user : string)
    (clock : nat -> Z) (completed_tasks pending_tasks : list Task)
    (activity_logs : list Activity) :
  (len completed_tasks <= 5 ->
   new_insights parser user clock completed_tasks pending_tasks activity_logs = [])
  /\ of_kind "productive_time"
       (new_insights parser user clock completed_tasks pending_tasks activity_logs)
     = record_of user "productive_time" ProductiveTimeData
         (5 <? len completed_tasks)
         (analyze_productive_time parser completed_tasks activity_logs)
  /\ of_kind "completion_rate"
       (new_insights parser user clock completed_tasks pending_tasks activity_logs)
     = record_of user "completion_rate" CompletionRateData
         (5 <? len completed_tasks)
         (analyze_completion_rate parser completed_tasks pending_tasks)
  /\ of_kind "category_performance"
       (new_insights parser user clock completed_tasks pending_tasks activity_logs)
     = record_of user "category_performance" CategoryPerformanceData
         (5 <? len completed_tasks)
         (analyze_category_performance parser completed_tasks)
  /\ of_kind "task_recommendations"
       (new_insights parser user clock completed_tasks pending_tasks activity_logs)
     = record_of user "task_recommendations" TaskRecommendationsData
         ((5 <? len completed_tasks) && (1 <? len pending_tasks))
         (recommend_task_order parser clock pending_tasks completed_tasks)
  /\ new_insights parser user clock completed_tasks pending_tasks activity_logs
     = (of_kind "productive_time"
          (new_insights parser user clock completed_tasks pending_tasks activity_logs)
        ++ of_kind "completion_rate"
             (new_insights parser user clock completed_tasks pending_tasks activity_logs)
        ++ of_kind "category_performance"
             (new_insights parser user clock completed_tasks pending_tasks activity_logs)
        ++ of_kind "task_recommendations"
             (new_insights parser user clock completed_tasks pending_tasks activity_logs))%list
  /\ (forall i,
        In i (new_insights parser user clock completed_tasks pending_tasks activity_logs) ->
        5 < len completed_tasks
        /\ (insight_type i = "task_recommendations" -> 1 < len pending_tasks)).
Proof.
  unfold new_insights, of_kind, record_of, insight_of.
  destruct (5 <? len completed_tasks) eqn:Ec;
    [apply Z.ltb_lt in Ec | apply Z.ltb_ge in Ec].
  - destruct (analyze_productive_time parser completed_tasks activity_logs),
             (analyze_completion_rate parser completed_tasks pending_tasks),
             (analyze_category_performance parser completed_tasks);
      (destruct (1 <? len pending_tasks) eqn:Ep;
       [ apply Z.ltb_lt in Ep;
         destruct (recommend_task_order parser clock pending_tasks completed_tasks)
       | ]);
      (split; [intro; lia|]);
      repeat (split; [reflexivity|]);
      intros i Hin; (split; [exact Ec|]); intro Hk; try exact Ep;
      simpl in Hin;
      repeat (destruct Hin as [<- | Hin]; [discriminate Hk|]);
      contradiction.
  - repeat (split; [reflexivity|]). intros i [].
Qed.

(** *** Notification planner *)

Lemma of_wall_us_naive (us : Z) : tzinfo (of_wall_us us) = None.
Proof. reflexivity. Qed.

Lemma filter_raising_ok {A} (p : A -> result bool) (f : A -> bool) (l : list A) :
  (forall x, In x l -> p x = Ok (f x)) ->
  filter_raising p l = Ok (filter f l).
Proof.
  induction l as [|x l IH]; intro H; simpl; [reflexivity|].
  rewrite (H x (or_introl eq_refl)). simpl.
  rewrite IH by (intros y Hy; apply H; now right). simpl.
  destruct (f x); reflexivity.
Qed.

Lemma due_on_text (today : string) (task : Task) :
  numeric_due task = false ->
  due_on today task = Ok (due_text_on today task).
Proof.
  unfold numeric_due, due_on, due_text_on, truthy_value, startswith.
  destruct (due_date task) as [|n|x|[|c text]]; try reflexivity.
  - destruct (n =? 0); [reflexivity | discriminate].
  - destruct (PrimFloat.eqb x 0); [reflexivity | discriminate].
Qed.

Lemma due_on_number (today : string) (task : Task) :
  numeric_due task = true ->
  due_on today task = Raise AttributeError.
Proof.
  unfold numeric_due, due_on, truthy_value.
  destruct (due_date task) as [|n|x|[|c text]]; try discriminate.
  - destruct (n =? 0); [discriminate | reflexivity].
  - destruct (PrimFloat.eqb x 0); [discriminate | reflexivity].
Qed.

(** The due-today pass over rows without a numeric due date. *)
Lemma due_today_pass (today : string) (tasks : list Task) :
  existsb numeric_due tasks = false ->
  filter_raising (due_on today) tasks = Ok (filter (due_text_on today) tasks).
Proof.
  intro Hnone. apply filter_raising_ok. intros task Hin.
  apply due_on_text. destruct (numeric_due task) eqn:E; [| reflexivity].
  assert (Hex : existsb numeric_due tasks = true)
    by (apply existsb_exists; now exists task).
  congruence.
Qed.

Lemma is_high_priority_datable (parser : string -> option datetime)
    (now : datetime) (task : Task) :
  tzinfo now = None ->
  datable parser task = true ->
  is_high_priority parser now task = Ok (upcoming_high_priority parser now task).
Proof.
  intros Hnow Hplan.
  unfold is_high_priority, upcoming_high_priority, datable,
    high_priority_value, parsed, truthy_value, parse in *.
  destruct (priority task) as [p|]; [| reflexivity].
  destruct ((p =? 1) || (p =? 2)); [| reflexivity].
  destruct (due_date task) as [|n|x|[|c text]]; try reflexivity.
  - now rewrite Hplan.
  - now rewrite Hplan.
  - cbn [String.eqb] in *.
    destruct (parser (String c text)) as [due|]; [| discriminate].
    destruct (tzinfo due) eqn:Edue; [discriminate|].
    cbn [bind unguarded]. unfold gt, sub, aligned. rewrite Edue, Hnow.
    cbn [bind fst snd unguarded].
    generalize (wall_us now), (wall_us due). intros a b.
    destruct (a <? b); reflexivity.
Qed.

Lemma plannable_parts (parser : string -> option datetime) (task : Task) :
  plannable parser task = true
  <-> numeric_due task = false /\ datable parser task = true.
Proof.
  unfold plannable. rewrite andb_true_iff, negb_true_iff. tauto.
Qed.

Lemma plannable_all (parser : string -> option datetime) (tasks : list Task) :
  (forall task, In task tasks -> plannable parser task = true) ->
  existsb numeric_due tasks = false.
Proof.
  intro Hall. destruct (existsb numeric_due tasks) eqn:E; [| reflexivity].
  apply existsb_exists in E. destruct E as (task & Hin & Hnum).
  apply Hall, plannable_parts in Hin. destruct Hin as [Hin _]. congruence.
Qed.

Lemma is_high_priority_plannable (parser : string -> option datetime)
    (now : datetime) (task : Task) :
  tzinfo now = None ->
  plannable parser task = true ->
  is_high_priority parser now task = Ok (upcoming_high_priority parser now task).
Proof.
  intros Hnow Hplan. apply is_high_priority_datable; [exact Hnow|].
  now apply plannable_parts in Hplan.
Qed.

(** The unguarded parse: a high-priority pending task whose due date is a
    text that does not parse makes the planner raise, whatever else it is
    given beside rows with due dates that are no numbers. *)
Lemma planner_raises (parser : string -> option datetime) (settings : Settings)
    (task : Task) (rest : list Task) (insight : option Insight) (clock : Z)
    (c : ascii) (text : string) :
  is_true (enable_push settings) = true ->
  high_priority_value task = true ->
  due_date task = PyStr (String c text) ->
  parser (String c text) = None ->
  existsb numeric_due rest = false ->
  schedule_smart_notifications parser (Some settings) (task :: rest) insight clock
  = Raise ValueError.
Proof.
  intros Hpush Hhigh Hdue Hparse Hrest.
  unfold schedule_smart_notifications. rewrite Hpush. cbn [negb].
  rewrite due_today_pass
    by (cbn [existsb]; unfold numeric_due at 1; now rewrite Hdue, Hrest).
  cbn [bind filter_raising].
  unfold is_high_priority at 1. unfold high_priority_value in Hhigh.
  destruct (priority task) as [p|]; [| discriminate].
  rewrite Hhigh, Hdue. cbn [truthy_value parse]. rewrite Hparse. reflexivity.
Qed.

(** C1 (code defect): with push enabled and one pending task of priority 1
    whose due date is the text "next friday", the planner ends in
    [ValueError] where the specification promises a result; a generator run
    over the same rows ends in that exception after its rows are committed.
    The recommender, which guards the same parse, scores the task. *)
Theorem planner_raises_on_unparseable_due_date :
  schedule_smart_notifications fromisoformat_ref (Some push_on) [bad_due_date]
    None sample_clock = Raise ValueError
  /\ snd (generate_task_insights fromisoformat_ref "user-1" fixed_clock
            six_completed [bad_due_date] [] (Some push_on) None sample_clock)
     = Raise ValueError
  /\ option_map (fun r => map score (recommended_tasks r))
       (recommend_task_order fromisoformat_ref fixed_clock [bad_due_date] [])
     = Some [50].
Proof.
  split; [| split].
  - apply (planner_raises _ _ _ _ _ _ "n" "ext friday"); reflexivity.
  - unfold generate_task_insights. cbn [snd].
    rewrite (planner_raises _ _ _ _ _ _ "n" "ext friday"); reflexivity.
  - reflexivity.
Qed.

(** C2, as the specification states it, fails with push disabled: the
    planner returns [None], which is not the empty list. *)
Lemma planner_returns_none_not_empty_list :
  is_true (enable_push push_off) = false
  /\ schedule_smart_notifications fromisoformat_ref (Some push_off)
       plannable_pending None sample_clock = Ok None
  /\ schedule_smart_notifications fromisoformat_ref (Some push_off)
       plannable_pending None sample_clock <> Ok (Some []).
Proof.
  repeat split; try reflexivity. discriminate.
Qed.

(** C2 (amended): the planner returns [None], no list, when the settings
    row is missing, when [enable_push] is false, and when there is no
    pending task, whatever the other inputs.  With push enabled and pending
    tasks whose due dates it can take (none is a number other than zero,
    and those of the tasks of priority 1 or 2 are missing, zero, empty, or
    a text that parses to a naive value), it returns the list of the
    candidates that apply, at most three, possibly none. *)
Theorem planner_guards (parser : string -> option datetime)
    (settings : option Settings) (pending_tasks : list Task)
    (productive_time_insight : option Insight) (clock : Z) :
  (settings = None
   \/ (exists s, settings = Some s /\ is_true (enable_push s) = false)
   \/ pending_tasks = [] ->
   schedule_smart_notifications parser settings pending_tasks
     productive_time_insight clock = Ok None)
  /\ (forall s,
        settings = Some s ->
        is_true (enable_push s) = true ->
        pending_tasks <> [] ->
        (forall task, In task pending_tasks -> plannable parser task = true) ->
        schedule_smart_notifications parser settings pending_tasks
          productive_time_insight clock
        = Ok (Some (candidates parser (of_wall_us clock) pending_tasks
                      productive_time_insight))
        /\ (List.length (candidates parser (of_wall_us clock) pending_tasks
                           productive_time_insight) <= 3)%nat).
Proof.
  split.
  - intros [-> | [(s & -> & Hoff) | ->]].
    + reflexivity.
    + unfold schedule_smart_notifications. now rewrite Hoff.
    + unfold schedule_smart_notifications.
      destruct settings as [s|]; [| reflexivity].
      destruct (negb (is_true (enable_push s))); reflexivity.
  - intros s -> Hon Hne Hplan.
    destruct pending_tasks as [|first rest]; [contradiction|].
    split.
    + unfold schedule_smart_notifications. rewrite Hon. cbn [negb].
      rewrite due_today_pass by now apply (plannable_all parser).
      cbn [bind].
      rewrite (filter_raising_ok _ (upcoming_high_priority parser (of_wall_us clock))).
      * unfold candidates. cbn [bind].
        destruct productive_time_insight as [insight|];
          [| now rewrite app_nil_r].
        now rewrite app_assoc.
      * intros task Hin. apply is_high_priority_plannable;
          [apply of_wall_us_naive | now apply Hplan].
    + unfold candidates. rewrite !length_app.
      assert (Hw : forall A B (l : list A) (x : B),
                (List.length (when_nonempty l x) <= 1)%nat).
      { intros A B [|a l] x; simpl; lia. }
      pose proof (Hw _ _ (filter (due_text_on (strftime_date (of_wall_us clock)))
                            (first :: rest))
                    (due_today_notification (of_wall_us clock)
                       (filter (due_text_on (strftime_date (of_wall_us clock)))
                          (first :: rest)))) as H1.
      pose proof (Hw _ _ (filter (upcoming_high_priority parser (of_wall_us clock))
                            (first :: rest))
                    (high_priority_notification (of_wall_us clock)
                       (filter (upcoming_high_priority parser (of_wall_us clock))
                          (first :: rest)))) as H2.
      destruct productive_time_insight as [insight|].
      * pose proof (Hw _ _ (get_productive_hours (insight_data insight))
                      (productive_time_notification first)) as H3.
        lia.
      * simpl List.length at 3. lia.
Qed.

Lemma planner_guards_witness :
  map n_type
    (candidates fromisoformat_ref (of_wall_us sample_clock) plannable_pending None)
  = ["due_today"; "high_priority"]
  /\ schedule_smart_notifications fromisoformat_ref (Some push_on)
       plannable_pending None sample_clock
     = Ok (Some (candidates fromisoformat_ref (of_wall_us sample_clock)
                   plannable_pending None)).
Proof.
  split; [reflexivity|].
  destruct (planner_guards fromisoformat_ref (Some push_on) plannable_pending None
              sample_clock) as [_ H].
  destruct (H push_on) as [Heq _].
  - reflexivity.
  - reflexivity.
  - discriminate.
  - intros task Hin. simpl in Hin.
    repeat (destruct Hin as [<- | Hin]; [reflexivity|]). contradiction.
  - exact Heq.
Defined.

(** *** Sample runs *)

Example rounded_rates :
  map (fun ab => str_of_num (Tenths (round1 (percent (fst ab) (snd ab)))))
      [(1, 3); (2, 3); (1, 16); (1, 80); (3, 2000); (6, 13)]
  = ["33.3"; "66.7"; "6.2"; "1.2"; "0.1"; "46.2"].
Proof. reflexivity. Qed.

Example productive_time_sample :
  option_map productive_hours
    (analyze_productive_time fromisoformat_ref sample_completed [])
  = Some ["2 PM"; "12 AM"; "9 AM"].
Proof. reflexivity. Qed.

Example completion_rate_sample :
  option_map cr_message
    (analyze_completion_rate fromisoformat_ref sample_completed sample_pending)
  = Some "You've completed 50.0% of your tasks, with 50.0% completed on time.".
Proof. reflexivity. Qed.

Example category_performance_sample :
  option_map cp_message
    (analyze_category_performance fromisoformat_ref sample_completed)
  = Some ("You perform best in 'work' tasks (100.0% on time)"
          ++ " and may need improvement in 'Uncategorized' (0.0% on time)").
Proof. reflexivity. Qed.

Example single_category_sample :
  option_map cp_message
    (analyze_category_performance fromisoformat_ref six_completed)
  = Some "You've completed 6 tasks in the 'Uncategorized' category".
Proof. reflexivity. Qed.

Example generator_sample :
  map insight_type
    (new_insights fromisoformat_ref "user-1" fixed_clock sample_completed
       sample_pending [])
  = ["productive_time"; "completion_rate"; "category_performance";
     "task_recommendations"]
  /\ new_insights fromisoformat_ref "user-1" fixed_clock
       (firstn 5 sample_completed) sample_pending [] = [].
Proof. split; reflexivity. Qed.

Example planner_sample :
  option_map (map n_message)
    (match schedule_smart_notifications fromisoformat_ref (Some push_on)
             plannable_pending None sample_clock with
     | Ok plan => plan
     | Raise _ => None
     end)
  = Some ["Tasks due today: Book flights"; "Remember to work on: Prepare slides"].
Proof. reflexivity. Qed.

End Properties.

(** ** Properties beyond the specification *)
Module Further.
Import Py Datetime Backend Spec Derived PyFacts Properties.

(** *** Recommender *)

Lemma days_bounds (diff : Z) :
  us_per_day * days diff <= diff < us_per_day * (days diff + 1).
Proof.
  unfold days, us_per_day.
  pose proof (Z.mul_div_le diff 86400000000 ltac:(lia)).
  pose proof (Z.mul_succ_div_gt diff 86400000000 ltac:(lia)).
  lia.
Qed.

Lemma naive_due_score (parser : string -> option datetime) (now : datetime)
    (task : Task) (due : datetime) :
  tzinfo now = None ->
  naive_due parser task = Some due ->
  due_date_score parser now task = urgency_by_time (wall_us due - wall_us now).
Proof.
  intros Hnow Hdue. rewrite due_date_score_bonus.
  unfold whole_days_until_due, naive_due in *.
  destruct (parsed parser (due_date task)) as [d|]; [| discriminate].
  destruct (tzinfo d) eqn:Etz; [discriminate|]. injection Hdue as ->.
  unfold sub, aligned. rewrite Etz, Hnow. cbn [bind fst snd].
  generalize (wall_us due - wall_us now). intro diff.
  pose proof (days_bounds diff) as Hb.
  unfold urgency_bonus, urgency_by_time. unfold us_per_day in *.
  destruct (days diff <? 0) eqn:E0;
    [apply Z.ltb_lt in E0 | apply Z.ltb_ge in E0].
  { replace (diff <? 0) with true by (symmetry; apply Z.ltb_lt; lia).
    reflexivity. }
  replace (diff <? 0) with false by (symmetry; apply Z.ltb_ge; lia).
  destruct (days diff =? 0) eqn:E1;
    [apply Z.eqb_eq in E1 | apply Z.eqb_neq in E1].
  { replace (diff <? 86400000000) with true by (symmetry; apply Z.ltb_lt; lia).
    reflexivity. }
  replace (diff <? 86400000000) with false by (symmetry; apply Z.ltb_ge; lia).
  destruct (days diff =? 1) eqn:E2;
    [apply Z.eqb_eq in E2 | apply Z.eqb_neq in E2].
  { replace (diff <? 2 * 86400000000) with true
      by (symmetry; apply Z.ltb_lt; lia).
    reflexivity. }
  replace (diff <? 2 * 86400000000) with false
    by (symmetry; apply Z.ltb_ge; lia).
  destruct ((2 <=? days diff) && (days diff <=? 6)) eqn:E3.
  - apply andb_prop in E3. destruct E3 as [_ E3]. apply Z.leb_le in E3.
    replace (diff <? 7 * 86400000000) with true
      by (symmetry; apply Z.ltb_lt; lia).
    reflexivity.
  - apply andb_false_iff in E3. destruct E3 as [E3 | E3];
      [apply Z.leb_gt in E3; lia | apply Z.leb_gt in E3].
    replace (diff <? 7 * 86400000000) with false
      by (symmetry; apply Z.ltb_ge; lia).
    reflexivity.
Qed.

(** X1: the due-date factor goes by elapsed time, not by calendar day.  For
    a due date that parses to a naive value it is 40 once the due instant has
    passed, 30 within the next 24 hours, 20 within the 24 hours after that,
    10 up to seven times 24 hours ahead, and 0 from there on. *)
Theorem urgency_windows (parser : string -> option datetime) (now : datetime)
    (task : Task) (due : datetime) :
  tzinfo now = None ->
  parsed parser (due_date task) = Some due ->
  tzinfo due = None ->
  due_date_score parser now task = urgency_by_time (wall_us due - wall_us now)
  /\ (wall_us due < wall_us now -> due_date_score parser now task = 40)
  /\ (wall_us now <= wall_us due < wall_us now + us_per_day ->
      due_date_score parser now task = 30)
  /\ (wall_us now + 7 * us_per_day <= wall_us due ->
      due_date_score parser now task = 0).
Proof.
  intros Hnow Hdue Htz.
  assert (H : due_date_score parser now task
              = urgency_by_time (wall_us due - wall_us now)).
  { apply naive_due_score; [exact Hnow|].
    unfold naive_due. now rewrite Hdue, Htz. }
  rewrite H. split; [reflexivity|].
  unfold urgency_by_time, us_per_day.
  repeat split; intro Hd.
  - replace (wall_us due - wall_us now <? 0) with true
      by (symmetry; apply Z.ltb_lt; lia).
    reflexivity.
  - replace (wall_us due - wall_us now <? 0) with false
      by (symmetry; apply Z.ltb_ge; lia).
    replace (wall_us due - wall_us now <? 86400000000) with true
      by (symmetry; apply Z.ltb_lt; lia).
    reflexivity.
  - replace (wall_us due - wall_us now <? 0) with false
      by (symmetry; apply Z.ltb_ge; lia).
    replace (wall_us due - wall_us now <? 86400000000) with false
      by (symmetry; apply Z.ltb_ge; lia).
    replace (wall_us due - wall_us now <? 2 * 86400000000) with false
      by (symmetry; apply Z.ltb_ge; lia).
    replace (wall_us due - wall_us now <? 7 * 86400000000) with false
      by (symmetry; apply Z.ltb_ge; lia).
    reflexivity.
Qed.

Lemma urgency_windows_witness :
  due_date_score fromisoformat_ref (of_wall_us sample_clock) due_today_evening = 30.
Proof.
  destruct (urgency_windows fromisoformat_ref (of_wall_us sample_clock)
              due_today_evening (mkdatetime 2024 3 15 19 0 0 0 None))
    as (_ & _ & H & _).
  - reflexivity.
  - reflexivity.
  - reflexivity.
  - apply H. vm_compute. split; [discriminate | reflexivity].
Defined.

Lemma urgency_by_time_range (diff : Z) : 0 <= urgency_by_time diff <= 40.
Proof.
  unfold urgency_by_time.
  repeat match goal with |- context [if ?b then _ else _] => destruct b end; lia.
Qed.

Lemma urgency_by_time_mono (a b : Z) :
  a <= b -> urgency_by_time b <= urgency_by_time a.
Proof.
  intro Hab. unfold urgency_by_time, us_per_day.
  repeat match goal with
         | |- context [?x <? ?y] =>
             let E := fresh "E" in
             destruct (x <? y) eqn:E;
             [apply Z.ltb_lt in E | apply Z.ltb_ge in E]
         end; lia.
Qed.

Lemma due_date_score_range (parser : string -> option datetime) (now : datetime)
    (task : Task) :
  0 <= due_date_score parser now task <= 40.
Proof.
  rewrite due_date_score_bonus. unfold urgency_bonus.
  destruct (whole_days_until_due parser now task) as [d|]; [| lia].
  repeat match goal with |- context [if ?b then _ else _] => destruct b end; lia.
Qed.

(** X2: a task whose priority is NULL or within 1 to 5 scores between 10
    and 90, whatever its due date holds; the due-date factor alone is always
    between 0 and 40. *)
Theorem score_range (parser : string -> option datetime) (now : datetime)
    (task : Task) :
  valid_priority task ->
  10 <= score (score_task parser now task) <= 90
  /\ 10 <= base_score task <= 50
  /\ 0 <= due_date_score parser now task <= 40.
Proof.
  intro Hvalid.
  pose proof (due_date_score_range parser now task) as Hd.
  assert (Hb : 10 <= base_score task <= 50).
  { unfold base_score. rewrite task_priority_effective.
    unfold effective_priority, valid_priority in *.
    destruct (priority task) as [p|]; [| lia].
    destruct (p =? 0) eqn:E; [lia|]. lia. }
  unfold score_task. cbn [score]. lia.
Qed.

Lemma score_range_witness :
  10 <= score (score_task fromisoformat_ref (of_wall_us sample_clock) due_yesterday)
     <= 90.
Proof.
  apply (score_range fromisoformat_ref (of_wall_us sample_clock) due_yesterday).
  vm_compute. split; discriminate.
Defined.

(** X3: the score never ranks a less pressing task higher, priority 0
    apart.  Take two tasks with naive due dates, scored at the same clock,
    the first due no later than the second.  The first scores at least as
    much when its effective priority (the stored number, 3 where the column
    is NULL or 0) is not larger; so it does when the stored priorities are
    numbers other than 0 and the first is not larger.  A stored priority of
    0 counts as 3: with equal due dates such a task scores less than one of
    priority 1 or 2. *)
Theorem score_monotone (parser : string -> option datetime) (now : datetime)
    (first second : Task) (due1 due2 : datetime) :
  tzinfo now = None ->
  naive_due parser first = Some due1 ->
  naive_due parser second = Some due2 ->
  wall_us due1 <= wall_us due2 ->
  (effective_priority first <= effective_priority second ->
   score (score_task parser now second) <= score (score_task parser now first))
  /\ (forall p1 p2,
        priority first = Some p1 -> priority second = Some p2 ->
        p1 <> 0 -> p2 <> 0 -> p1 <= p2 ->
        score (score_task parser now second) <= score (score_task parser now first))
  /\ (forall p2,
        priority first = Some 0 -> priority second = Some p2 ->
        1 <= p2 <= 2 -> wall_us due1 = wall_us due2 ->
        score (score_task parser now first) < score (score_task parser now second)).
Proof.
  intros Hnow H1 H2 Hd.
  unfold score_task, base_score. cbn [score].
  rewrite (naive_due_score parser now first due1 Hnow H1).
  rewrite (naive_due_score parser now second due2 Hnow H2).
  rewrite !task_priority_effective.
  pose proof (urgency_by_time_mono (wall_us due1 - wall_us now)
                (wall_us due2 - wall_us now) ltac:(lia)) as Hmono.
  split; [| split].
  - intro Hp. lia.
  - intros p1 p2 Hp1 Hp2 Hn1 Hn2 Hle. unfold effective_priority.
    rewrite Hp1, Hp2.
    replace (p1 =? 0) with false by (symmetry; now apply Z.eqb_neq).
    replace (p2 =? 0) with false by (symmetry; now apply Z.eqb_neq).
    lia.
  - intros p2 Hp1 Hp2 Hrange Heq. unfold effective_priority.
    rewrite Hp1, Hp2. cbn [Z.eqb].
    replace (p2 =? 0) with false by (symmetry; apply Z.eqb_neq; lia).
    rewrite Heq. lia.
Qed.

Lemma score_monotone_witness :
  score (score_task fromisoformat_ref (of_wall_us sample_clock) due_in_ten_days)
  <= score (score_task fromisoformat_ref (of_wall_us sample_clock) due_yesterday).
Proof.
  destruct (score_monotone fromisoformat_ref (of_wall_us sample_clock)
              due_yesterday due_in_ten_days
              (mkdatetime 2024 3 14 9 0 0 0 None)
              (mkdatetime 2024 3 25 9 0 0 0 None)) as (_ & H & _).
  - reflexivity.
  - reflexivity.
  - reflexivity.
  - vm_compute. discriminate.
  - apply (H 1 5); try reflexivity; try discriminate.
Defined.

Lemma score_tasks_in (parser : string -> option datetime) (clock : nat -> Z)
    (tasks : list Task) (r : Recommendation) :
  forall k,
    In r (score_tasks parser clock k tasks) ->
    exists i task,
      nth_error tasks i = Some task
      /\ r = score_task parser (of_wall_us (clock (k + i)%nat)) task.
Proof.
  induction tasks as [|task tasks IH]; intros k Hin; simpl in Hin; [contradiction|].
  destruct Hin as [<- | Hin].
  - exists 0%nat, task. split; [reflexivity|]. now rewrite Nat.add_0_r.
  - destruct (IH (S k) Hin) as (i & t & Hnth & Hr).
    exists (S i), t. split; [exact Hnth|]. now rewrite Nat.add_succ_r.
Qed.

Lemma recommend_task_order_some (parser : string -> option datetime)
    (clock : nat -> Z) (pending_tasks completed_tasks : list Task)
    (r : Recommendations) :
  recommend_task_order parser clock pending_tasks completed_tasks = Some r ->
  pending_tasks <> []
  /\ recommended_tasks r
     = firstn 5 (sorted_desc score (score_tasks parser clock 0 pending_tasks)).
Proof.
  unfold recommend_task_order.
  destruct pending_tasks as [|task rest]; [discriminate|].
  intro Hr. injection Hr as <-. split; [discriminate | reflexivity].
Qed.

(** X4: the recommendations are the top of the pending list.  Every entry
    is the scored form of a pending task, keeping its id, title and due
    date, and together with the entries left out they make up exactly the
    scored pending tasks; no entry left out scores more than one kept. *)
Theorem recommendations_are_top (parser : string -> option datetime)
    (clock : nat -> Z) (pending_tasks completed_tasks : list Task)
    (r : Recommendations) :
  recommend_task_order parser clock pending_tasks completed_tasks = Some r ->
  (forall entry, In entry (recommended_tasks r) ->
     exists i task,
       nth_error pending_tasks i = Some task
       /\ entry = score_task parser (of_wall_us (clock i)) task
       /\ rec_id entry = id task /\ rec_title entry = title task
       /\ rec_due_date entry = due_date task)
  /\ exists left_out,
      Permutation (recommended_tasks r ++ left_out)
        (score_tasks parser clock 0 pending_tasks)
      /\ forall kept other,
           In kept (recommended_tasks r) -> In other left_out ->
           score other <= score kept.
Proof.
  intro Hr.
  destruct (recommend_task_order_some _ _ _ _ _ Hr) as [_ ->].
  set (scored := score_tasks parser clock 0 pending_tasks).
  split.
  - intros entry Hin. apply firstn_In, sorted_desc_in in Hin.
    destruct (score_tasks_in parser clock pending_tasks entry 0 Hin)
      as (i & t & Hnth & ->).
    exists i, t. repeat split; try reflexivity. exact Hnth.
  - exists (skipn 5 (sorted_desc score scored)). split.
    + rewrite firstn_skipn. apply sorted_desc_perm.
    + intros kept other Hk Ho.
      pose proof (sorted_desc_sorted score scored) as Hs.
      rewrite <- (firstn_skipn 5 (sorted_desc score scored)) in Hs.
      exact (StronglySorted_app_inv _ _ _ Hs kept other Hk Ho).
Qed.

Lemma recommendations_are_top_witness :
  exists r left_out,
    recommend_task_order fromisoformat_ref fixed_clock sample_pending [] = Some r
    /\ Permutation (recommended_tasks r ++ left_out)
         (score_tasks fromisoformat_ref fixed_clock 0 sample_pending).
Proof.
  destruct (recommend_task_order fromisoformat_ref fixed_clock sample_pending [])
    as [r|] eqn:E; [| discriminate E].
  destruct (recommendations_are_top fromisoformat_ref fixed_clock sample_pending
              [] r E) as (_ & left_out & Hperm & _).
  exists r, left_out. split; [reflexivity | exact Hperm].
Defined.

(** *** Productive time *)

Lemma sum_Z_cons (x : Z) (l : list Z) : sum_Z (x :: l) = x + sum_Z l.
Proof. reflexivity. Qed.

Lemma sum_Z_app (l1 l2 : list Z) : sum_Z (l1 ++ l2) = sum_Z l1 + sum_Z l2.
Proof. induction l1 as [|x l1 IH]; simpl; [reflexivity | rewrite IH; lia]. Qed.

Lemma sum_Z_perm (l1 l2 : list Z) : Permutation l1 l2 -> sum_Z l1 = sum_Z l2.
Proof. induction 1; simpl; lia. Qed.

Lemma range_succ (n : nat) : range (S n) = (range n ++ [Z.of_nat n])%list.
Proof. unfold range. now rewrite seq_S, map_app. Qed.

Lemma sum_indicator_range (x : Z) (n : nat) :
  sum_Z (map (fun h => if Z.eq_dec x h then 1 else 0) (range n))
  = if (0 <=? x) && (x <? Z.of_nat n) then 1 else 0.
Proof.
  induction n as [|n IH].
  - simpl. destruct (0 <=? x) eqn:E0; simpl; [| reflexivity].
    destruct (x <? 0) eqn:E1; [| reflexivity].
    apply Z.leb_le in E0. apply Z.ltb_lt in E1. lia.
  - rewrite range_succ, map_app, sum_Z_app, IH. simpl sum_Z.
    destruct (0 <=? x) eqn:E0; [apply Z.leb_le in E0 | apply Z.leb_gt in E0];
      cbn [andb].
    + destruct (Z.eq_dec x (Z.of_nat n)) as [->|Hne].
      * replace (Z.of_nat n <? Z.of_nat n) with false
          by (symmetry; apply Z.ltb_ge; lia).
        replace (Z.of_nat n <? Z.of_nat (S n)) with true
          by (symmetry; apply Z.ltb_lt; lia).
        reflexivity.
      * destruct (x <? Z.of_nat n) eqn:E1;
          [apply Z.ltb_lt in E1 | apply Z.ltb_ge in E1].
        -- replace (x <? Z.of_nat (S n)) with true
             by (symmetry; apply Z.ltb_lt; lia).
           reflexivity.
        -- replace (x <? Z.of_nat (S n)) with false
             by (symmetry; apply Z.ltb_ge; lia).
           reflexivity.
    + destruct (Z.eq_dec x (Z.of_nat n)); [lia | reflexivity].
Qed.

Lemma occurrences_cons (x h : Z) (hours : list Z) :
  occurrences (x :: hours) h
  = (if Z.eq_dec x h then 1 else 0) + occurrences hours h.
Proof.
  unfold occurrences. cbn [count_occ].
  destruct (Z.eq_dec x h); [rewrite Nat2Z.inj_succ |]; lia.
Qed.

Lemma hour_counts_sum (hours : list Z) :
  (forall h, In h hours -> 0 <= h < 24) ->
  sum_Z (map snd (hour_counts hours)) = len hours.
Proof.
  unfold hour_counts, len. rewrite map_map. cbn [snd].
  induction hours as [|x hours IH]; intro Hrange.
  - simpl. reflexivity.
  - assert (Hx : 0 <= x < 24) by (apply Hrange; now left).
    assert (Hsplit :
      sum_Z (map (fun h => occurrences (x :: hours) h) (range 24))
      = sum_Z (map (fun h => if Z.eq_dec x h then 1 else 0) (range 24))
        + sum_Z (map (fun h => occurrences hours h) (range 24))).
    { generalize (range 24). intro l.
      induction l as [|h l IHl]; [reflexivity|].
      rewrite !map_cons, !sum_Z_cons, IHl, occurrences_cons. lia. }
    rewrite Hsplit, sum_indicator_range, IH
      by (intros h Hh; apply Hrange; now right).
    replace ((0 <=? x) && (x <? Z.of_nat 24)) with true.
    + simpl List.length. lia.
    + symmetry. apply andb_true_iff. split;
        [apply Z.leb_le | apply Z.ltb_lt]; simpl; lia.
Qed.

Lemma completion_hours_length (parser : string -> option datetime)
    (tasks : list Task) :
  len (completion_hours parser tasks) = len (filter (has_completion parser) tasks).
Proof.
  unfold len, completion_hours, has_completion. f_equal.
  induction tasks as [|task tasks IH]; simpl; [reflexivity|].
  rewrite length_app, IH, completion_hour_spec. unfold completion_hour_of.
  destruct (parsed parser (completed_at task)); reflexivity.
Qed.

Lemma completion_hours_range (parser : string -> option datetime)
    (tasks : list Task) :
  (forall text d, parser text = Some d -> 0 <= hour d < 24) ->
  forall h, In h (completion_hours parser tasks) -> 0 <= h < 24.
Proof.
  intros Hvalid h Hin. unfold completion_hours in Hin.
  apply in_flat_map in Hin. destruct Hin as [task [_ Hh]].
  rewrite completion_hour_spec in Hh. unfold completion_hour_of, parsed in Hh.
  destruct (completed_at task) as [|n|x|text]; try contradiction.
  destruct (String.eqb text ""); [contradiction|].
  destruct (parser text) as [d|] eqn:E; [| contradiction].
  destruct Hh as [<- | []]. exact (Hvalid text d E).
Qed.

Lemma analyze_productive_time_some (parser : string -> option datetime)
    (completed_tasks : list Task) (activity_logs : list Activity)
    (r : ProductiveTime) :
  analyze_productive_time parser completed_tasks activity_logs = Some r ->
  completion_hours parser completed_tasks <> []
  /\ hour_data r = hour_counts (completion_hours parser completed_tasks)
  /\ productive_hours r
     = map format_hour
         (map fst (filter (fun hc => 0 <? snd hc)
                     (firstn 3 (sorted_desc snd
                                  (hour_counts (completion_hours parser completed_tasks)))))).
Proof.
  unfold analyze_productive_time.
  destruct completed_tasks as [|task rest]; [discriminate|].
  destruct (completion_hours parser (task :: rest)) as [|h0 hours] eqn:E;
    [discriminate|].
  generalize (hour_counts (h0 :: hours)). intros counts Hr.
  injection Hr as <-. cbn [hour_data productive_hours].
  split; [discriminate|]. split; [reflexivity|].
  now rewrite map_map.
Qed.

(** X5: the histogram accounts for every completion.  When the parser
    yields hours of the day, [hour_data] has the 24 buckets 0 to 23 in
    order, each holding the number of tasks completed in that hour; the
    counts add up to the number of tasks whose completion timestamp parses;
    and the list of productive hours is not empty. *)
Theorem histogram_accounts (parser : string -> option datetime)
    (completed_tasks : list Task) (activity_logs : list Activity)
    (r : ProductiveTime) :
  (forall text d, parser text = Some d -> 0 <= hour d < 24) ->
  analyze_productive_time parser completed_tasks activity_logs = Some r ->
  map fst (hour_data r) = range 24
  /\ map snd (hour_data r)
     = map (completions_at parser completed_tasks) (range 24)
  /\ sum_Z (map snd (hour_data r))
     = len (filter (has_completion parser) completed_tasks)
  /\ productive_hours r <> [].
Proof.
  intros Hvalid Hr.
  destruct (analyze_productive_time_some _ _ _ _ Hr) as (Hne & Hdata & Hprod).
  rewrite Hdata, Hprod.
  split; [| split; [| split]].
  - unfold hour_counts. rewrite map_map. cbn [fst]. apply map_id.
  - unfold hour_counts. rewrite map_map. cbn [snd].
    apply map_ext. intro h. apply occurrences_completions.
  - rewrite hour_counts_sum by (apply completion_hours_range, Hvalid).
    apply completion_hours_length.
  - destruct (completion_hours parser completed_tasks) as [|h0 hours] eqn:E;
      [contradiction|].
    assert (Hh0 : 0 <= h0 < 24).
    { apply (completion_hours_range parser completed_tasks Hvalid).
      rewrite E. now left. }
    destruct (top_buckets (occurrences (h0 :: hours)) (hour_counts (h0 :: hours))
                (hour_counts_in (h0 :: hours))
                (indexed_sorted (occurrences (h0 :: hours)) 24 0)
                _ eq_refl) as (_ & _ & _ & Hcomplete).
    intro Hnil. apply map_eq_nil in Hnil.
    assert (Hpos : 0 < occurrences (h0 :: hours) h0).
    { unfold occurrences. simpl count_occ.
      destruct (Z.eq_dec h0 h0); [lia | contradiction]. }
    rewrite Hnil in Hcomplete.
    destruct (Hcomplete h0 Hh0 Hpos (fun H => H)) as [Hlen _].
    discriminate Hlen.
Qed.

Lemma digit_range (c : ascii) (v : Z) : digit c = Some v -> 0 <= v <= 9.
Proof.
  unfold digit.
  destruct ((48 <=? Z.of_nat (nat_of_ascii c)) && (Z.of_nat (nat_of_ascii c) <=? 57))
    eqn:E; [| discriminate].
  apply andb_prop in E. destruct E as [E1 E2].
  apply Z.leb_le in E1, E2. intro H. injection H as <-. lia.
Qed.

Lemma digits_nonneg (k : nat) :
  forall acc s v rest, 0 <= acc -> digits k acc s = Some (v, rest) -> 0 <= v.
Proof.
  induction k as [|k IH]; intros acc s v rest Hacc H; simpl in H.
  - injection H as <- _. exact Hacc.
  - destruct s as [|c s]; [discriminate|].
    destruct (digit c) as [d|] eqn:Ed; [| discriminate].
    apply digit_range in Ed.
    apply (IH (acc * 10 + d) s v rest); [lia | exact H].
Qed.

Lemma parse_clock_range (s rest : string) (h m sec : Z) :
  parse_clock s = Some (h, m, sec, rest) ->
  0 <= h < 24 /\ 0 <= m < 60 /\ 0 <= sec < 60.
Proof.
  unfold parse_clock, obind.
  destruct (digits 2 0 s) as [[h0 s1]|] eqn:E1; [| discriminate].
  destruct (expect ":" s1) as [s2|]; [| discriminate].
  destruct (digits 2 0 s2) as [[m0 s3]|] eqn:E2; [| discriminate].
  destruct (expect ":" s3) as [s4|]; [| discriminate].
  destruct (digits 2 0 s4) as [[sec0 s5]|] eqn:E3; [| discriminate].
  destruct ((h0 <? 24) && (m0 <? 60) && (sec0 <? 60)) eqn:E; [| discriminate].
  intro H. injection H as <- <- <- <-.
  apply andb_prop in E. destruct E as [E Es].
  apply andb_prop in E. destruct E as [Eh Em].
  apply Z.ltb_lt in Eh, Em, Es.
  apply digits_nonneg in E1, E2, E3; lia.
Qed.

(** The reference parser yields hours of the day. *)
Lemma reference_hours (text : string) (d : datetime) :
  fromisoformat_ref text = Some d -> 0 <= hour d < 24.
Proof.
  unfold fromisoformat_ref, obind.
  destruct (parse_date text) as [[[[y m] day] s]|]; [| discriminate].
  destruct s as [|sep s].
  - intro H. injection H as <-. simpl. lia.
  - destruct (parse_clock s) as [[[[h mi] sec] s1]|] eqn:Ec; [| discriminate].
    destruct (parse_fraction s1) as [[us s2]|]; [| discriminate].
    destruct (parse_offset s2) as [tz|]; [| discriminate].
    intro H. injection H as <-. simpl.
    apply parse_clock_range in Ec. lia.
Qed.

Lemma histogram_accounts_witness :
  exists r,
    analyze_productive_time fromisoformat_ref sample_completed [] = Some r
    /\ sum_Z (map snd (hour_data r)) = 5.
Proof.
  destruct (analyze_productive_time fromisoformat_ref sample_completed [])
    as [r|] eqn:E; [| discriminate E].
  exists r. split; [reflexivity|].
  destruct (histogram_accounts fromisoformat_ref sample_completed [] r
              reference_hours E) as (_ & _ & -> & _).
  reflexivity.
Defined.

(** *** Category performance *)

Lemma update_update (key : string) (f g : CategoryData -> CategoryData)
    (d : list (string * CategoryData)) :
  update key f (update key g d) = update key (fun x => f (g x)) d.
Proof.
  induction d as [|[k v] d IH]; simpl; [reflexivity|].
  destruct (String.eqb key k) eqn:E; simpl; rewrite E; [reflexivity|].
  now rewrite IH.
Qed.

Lemma update_ext (key : string) (f g : CategoryData -> CategoryData)
    (d : list (string * CategoryData)) :
  (forall x, f x = g x) -> update key f d = update key g d.
Proof.
  intro H. induction d as [|[k v] d IH]; simpl; [reflexivity|].
  destruct (String.eqb key k); [now rewrite H | now rewrite IH].
Qed.

Lemma category_step_combined (parser : string -> option datetime)
    (groups : list (string * CategoryData)) (task : Task) :
  category_step parser groups task
  = update (category_name task) (task_delta parser task)
      (if contains (category_name task) groups then groups
       else (groups ++ [(category_name task, mkCategoryData 0 0 0)])%list).
Proof.
  unfold category_step.
  rewrite str_or_category_name.
  set (base := if contains (category_name task) groups then groups
               else (groups ++ [(category_name task, mkCategoryData 0 0 0)])%list).
  assert (Hdelta : forall x,
    task_delta parser task x
    = mkCategoryData (count x + 1)
        (on_time x + (if finished_on_time parser task then 1 else 0))
        (total_with_due_date x + (if has_both_dates parser task then 1 else 0)))
    by reflexivity.
  unfold finished_on_time, has_both_dates, both_dates in Hdelta.
  rewrite !truthy_parsed in Hdelta.
  destruct (truthy_value (due_date task)) as [due_text|];
    [ destruct (truthy_value (completed_at task)) as [completed_text|];
      [ destruct (parse parser due_text) as [due|];
        [ destruct (parse parser completed_text) as [completed|];
          [ destruct (le completed due) as [[|]|] | ] | ] | ] | ];
    rewrite ?update_update; apply update_ext; intro x; rewrite Hdelta;
    unfold add_count, add_total, add_on_time; simpl;
    try (destruct (parse parser due_text)); simpl; f_equal; lia.
Qed.

Lemma stat_step (parser : string -> option datetime) (proj : CategoryData -> Z)
    (inc : Z) (groups : list (string * CategoryData)) (task : Task) (key : string) :
  (forall data, proj (task_delta parser task data) = proj data + inc) ->
  proj (mkCategoryData 0 0 0) = 0 ->
  stat proj key (category_step parser groups task)
  = stat proj key groups
    + (if String.eqb (category_name task) key then inc else 0).
Proof.
  intros Hadd Hzero. rewrite category_step_combined.
  unfold stat. rewrite lookup_update.
  destruct (String.eqb (category_name task) key) eqn:E.
  - apply String.eqb_eq in E. subst key.
    rewrite (lookup_contains (category_name task) groups).
    destruct (lookup (category_name task) groups) as [data|] eqn:El.
    + rewrite El. simpl. apply Hadd.
    + rewrite lookup_app_new, El, String.eqb_refl. simpl.
      rewrite Hadd, Hzero. reflexivity.
  - destruct (contains (category_name task) groups); [lia|].
    rewrite lookup_app_new.
    destruct (lookup key groups); [lia|].
    rewrite String.eqb_sym, E. lia.
Qed.

Lemma stat_fold (parser : string -> option datetime) (proj : CategoryData -> Z)
    (counted : Task -> bool) (key : string) (tasks : list Task) :
  (forall task data,
     proj (task_delta parser task data)
     = proj data + (if counted task then 1 else 0)) ->
  proj (mkCategoryData 0 0 0) = 0 ->
  forall groups,
    stat proj key (fold_left (category_step parser) tasks groups)
    = stat proj key groups + len (filter counted (tasks_in key tasks)).
Proof.
  intros Hadd Hzero. unfold len, tasks_in.
  induction tasks as [|task tasks IH]; intro groups; simpl; [lia|].
  rewrite IH, (stat_step parser proj (if counted task then 1 else 0))
    by (auto).
  destruct (String.eqb (category_name task) key); simpl; [| lia].
  destruct (counted task); simpl List.length; lia.
Qed.

Lemma filter_length_Z {A} (f : A -> bool) (l : list A) :
  0 <= len (filter f l) <= len l.
Proof. unfold len. pose proof (filter_length_le f l). lia. Qed.

(** X6: what a category entry reports.  Its task count is the number of
    completed tasks in that category, at least one; its on-time percentage
    is the rounded share, among the tasks of the category whose two dates
    both parse, of those completed at or before the due date, and the
    integer 0 when the category has no such task. *)
Theorem category_entry_counts (parser : string -> option datetime)
    (completed_tasks : list Task) (r : CategoryPerformance) (e : CategoryEntry) :
  analyze_category_performance parser completed_tasks = Some r ->
  In e (categories r) ->
  task_count e = len (tasks_in (ce_category e) completed_tasks)
  /\ 1 <= task_count e
  /\ ce_on_time_percentage e
     = rounded_percentage
         (len (filter (finished_on_time parser)
                 (tasks_in (ce_category e) completed_tasks)))
         (len (filter (has_both_dates parser)
                 (tasks_in (ce_category e) completed_tasks)))
  /\ len (filter (finished_on_time parser)
            (tasks_in (ce_category e) completed_tasks))
     <= len (filter (has_both_dates parser)
               (tasks_in (ce_category e) completed_tasks))
     <= task_count e.
Proof.
  intros Hr Hin.
  assert (Hne : completed_tasks <> []).
  { intros ->. discriminate Hr. }
  destruct (analyze_category_performance_some parser completed_tasks Hne)
    as [message Hsome].
  rewrite Hsome in Hr. injection Hr as <-. cbn [categories] in Hin.
  destruct (category_entries parser completed_tasks e Hin) as [Hname Hcount].
  apply sorted_desc_in, in_map_iff in Hin.
  destruct Hin as [[key data] [<- Hin]].
  cbn [category_entry ce_category ce_on_time_percentage task_count fst snd] in *.
  destruct (category_groups_facts parser completed_tasks) as (Hnd & _ & _ & _).
  pose proof (lookup_in key data _ Hnd Hin) as Hlook.
  assert (Hon : on_time data
                = len (filter (finished_on_time parser) (tasks_in key completed_tasks))).
  { pose proof (stat_fold parser on_time (finished_on_time parser) key
                  completed_tasks (fun _ _ => eq_refl) eq_refl []) as H.
    unfold stat in H. fold (category_groups parser completed_tasks) in H.
    rewrite Hlook in H. exact H. }
  assert (Htot : total_with_due_date data
                 = len (filter (has_both_dates parser) (tasks_in key completed_tasks))).
  { pose proof (stat_fold parser total_with_due_date (has_both_dates parser) key
                  completed_tasks (fun _ _ => eq_refl) eq_refl []) as H.
    unfold stat in H. fold (category_groups parser completed_tasks) in H.
    rewrite Hlook in H. exact H. }
  split; [exact Hcount|]. split.
  - rewrite Hcount. apply in_map_iff in Hname. destruct Hname as [t [Ht Hint]].
    assert (Hmem : In t (tasks_in key completed_tasks)).
    { unfold tasks_in. apply filter_In. split; [exact Hint|].
      rewrite Ht. apply String.eqb_refl. }
    unfold len. destruct (tasks_in key completed_tasks); [contradiction|].
    simpl List.length. lia.
  - split; [now rewrite Hon, Htot|].
    rewrite Hcount. split.
    + generalize (tasks_in key completed_tasks). intro l. unfold len.
      induction l as [|t l IH]; simpl; [lia|].
      assert (Himp : finished_on_time parser t = true -> has_both_dates parser t = true).
      { unfold finished_on_time, has_both_dates.
        destruct (both_dates parser t) as [[due completed]|];
          [reflexivity | discriminate]. }
      destruct (finished_on_time parser t), (has_both_dates parser t);
        simpl List.length; try lia;
        specialize (Himp eq_refl); discriminate.
    + apply filter_length_Z.
Qed.

Lemma category_entry_counts_witness :
  exists r e,
    analyze_category_performance fromisoformat_ref sample_completed = Some r
    /\ In e (categories r)
    /\ ce_category e = "home"
    /\ task_count e = 2.
Proof.
  assert (Hsome : exists r,
            analyze_category_performance fromisoformat_ref sample_completed = Some r)
    by (vm_compute; eexists; reflexivity).
  destruct Hsome as [r E].
  assert (Hin : In (mkCategoryEntry "home" 2 (Tenths 0)) (categories r)).
  { vm_compute in E. injection E as <-. right. right. left. reflexivity. }
  exists r, (mkCategoryEntry "home" 2 (Tenths 0)).
  split; [exact E|]. split; [exact Hin|]. split; [reflexivity|].
  destruct (category_entry_counts fromisoformat_ref sample_completed r _ E Hin)
    as (-> & _).
  reflexivity.
Defined.

Lemma sum_indicator_keys (name : string) (keys : list string) :
  NoDup keys -> In name keys ->
  sum_Z (map (fun key => if String.eqb name key then 1 else 0) keys) = 1.
Proof.
  induction keys as [|k keys IH]; intros Hnd Hin; [contradiction|].
  inversion Hnd as [|? ? Hnot Hnd']; subst.
  rewrite map_cons, sum_Z_cons.
  destruct (String.eqb name k) eqn:E.
  - apply String.eqb_eq in E. subst k.
    assert (Hzero : sum_Z (map (fun key => if String.eqb name key then 1 else 0) keys) = 0).
    { clear IH Hnd Hnd' Hin. induction keys as [|k keys IH]; [reflexivity|].
      rewrite map_cons, sum_Z_cons.
      destruct (String.eqb name k) eqn:Ek.
      - apply String.eqb_eq in Ek. subst k. exfalso. apply Hnot. now left.
      - rewrite IH; [reflexivity|]. intro H. apply Hnot. now right. }
    lia.
  - destruct Hin as [-> | Hin]; [rewrite String.eqb_refl in E; discriminate|].
    rewrite IH by assumption. lia.
Qed.

Lemma tasks_in_partition (keys : list string) (tasks : list Task) :
  NoDup keys ->
  (forall task, In task tasks -> In (category_name task) keys) ->
  sum_Z (map (fun key => len (tasks_in key tasks)) keys) = len tasks.
Proof.
  intros Hnd. unfold len.
  induction tasks as [|task tasks IH]; intro Hcover.
  - clear. induction keys as [|k keys IHk]; [reflexivity|].
    rewrite map_cons, sum_Z_cons, IHk. reflexivity.
  - assert (Hsplit :
      sum_Z (map (fun key => Z.of_nat (List.length (tasks_in key (task :: tasks)))) keys)
      = sum_Z (map (fun key => if String.eqb (category_name task) key then 1 else 0) keys)
        + sum_Z (map (fun key => Z.of_nat (List.length (tasks_in key tasks))) keys)).
    { clear. induction keys as [|k keys IHk]; [reflexivity|].
      rewrite !map_cons, !sum_Z_cons, IHk. unfold tasks_in. simpl filter.
      destruct (String.eqb (category_name task) k); simpl List.length; lia. }
    rewrite Hsplit, sum_indicator_keys, IH.
    + simpl List.length. lia.
    + intros t Ht. apply Hcover. now right.
    + exact Hnd.
    + apply Hcover. now left.
Qed.

(** X7: the categories partition the completed tasks.  The entries carry
    pairwise distinct names, exactly the categories that occur among the
    tasks; they stand in non-increasing order of task count; and their task
    counts add up to the number of completed tasks. *)
Theorem category_counts_account (parser : string -> option datetime)
    (completed_tasks : list Task) (r : CategoryPerformance) :
  analyze_category_performance parser completed_tasks = Some r ->
  NoDup (map ce_category (categories r))
  /\ (forall name,
        In name (map ce_category (categories r))
        <-> exists task, In task completed_tasks /\ category_name task = name)
  /\ StronglySorted (fun a b => task_count b <= task_count a) (categories r)
  /\ sum_Z (map task_count (categories r)) = len completed_tasks.
Proof.
  intro Hr.
  assert (Hne : completed_tasks <> []).
  { intros ->. discriminate Hr. }
  destruct (analyze_category_performance_some parser completed_tasks Hne)
    as [message Hsome].
  rewrite Hsome in Hr. injection Hr as <-. cbn [categories].
  destruct (category_groups_facts parser completed_tasks)
    as (Hnd & Hkeys & Hcount & _).
  set (groups := category_groups parser completed_tasks) in *.
  assert (Hperm : Permutation
            (sorted_desc task_count (map category_entry groups))
            (map category_entry groups)) by apply sorted_desc_perm.
  assert (Hnames : map ce_category (map category_entry groups) = map fst groups).
  { rewrite map_map. reflexivity. }
  split; [| split; [| split]].
  - eapply Permutation_NoDup.
    + apply Permutation_sym, Permutation_map, Hperm.
    + now rewrite Hnames.
  - intro name. split.
    + intro Hin.
      apply (Permutation_in _ (Permutation_map ce_category Hperm)) in Hin.
      rewrite Hnames in Hin. apply Hkeys, in_map_iff in Hin.
      destruct Hin as [task [Hname Hin]]. now exists task.
    + intros [task [Hin <-]].
      apply (Permutation_in _ (Permutation_sym (Permutation_map ce_category Hperm))).
      rewrite Hnames. apply Hkeys. now apply in_map.
  - apply sorted_desc_sorted.
  - rewrite (sum_Z_perm _ _ (Permutation_map task_count Hperm)).
    rewrite map_map. cbn [category_entry task_count].
    rewrite <- (tasks_in_partition (map fst groups) completed_tasks Hnd).
    + rewrite map_map. f_equal. apply map_ext_in.
      intros [key data] Hin. cbn [fst snd]. now apply Hcount.
    + intros task Hin. apply Hkeys. now apply in_map.
Qed.

Lemma category_counts_account_witness :
  exists r,
    analyze_category_performance fromisoformat_ref sample_completed = Some r
    /\ sum_Z (map task_count (categories r)) = 6.
Proof.
  assert (Hsome : exists r,
            analyze_category_performance fromisoformat_ref sample_completed = Some r)
    by (vm_compute; eexists; reflexivity).
  destruct Hsome as [r E].
  exists r. split; [exact E|].
  destruct (category_counts_account fromisoformat_ref sample_completed r E)
    as (_ & _ & _ & ->).
  reflexivity.
Defined.

(** *** Notification planner *)

Lemma filter_raising_find {A} (p : A -> result bool) (f bad : A -> bool)
    (err : A -> exn) (l : list A) :
  (forall x, In x l -> bad x = false -> p x = Ok (f x)) ->
  (forall x, In x l -> bad x = true -> p x = Raise (err x)) ->
  filter_raising p l
  = match find bad l with
    | Some x => Raise (err x)
    | None => Ok (filter f l)
    end.
Proof.
  induction l as [|x l IH]; intros Hgood Hbad; simpl; [reflexivity|].
  destruct (bad x) eqn:E.
  - now rewrite (Hbad x (or_introl eq_refl) E).
  - rewrite (Hgood x (or_introl eq_refl) E), IH.
    + simpl. destruct (find bad l); simpl; [reflexivity|].
      destruct (f x); reflexivity.
    + intros y Hy. apply Hgood. now right.
    + intros y Hy. apply Hbad. now right.
Qed.

(** The due-today pass over rows of which one has a numeric due date. *)
Lemma due_today_fail (today : string) (tasks : list Task) :
  existsb numeric_due tasks = true ->
  filter_raising (due_on today) tasks = Raise AttributeError.
Proof.
  intro Hsome.
  rewrite (filter_raising_find _ (due_text_on today) numeric_due
             (fun _ => AttributeError)).
  - destruct (find numeric_due tasks) as [task|] eqn:E; [reflexivity|].
    apply existsb_exists in Hsome. destruct Hsome as (task & Hin & Hnum).
    pose proof (find_none _ _ E task Hin). congruence.
  - intros task _. apply due_on_text.
  - intros task _. apply due_on_number.
Qed.

Lemma is_high_priority_undatable (parser : string -> option datetime)
    (now : datetime) (task : Task) :
  tzinfo now = None ->
  numeric_due task = false ->
  datable parser task = false ->
  is_high_priority parser now task = Raise (planner_error parser task).
Proof.
  intros Hnow Hnum Hplan.
  unfold is_high_priority, datable, planner_error, high_priority_value,
    numeric_due, parsed, truthy_value, parse in *.
  destruct (priority task) as [p|]; [| discriminate].
  destruct ((p =? 1) || (p =? 2)); [| discriminate].
  destruct (due_date task) as [|n|x|[|c text]]; try discriminate.
  - rewrite Hplan in Hnum. discriminate.
  - rewrite Hplan in Hnum. discriminate.
  - cbn [String.eqb] in *.
    destruct (parser (String c text)) as [due|]; [| reflexivity].
    destruct (tzinfo due) eqn:Edue; [| discriminate].
    cbn [bind unguarded]. unfold gt, aligned. rewrite Edue, Hnow. reflexivity.
Qed.

Lemma planner_outcome (parser : string -> option datetime) (s : Settings)
    (pending_tasks : list Task) (productive_time_insight : option Insight)
    (clock : Z) :
  is_true (enable_push s) = true ->
  pending_tasks <> [] ->
  schedule_smart_notifications parser (Some s) pending_tasks
    productive_time_insight clock
  = match planner_failure_of parser pending_tasks with
    | Some e => Raise e
    | None =>
        Ok (Some (candidates parser (of_wall_us clock) pending_tasks
                    productive_time_insight))
    end.
Proof.
  intros Hon Hne.
  destruct pending_tasks as [|first rest]; [contradiction|].
  unfold schedule_smart_notifications, planner_failure_of. rewrite Hon.
  cbn [negb].
  destruct (existsb numeric_due (first :: rest)) eqn:Enum.
  - now rewrite due_today_fail.
  - rewrite due_today_pass by exact Enum. cbn [bind].
    rewrite (filter_raising_find _
               (upcoming_high_priority parser (of_wall_us clock))
               (undatable parser) (planner_error parser)).
    + destruct (find (undatable parser) (first :: rest)); [reflexivity|].
      unfold candidates. cbn [bind option_map].
      destruct productive_time_insight as [insight|];
        [now rewrite app_assoc | now rewrite app_nil_r].
    + intros task _ Hgood. apply is_high_priority_datable;
        [apply of_wall_us_naive|].
      unfold undatable in Hgood. now apply negb_false_iff in Hgood.
    + intros task Hin Hbad. apply is_high_priority_undatable;
        [apply of_wall_us_naive | |].
      * destruct (numeric_due task) eqn:E; [| reflexivity].
        assert (Hex : existsb numeric_due (first :: rest) = true)
          by (apply existsb_exists; now exists task).
        congruence.
      * unfold undatable in Hbad. now apply negb_true_iff in Hbad.
Qed.

Lemma planner_failure_none (parser : string -> option datetime)
    (pending_tasks : list Task) :
  planner_failure_of parser pending_tasks = None
  <-> forall task, In task pending_tasks -> plannable parser task = true.
Proof.
  unfold planner_failure_of. split.
  - intros Hnone task Hin. apply plannable_parts.
    destruct (existsb numeric_due pending_tasks) eqn:Enum; [discriminate|].
    split.
    + destruct (numeric_due task) eqn:E; [| reflexivity].
      assert (Hex : existsb numeric_due pending_tasks = true)
        by (apply existsb_exists; now exists task).
      congruence.
    + destruct (find (undatable parser) pending_tasks) eqn:E; [discriminate|].
      pose proof (find_none _ _ E task Hin) as Hgood.
      unfold undatable in Hgood. now apply negb_false_iff in Hgood.
  - intro Hall. rewrite (plannable_all parser pending_tasks Hall).
    destruct (find (undatable parser) pending_tasks) as [task|] eqn:E;
      [| reflexivity].
    apply find_some in E. destruct E as [Hin Hbad].
    apply Hall, plannable_parts in Hin. destruct Hin as [_ Hin].
    unfold undatable in Hbad. rewrite Hin in Hbad. discriminate.
Qed.

(** X8: when the planner raises, and what.  With push enabled and pending
    tasks, the planner ends in [AttributeError] exactly when the due date of
    some pending task, of any priority, is a number other than zero.  When
    there is no such task, the first pending task of priority 1 or 2 whose
    due date is a text, not empty, that does not parse to a naive value
    decides: [ValueError] when the text does not parse, [TypeError] when it
    parses to a value with a UTC offset.  The planner raises exactly when
    there is a task of one of these two kinds, and otherwise returns a
    plan. *)
Theorem planner_failure (parser : string -> option datetime) (s : Settings)
    (pending_tasks : list Task) (productive_time_insight : option Insight)
    (clock : Z) :
  is_true (enable_push s) = true ->
  pending_tasks <> [] ->
  (schedule_smart_notifications parser (Some s) pending_tasks
     productive_time_insight clock = Raise AttributeError
   <-> exists task, In task pending_tasks /\ numeric_due task = true)
  /\ (forall task,
        (forall other, In other pending_tasks -> numeric_due other = false) ->
        find (undatable parser) pending_tasks = Some task ->
        schedule_smart_notifications parser (Some s) pending_tasks
          productive_time_insight clock
        = Raise (planner_error parser task)
        /\ planner_error parser task
           = match parsed parser (due_date task) with
             | Some _ => Caught TypeError
             | None => Caught ValueError
             end)
  /\ ((exists e,
         schedule_smart_notifications parser (Some s) pending_tasks
           productive_time_insight clock = Raise e)
      <-> exists task, In task pending_tasks /\ plannable parser task = false)
  /\ ((forall task, In task pending_tasks -> plannable parser task = true) ->
      schedule_smart_notifications parser (Some s) pending_tasks
        productive_time_insight clock
      = Ok (Some (candidates parser (of_wall_us clock) pending_tasks
                    productive_time_insight))).
Proof.
  intros Hon Hne.
  rewrite (planner_outcome parser s pending_tasks productive_time_insight clock
             Hon Hne).
  split; [| split; [| split]].
  - unfold planner_failure_of. split.
    + destruct (existsb numeric_due pending_tasks) eqn:E.
      * intros _. apply existsb_exists in E. exact E.
      * destruct (find (undatable parser) pending_tasks) as [task|];
          cbn [option_map]; [| discriminate].
        unfold planner_error.
        destruct (parsed parser (due_date task)); discriminate.
    + intro Hex. apply existsb_exists in Hex. now rewrite Hex.
  - intros task Hnone Hfind. unfold planner_failure_of.
    replace (existsb numeric_due pending_tasks) with false.
    + rewrite Hfind. split; reflexivity.
    + symmetry. destruct (existsb numeric_due pending_tasks) eqn:E;
        [| reflexivity].
      apply existsb_exists in E. destruct E as (other & Hin & Hnum).
      rewrite (Hnone other Hin) in Hnum. discriminate.
  - split.
    + intros [e He].
      destruct (planner_failure_of parser pending_tasks) as [e'|] eqn:E;
        [| discriminate].
      destruct (existsb (fun task => negb (plannable parser task)) pending_tasks)
        eqn:Ebad.
      * apply existsb_exists in Ebad. destruct Ebad as (task & Hin & Hbad).
        exists task. split; [exact Hin | now apply negb_true_iff in Hbad].
      * exfalso.
        assert (Hall : forall task, In task pending_tasks ->
                                    plannable parser task = true).
        { intros task Hin. destruct (plannable parser task) eqn:Ep;
            [reflexivity|].
          assert (Hex : existsb (fun task => negb (plannable parser task))
                          pending_tasks = true)
            by (apply existsb_exists; exists task; now rewrite Ep).
          congruence. }
        apply planner_failure_none in Hall. congruence.
    + intros [task [Hin Hbad]].
      destruct (planner_failure_of parser pending_tasks) as [e|] eqn:E.
      * eexists. reflexivity.
      * exfalso.
        rewrite (proj1 (planner_failure_none parser pending_tasks) E task Hin)
          in Hbad.
        discriminate.
  - intro Hall. apply planner_failure_none in Hall. now rewrite Hall.
Qed.

Lemma planner_failure_witness :
  schedule_smart_notifications fromisoformat_ref (Some push_on)
    [due_today_evening; bad_due_date] None sample_clock = Raise ValueError
  /\ schedule_smart_notifications fromisoformat_ref (Some push_on)
       [bad_due_date; numeric_due_date] None sample_clock = Raise AttributeError.
Proof.
  split.
  - destruct (planner_failure fromisoformat_ref push_on
                [due_today_evening; bad_due_date] None sample_clock)
      as (_ & H & _).
    + reflexivity.
    + discriminate.
    + destruct (H bad_due_date) as [Hraise _].
      * intros other Hin. simpl in Hin.
        repeat (destruct Hin as [<- | Hin]; [reflexivity|]). contradiction.
      * reflexivity.
      * exact Hraise.
  - destruct (planner_failure fromisoformat_ref push_on
                [bad_due_date; numeric_due_date] None sample_clock)
      as (H & _).
    + reflexivity.
    + discriminate.
    + apply H. exists numeric_due_date. split; [| reflexivity].
      right. left. reflexivity.
Defined.

Lemma when_nonempty_filter {A B} (f : A -> bool) (l : list A) (x : B) :
  when_nonempty (filter f l) x = if existsb f l then [x] else [].
Proof.
  induction l as [|a l IH]; simpl; [reflexivity|].
  destruct (f a); simpl; [reflexivity | exact IH].
Qed.

Lemma existsb_same {A} (f g : A -> bool) (l : list A) :
  (forall x, f x = g x) -> existsb f l = existsb g l.
Proof.
  intro H. induction l as [|a l IH]; simpl; [reflexivity|].
  now rewrite H, IH.
Qed.

Lemma upcoming_within_four_days (parser : string -> option datetime)
    (now : datetime) (task : Task) :
  tzinfo now = None ->
  upcoming_high_priority parser now task = within_four_days parser now task.
Proof.
  intro Hnow. unfold upcoming_high_priority, within_four_days, naive_due.
  destruct (high_priority_value task); [| reflexivity]. cbn [andb].
  destruct (parsed parser (due_date task)) as [due|]; [| reflexivity].
  unfold gt, sub, aligned. rewrite Hnow.
  destruct (tzinfo due); [reflexivity|]. cbn [bind fst snd].
  destruct (wall_us now <? wall_us due); [| reflexivity]. cbn [andb].
  generalize (wall_us due - wall_us now). intro diff.
  pose proof (days_bounds diff) as Hb. unfold us_per_day in *.
  destruct (days diff <=? 3) eqn:E;
    [apply Z.leb_le in E | apply Z.leb_gt in E]; symmetry;
    [apply Z.ltb_lt | apply Z.ltb_ge]; lia.
Qed.

(** X9: which notifications a returned plan holds.  In this order: one
    "due_today" when the due date text of some pending task starts with
    today's date; one "high_priority" when some pending task of priority 1
    or 2 is due strictly after now and less than 96 hours ahead (so never
    for an overdue task); one "productive_time" when the stored insight
    lists an hour.  The due-today title counts every task due today, and the
    productive-time message names the first pending task. *)
Theorem plan_contents (parser : string -> option datetime) (settings : option Settings)
    (pending_tasks : list Task) (productive_time_insight : option Insight)
    (clock : Z) (plan : list Notification) :
  schedule_smart_notifications parser settings pending_tasks
    productive_time_insight clock = Ok (Some plan) ->
  map n_type plan
  = (when (existsb (due_text_on (strftime_date (of_wall_us clock))) pending_tasks)
       "due_today"
     ++ when (existsb (within_four_days parser (of_wall_us clock)) pending_tasks)
          "high_priority"
     ++ when (has_hours productive_time_insight) "productive_time")%list
  /\ (forall n, In n plan -> n_type n = "due_today" ->
        n_title n
        = "You have "
          ++ str_of_int (len (filter (due_text_on (strftime_date (of_wall_us clock)))
                                pending_tasks))
          ++ " tasks due today")
  /\ (forall n, In n plan -> n_type n = "productive_time" ->
        exists first rest,
          pending_tasks = first :: rest
          /\ n_message n
             = "This is usually when you get the most done. Time to tackle '"
               ++ title first ++ "'?").
Proof.
  intro Hplan.
  destruct settings as [s|]; [| discriminate Hplan].
  destruct (is_true (enable_push s)) eqn:Hon;
    [| unfold schedule_smart_notifications in Hplan; rewrite Hon in Hplan;
       discriminate Hplan].
  destruct pending_tasks as [|first rest];
    [unfold schedule_smart_notifications in Hplan; rewrite Hon in Hplan;
     discriminate Hplan|].
  rewrite (planner_outcome parser s (first :: rest) productive_time_insight clock
             Hon ltac:(discriminate)) in Hplan.
  destruct (planner_failure_of parser (first :: rest)); [discriminate Hplan|].
  injection Hplan as <-.
  unfold candidates.
  rewrite !when_nonempty_filter.
  rewrite (existsb_same _ _ (first :: rest)
             (fun t => upcoming_within_four_days parser (of_wall_us clock) t
                         (of_wall_us_naive clock))).
  set (today := existsb (due_text_on (strftime_date (of_wall_us clock)))
                  (first :: rest)).
  set (soon := existsb (within_four_days parser (of_wall_us clock)) (first :: rest)).
  set (pt := match productive_time_insight with
             | Some insight =>
                 when_nonempty (get_productive_hours (insight_data insight))
                   (productive_time_notification first)
             | None => []
             end).
  assert (Hpt : pt = if has_hours productive_time_insight
                     then [productive_time_notification first] else []).
  { unfold pt, has_hours. destruct productive_time_insight as [insight|];
      [| reflexivity].
    destruct (get_productive_hours (insight_data insight)); reflexivity. }
  rewrite Hpt. clear Hpt pt.
  split; [| split].
  - unfold when. destruct today, soon, (has_hours productive_time_insight);
      reflexivity.
  - intros n Hin Htype.
    destruct today, soon, (has_hours productive_time_insight);
      simpl in Hin; repeat (destruct Hin as [<- | Hin]);
      try contradiction; try discriminate Htype; reflexivity.
  - intros n Hin Htype. exists first, rest. split; [reflexivity|].
    destruct today, soon, (has_hours productive_time_insight);
      simpl in Hin; repeat (destruct Hin as [<- | Hin]);
      try contradiction; try discriminate Htype; reflexivity.
Qed.

Lemma plan_contents_witness :
  exists plan,
    schedule_smart_notifications fromisoformat_ref (Some push_on)
      plannable_pending None sample_clock = Ok (Some plan)
    /\ map n_type plan = ["due_today"; "high_priority"].
Proof.
  assert (Hsome : exists plan,
            schedule_smart_notifications fromisoformat_ref (Some push_on)
              plannable_pending None sample_clock = Ok (Some plan))
    by (vm_compute; eexists; reflexivity).
  destruct Hsome as [plan E]. exists plan. split; [exact E|].
  destruct (plan_contents fromisoformat_ref (Some push_on) plannable_pending None
              sample_clock plan E) as (-> & _).
  reflexivity.
Defined.

(** *** Insight generator *)

Lemma analyze_productive_time_none (parser : string -> option datetime)
    (completed_tasks : list Task) (activity_logs : list Activity) :
  analyze_productive_time parser completed_tasks activity_logs = None
  <-> forall task, In task completed_tasks -> has_completion parser task = false.
Proof.
  assert (Hhas : forall task,
            has_completion parser task = false
            <-> parsed parser (completed_at task) = None).
  { intro task. unfold has_completion.
    destruct (parsed parser (completed_at task)); split; congruence. }
  split.
  - intros Hnone task Hin. apply Hhas.
    apply (proj1 (completion_hours_empty parser completed_tasks)); [| exact Hin].
    unfold analyze_productive_time in Hnone.
    destruct completed_tasks as [|t rest]; [reflexivity|].
    destruct (completion_hours parser (t :: rest)); [reflexivity | discriminate].
  - intro Hall.
    assert (Hempty : completion_hours parser completed_tasks = []).
    { apply completion_hours_empty. intros task Hin. now apply Hhas, Hall. }
    unfold analyze_productive_time. rewrite Hempty.
    destruct completed_tasks; reflexivity.
Qed.

(** X10: what a run with enough history always yields.  With more than five
    completed tasks the generator makes a completion-rate record and a
    category-performance record on every run, a productive-time record
    exactly when some completion timestamp parses, and a recommendations
    record exactly when more than one task is pending; so between two and
    four records, all for the user of the run. *)
Theorem generator_minimum (parser : string -> option datetime) (user : string)
    (clock : nat -> Z) (completed_tasks pending_tasks : list Task)
    (activity_logs : list Activity) :
  5 < len completed_tasks ->
  exists rate categories,
    new_insights parser user clock completed_tasks pending_tasks activity_logs
    = (record_of user "productive_time" ProductiveTimeData true
         (analyze_productive_time parser completed_tasks activity_logs)
       ++ [mkInsight user "completion_rate" (CompletionRateData rate);
           mkInsight user "category_performance" (CategoryPerformanceData categories)]
       ++ record_of user "task_recommendations" TaskRecommendationsData
            (1 <? len pending_tasks)
            (recommend_task_order parser clock pending_tasks completed_tasks))%list
    /\ (analyze_productive_time parser completed_tasks activity_logs <> None
        <-> exists task, In task completed_tasks /\ has_completion parser task = true)
    /\ (1 < len pending_tasks ->
        recommend_task_order parser clock pending_tasks completed_tasks <> None)
    /\ (2 <= List.length
               (new_insights parser user clock completed_tasks pending_tasks
                  activity_logs) <= 4)%nat
    /\ (forall i,
          In i (new_insights parser user clock completed_tasks pending_tasks
                  activity_logs) ->
          insight_user_id i = user).
Proof.
  intro Hmany.
  assert (Hne : completed_tasks <> []).
  { intros ->. unfold len in Hmany. simpl in Hmany. lia. }
  destruct (analyze_category_performance_some parser completed_tasks Hne)
    as [message Hcat].
  assert (Hrate : exists rate,
            analyze_completion_rate parser completed_tasks pending_tasks = Some rate).
  { unfold analyze_completion_rate.
    destruct (len completed_tasks + len pending_tasks =? 0) eqn:E.
    - apply Z.eqb_eq in E. unfold len in *. lia.
    - eexists. reflexivity. }
  destruct Hrate as [rate Hrate].
  exists rate. eexists.
  assert (Heq :
    new_insights parser user clock completed_tasks pending_tasks activity_logs
    = (record_of user "productive_time" ProductiveTimeData true
         (analyze_productive_time parser completed_tasks activity_logs)
       ++ [mkInsight user "completion_rate" (CompletionRateData rate);
           mkInsight user "category_performance"
             (CategoryPerformanceData
                (mkCategoryPerformance
                   (sorted_desc task_count
                      (map category_entry (category_groups parser completed_tasks)))
                   message))]
       ++ record_of user "task_recommendations" TaskRecommendationsData
            (1 <? len pending_tasks)
            (recommend_task_order parser clock pending_tasks completed_tasks))%list).
  { unfold new_insights.
    replace (5 <? len completed_tasks) with true by (symmetry; now apply Z.ltb_lt).
    rewrite Hrate, Hcat. unfold insight_of, record_of.
    destruct (analyze_productive_time parser completed_tasks activity_logs);
      destruct (1 <? len pending_tasks);
      try destruct (recommend_task_order parser clock pending_tasks completed_tasks);
      reflexivity. }
  split; [exact Heq|]. split; [| split; [| split]].
  - split.
    + intro Hsome.
      destruct (existsb (has_completion parser) completed_tasks) eqn:E.
      * apply existsb_exists in E. exact E.
      * exfalso. apply Hsome. apply analyze_productive_time_none.
        intros task Hin.
        destruct (has_completion parser task) eqn:Eh; [| reflexivity].
        assert (Hex : existsb (has_completion parser) completed_tasks = true).
        { apply existsb_exists. now exists task. }
        congruence.
    + intros [task [Hin Hhas]] Hnone.
      rewrite (proj1 (analyze_productive_time_none parser completed_tasks
                        activity_logs) Hnone task Hin) in Hhas.
      discriminate.
  - intros Hp. unfold recommend_task_order.
    destruct pending_tasks; [unfold len in Hp; simpl in Hp; lia | discriminate].
  - rewrite Heq. unfold record_of. rewrite !length_app.
    destruct (analyze_productive_time parser completed_tasks activity_logs);
      destruct (1 <? len pending_tasks);
      try destruct (recommend_task_order parser clock pending_tasks completed_tasks);
      simpl; lia.
  - intros i. rewrite Heq. unfold record_of. intro Hin.
    destruct (analyze_productive_time parser completed_tasks activity_logs);
      destruct (1 <? len pending_tasks);
      try destruct (recommend_task_order parser clock pending_tasks completed_tasks);
      simpl in Hin; repeat (destruct Hin as [<- | Hin]);
      try contradiction; reflexivity.
Qed.

Lemma generator_minimum_witness :
  (2 <= List.length
          (new_insights fromisoformat_ref "user-1" fixed_clock six_completed
             [due_yesterday] []) <= 4)%nat.
Proof.
  destruct (generator_minimum fromisoformat_ref "user-1" fixed_clock six_completed
              [due_yesterday] []) as (rate & categories & _ & _ & _ & H & _).
  - vm_compute. reflexivity.
  - exact H.
Defined.

End Further.

(** ** Properties of the handlers *)
Module HandlerFacts.
Import Py Datetime Backend Spec Derived PyFacts Properties Further.
Import Store.

Section Facts.

Variable fromisoformat : string -> option datetime.
Variable numeric_affinity : string -> value.
Variable by_completed_desc : list Task -> list Task.
Variable by_due_asc : list Task -> list Task.
Variable recent_activity : list Activity -> list Activity.
Variable latest : list Insight -> option Insight.
Variable distinct : list string -> list string.
Variable created_metadata : TaskBody -> string.
Variable completed_metadata : string -> TaskBody -> string.
Variable updated_metadata : TaskBody -> string.
Variable J : Type.
Variable json_loads : string -> option J.

Local Notation "'run_plan'" := (Store.schedule_smart_notifications fromisoformat by_due_asc latest).
Local Notation "'run_generate'" :=
  (Store.generate_task_insights fromisoformat by_completed_desc by_due_asc
     recent_activity latest).
Local Notation "'do_create'" :=
  (Store.create_task fromisoformat numeric_affinity by_completed_desc by_due_asc
     recent_activity latest created_metadata).
Local Notation "'do_update'" :=
  (Store.update_task fromisoformat numeric_affinity by_completed_desc by_due_asc
     recent_activity latest completed_metadata updated_metadata).
Local Notation "'do_put_settings'" :=
  (Store.update_notification_settings fromisoformat by_due_asc latest).
Local Notation "'do_get_settings'" := (Store.get_notification_settings J json_loads).
Local Notation "'run_job'" :=
  (Store.scheduled_insights_generation fromisoformat by_completed_desc by_due_asc
     recent_activity latest distinct).

Lemma extends_refl (db : Db) : extends db db.
Proof. split; exists []; now rewrite app_nil_r. Qed.

Lemma extends_trans (a b c : Db) : extends a b -> extends b c -> extends a c.
Proof.
  intros [[x1 H1] [y1 H2]] [[x2 H3] [y2 H4]]. split.
  - exists (x1 ++ x2)%list. now rewrite H3, H1, app_assoc.
  - exists (y1 ++ y2)%list. now rewrite H4, H2, app_assoc.
Qed.

Lemma generate_tables (db : Db) (user : string) (env : Env) :
  tasks (fst (run_generate db user env)) = tasks db
  /\ user_activity (fst (run_generate db user env)) = user_activity db
  /\ notification_settings (fst (run_generate db user env)) = notification_settings db
  /\ extends db (fst (run_generate db user env)).
Proof.
  unfold Store.generate_task_insights, extends. cbn.
  repeat split; try reflexivity.
  - exists []. now rewrite app_nil_r.
  - eexists. reflexivity.
Qed.

Lemma log_activity_extends (db : Db) (user : string) (entry : Activity) :
  extends db (log_activity db user entry).
Proof.
  split; cbn; [eexists; reflexivity | exists []; now rewrite app_nil_r].
Qed.

Lemma with_tasks_extends (db : Db) (rows : list Task) :
  extends db (with_tasks db rows).
Proof. split; exists []; cbn; now rewrite app_nil_r. Qed.

Lemma with_settings_extends (db : Db) (rows : list (string * Settings)) :
  extends db (with_settings db rows).
Proof. split; exists []; cbn; now rewrite app_nil_r. Qed.

(** X11: the activity log and the insight history are append-only.  Each
    handler, the insight run and the scheduled job leave every activity row
    and every insight row they find in place and only add rows after them. *)
Theorem logs_append_only (db : Db) (env : Env) (envs : nat -> Env)
    (task_id user : string) (user_arg : option string) (data : TaskBody)
    (settings : SettingsBody) :
  extends db (fst (do_create db data env))
  /\ extends db (fst (do_update db task_id data env))
  /\ extends db (fst (delete_task db task_id user_arg env))
  /\ extends db (fst (do_put_settings db settings env))
  /\ extends db (fst (do_get_settings db user_arg))
  /\ extends db (fst (run_generate db user env))
  /\ extends db (fst (run_job db envs)).
Proof.
  assert (Hgen : forall d u e, extends d (fst (run_generate d u e))).
  { intros d u e. apply generate_tables. }
  split; [| split; [| split; [| split; [| split; [| split]]]]].
  - unfold Store.create_task.
    destruct (truthy (get (b_title data))) as [title|]; [| apply extends_refl].
    destruct (truthy (get (b_user_id data))) as [u|]; [| apply extends_refl].
    destruct (existsb _ (tasks db)); [apply extends_refl|]. cbn [fst].
    eapply extends_trans; [| apply Hgen].
    eapply extends_trans; [apply with_tasks_extends | apply log_activity_extends].
  - unfold Store.update_task.
    destruct (truthy (get (b_user_id data))) as [u|]; [| apply extends_refl].
    destruct (negb (existsb (owned task_id u) (tasks db))); [apply extends_refl|].
    destruct (negb (any_update_field data)); [apply extends_refl|].
    assert (Hcore : forall logged rows entry,
              extends db logged ->
              extends db (log_activity (with_tasks logged rows) u entry)).
    { intros logged rows entry Hl.
      eapply extends_trans; [exact Hl|].
      eapply extends_trans; [apply with_tasks_extends | apply log_activity_extends]. }
    assert (Hlogged : forall entry,
              extends db (if completing data then log_activity db u entry else db)).
    { intro entry. destruct (completing data);
        [apply log_activity_extends | apply extends_refl]. }
    destruct (b_title data); try apply extends_refl;
      destruct (has (b_status data) || has (b_priority data) || has (b_due_date data));
      cbn [fst];
      try (eapply extends_trans; [| apply Hgen]);
      apply Hcore, Hlogged.
  - unfold delete_task.
    destruct (truthy user_arg) as [u|]; [| apply extends_refl].
    destruct (negb (existsb (owned task_id u) (tasks db))); [apply extends_refl|].
    cbn [fst].
    eapply extends_trans; [apply with_tasks_extends | apply log_activity_extends].
  - unfold Store.update_notification_settings.
    destruct (truthy (get (sb_user_id settings))) as [u|]; [| apply extends_refl].
    destruct (existsb _ (notification_settings db)).
    + destruct (has (sb_enable_push settings) || has (sb_focus_hours settings)
                || has (sb_notification_frequency settings));
        [apply with_settings_extends | apply extends_refl].
    + apply with_settings_extends.
  - unfold Store.get_notification_settings.
    destruct (truthy user_arg) as [u|]; [| apply extends_refl].
    destruct (settings_of u db); [apply extends_refl | apply with_settings_extends].
  - apply Hgen.
  - unfold Store.scheduled_insights_generation.
    generalize (distinct (map user_id (tasks db))) as users.
    generalize 0%nat as k. intros k users. revert db k.
    induction users as [|u users IH]; intros db k; cbn [Store.insight_runs fst].
    + apply extends_refl.
    + destruct (snd (run_generate db u (envs k))); cbn [fst].
      * eapply extends_trans; [apply Hgen | apply IH].
      * apply Hgen.
Qed.

Lemma ok_or_fail_not_turned_down {A} (r : result unit) (code : Z) (body : A) :
  code < 400 -> ~ turned_down (ok_or_fail r code body).
Proof.
  intro Hcode. destruct r as [u|e]; simpl; [lia | tauto].
Qed.

(** X12: a request that is turned down changes nothing.  Whenever a handler
    answers with a 4xx status or ends in a constraint violation, the four
    tables are exactly as it found them. *)
Theorem turned_down_changes_nothing (db : Db) (env : Env) (task_id : string)
    (user_arg : option string) (data : TaskBody) (settings : SettingsBody) :
  (turned_down (snd (do_create db data env)) -> fst (do_create db data env) = db)
  /\ (turned_down (snd (do_update db task_id data env)) ->
      fst (do_update db task_id data env) = db)
  /\ (turned_down (snd (delete_task db task_id user_arg env)) ->
      fst (delete_task db task_id user_arg env) = db)
  /\ (turned_down (snd (do_put_settings db settings env)) ->
      fst (do_put_settings db settings env) = db)
  /\ (turned_down (snd (do_get_settings db user_arg)) ->
      fst (do_get_settings db user_arg) = db).
Proof.
  split; [| split; [| split; [| split]]].
  - unfold Store.create_task.
    destruct (truthy (get (b_title data))) as [title|]; [| reflexivity].
    destruct (truthy (get (b_user_id data))) as [u|]; [| reflexivity].
    destruct (existsb _ (tasks db)); [reflexivity|]. cbn [fst snd].
    intro H. exfalso. revert H. apply ok_or_fail_not_turned_down. lia.
  - unfold Store.update_task.
    destruct (truthy (get (b_user_id data))) as [u|]; [| reflexivity].
    destruct (negb (existsb (owned task_id u) (tasks db))); [reflexivity|].
    destruct (negb (any_update_field data)); [reflexivity|].
    destruct (b_title data); try reflexivity;
      destruct (has (b_status data) || has (b_priority data) || has (b_due_date data));
      cbn [fst snd]; intro H; exfalso; revert H;
      try (apply ok_or_fail_not_turned_down; lia); simpl; lia.
  - unfold delete_task.
    destruct (truthy user_arg) as [u|]; [| reflexivity].
    destruct (negb (existsb (owned task_id u) (tasks db))); [reflexivity|].
    cbn [fst snd]. simpl. lia.
  - unfold Store.update_notification_settings.
    destruct (truthy (get (sb_user_id settings))) as [u|]; [| reflexivity].
    destruct (existsb _ (notification_settings db)).
    + destruct (has (sb_enable_push settings) || has (sb_focus_hours settings)
                || has (sb_notification_frequency settings)); [| reflexivity].
      cbn [fst snd]. intro H. exfalso. revert H.
      apply ok_or_fail_not_turned_down. lia.
    + cbn [fst snd]. intro H. exfalso. revert H.
      apply ok_or_fail_not_turned_down. lia.
  - unfold Store.get_notification_settings.
    destruct (truthy user_arg) as [u|]; [| reflexivity].
    destruct (settings_of u db) as [row|]; [reflexivity|].
    cbn [fst snd]. destruct (load_focus_hours J json_loads (Some "[]"));
      simpl; [lia | tauto].
Qed.

Lemma owned_user (task_id user : string) (task : Task) :
  owned task_id user task = true -> id task = task_id /\ user_id task = user.
Proof.
  unfold owned. intro H. apply andb_prop in H. destruct H as [H1 H2].
  apply String.eqb_eq in H1, H2. now split.
Qed.

Lemma others_after_update (task_id user : string) (f : Task -> Task)
    (rows : list Task) :
  (forall task, user_id (f task) = user_id task) ->
  filter (fun task => negb (String.eqb (user_id task) user))
    (map (fun task => if owned task_id user task then f task else task) rows)
  = filter (fun task => negb (String.eqb (user_id task) user)) rows.
Proof.
  intro Hf. induction rows as [|task rows IH]; simpl; [reflexivity|].
  destruct (owned task_id user task) eqn:E.
  - apply owned_user in E. destruct E as [_ E].
    rewrite Hf, E, String.eqb_refl. simpl. exact IH.
  - destruct (negb (String.eqb (user_id task) user)); now rewrite IH.
Qed.

Lemma others_after_delete (task_id user : string) (rows : list Task) :
  filter (fun task => negb (String.eqb (user_id task) user))
    (filter (fun task => negb (owned task_id user task)) rows)
  = filter (fun task => negb (String.eqb (user_id task) user)) rows.
Proof.
  induction rows as [|task rows IH]; simpl; [reflexivity|].
  destruct (owned task_id user task) eqn:E; simpl.
  - apply owned_user in E. destruct E as [_ E].
    rewrite E, String.eqb_refl. simpl. exact IH.
  - destruct (negb (String.eqb (user_id task) user)); now rewrite IH.
Qed.

(** X13: a task request touches only the requesting user's tasks.  Creating,
    updating and deleting on behalf of one user leave the tasks of every
    other user as they were, in the same order, whatever task id the request
    names. *)
Theorem other_users_untouched (db : Db) (env : Env) (task_id user : string)
    (data : TaskBody) :
  truthy (get (b_user_id data)) = Some user ->
  tasks_of_others user (fst (do_create db data env)) = tasks_of_others user db
  /\ tasks_of_others user (fst (do_update db task_id data env))
     = tasks_of_others user db
  /\ tasks_of_others user (fst (delete_task db task_id (get (b_user_id data)) env))
     = tasks_of_others user db.
Proof.
  intro Huser. unfold tasks_of_others.
  split; [| split].
  - unfold Store.create_task. rewrite Huser.
    destruct (truthy (get (b_title data))) as [title|]; [| reflexivity].
    destruct (existsb _ (tasks db)); [reflexivity|]. cbn [fst].
    destruct (generate_tables
                (log_activity
                   (with_tasks db
                      (tasks db
                       ++ [mkTask (uuid4 env) title (get (b_description data))
                             (get (b_category data)) (get_or (b_priority data) 3)
                             (Some "pending") (Some (current_timestamp env 0))
                             (Store.kept numeric_affinity (get (b_due_date data)))
                             PyNone
                             (get (b_recurring_type data))
                             (get (b_parent_task_id data)) user])%list)
                   user
                   (mkActivity (Some (uuid4 env)) "task_created"
                      (Some (current_timestamp env 1)) (Some (created_metadata data))))
                user env) as [-> _].
    cbn [tasks log_activity with_tasks]. rewrite filter_app. simpl.
    rewrite String.eqb_refl. simpl. apply app_nil_r.
  - unfold Store.update_task. rewrite Huser.
    destruct (negb (existsb (owned task_id user) (tasks db))); [reflexivity|].
    destruct (negb (any_update_field data)); [reflexivity|].
    destruct (b_title data); try reflexivity;
      destruct (has (b_status data) || has (b_priority data) || has (b_due_date data));
      cbn [fst];
      try match goal with
          | |- context [fst (Store.generate_task_insights _ _ _ _ _ ?d ?u ?e)] =>
              destruct (generate_tables d u e) as [-> _]
          end;
      cbn [tasks log_activity with_tasks];
      apply others_after_update; reflexivity.
  - unfold delete_task. rewrite Huser.
    destruct (negb (existsb (owned task_id user) (tasks db))); [reflexivity|].
    cbn [fst tasks log_activity with_tasks]. apply others_after_delete.
Qed.






Lemma new_insights_user (user : string) (clock : nat -> Z)
    (completed_tasks pending_tasks : list Task) (activity_logs : list Activity)
    (i : Insight) :
  In i (new_insights fromisoformat user clock completed_tasks pending_tasks
          activity_logs) ->
  insight_user_id i = user.
Proof.
  unfold new_insights, insight_of.
  destruct (5 <? len completed_tasks); [| intros []].
  destruct (analyze_productive_time fromisoformat completed_tasks activity_logs),
           (analyze_completion_rate fromisoformat completed_tasks pending_tasks),
           (analyze_category_performance fromisoformat completed_tasks);
    destruct (1 <? len pending_tasks);
    try destruct (recommend_task_order fromisoformat clock pending_tasks
                    completed_tasks);
    simpl; intro Hin;
    repeat (destruct Hin as [<- | Hin]); try contradiction; reflexivity.
Qed.

(** X16: what an insight run stores.  It changes no task, activity or
    settings row; every row it adds to the insight table carries the user of
    the run; and it adds none while that user has at most five stored tasks
    with status "completed", in whatever order the query returns them. *)
Theorem generation_gate (db : Db) (user : string) (env : Env) :
  (forall rows, Permutation (by_completed_desc rows) rows) ->
  tasks (fst (run_generate db user env)) = tasks db
  /\ user_activity (fst (run_generate db user env)) = user_activity db
  /\ notification_settings (fst (run_generate db user env))
     = notification_settings db
  /\ (exists added,
        productivity_insights (fst (run_generate db user env))
        = (productivity_insights db ++ added)%list
        /\ (forall i, In i added -> insight_user_id i = user)
        /\ (List.length added <= 4)%nat
        /\ (len (rows_with_status user "completed" db) <= 5 -> added = [])).
Proof.
  intro Hperm.
  destruct (generate_tables db user env) as (Ht & Ha & Hs & _).
  split; [exact Ht|]. split; [exact Ha|]. split; [exact Hs|].
  unfold Store.generate_task_insights. cbn [fst productivity_insights add_insights].
  eexists. split; [reflexivity|]. split; [| split].
  - intros i Hin. eapply new_insights_user. exact Hin.
  - unfold new_insights, insight_of.
    repeat match goal with
           | |- context [match ?x with _ => _ end] => destruct x
           | |- context [if ?b then _ else _] => destruct b
           end; simpl; lia.
  - intro Hfew. unfold new_insights.
    replace (len (by_completed_desc (rows_with_status user "completed" db)))
      with (len (rows_with_status user "completed" db)).
    + replace (5 <? len (rows_with_status user "completed" db)) with false;
        [reflexivity|].
      symmetry. apply Z.ltb_ge. exact Hfew.
    + unfold len. f_equal. symmetry. apply Permutation_length, Hperm.
Qed.

(** *** Settings *)


Lemma settings_after_update (user other : string) (f : Settings -> Settings)
    (rows : list (string * Settings)) :
  option_map snd
    (find (fun row => String.eqb (fst row) other)
       (map (fun row => if String.eqb (fst row) user
                        then (fst row, f (snd row)) else row) rows))
  = if String.eqb other user
    then option_map f (option_map snd (find (fun row => String.eqb (fst row) other) rows))
    else option_map snd (find (fun row => String.eqb (fst row) other) rows).
Proof.
  induction rows as [|[key value] rows IH]; simpl.
  - destruct (String.eqb other user); reflexivity.
  - destruct (String.eqb key user) eqn:Eu; simpl.
    + apply String.eqb_eq in Eu. subst key.
      rewrite (String.eqb_sym user other).
      destruct (String.eqb other user) eqn:Eo; [reflexivity | exact IH].
    + destruct (String.eqb key other) eqn:Eo; simpl.
      * apply String.eqb_eq in Eo. subst key.
        rewrite Eu. reflexivity.
      * exact IH.
Qed.

Lemma settings_after_insert (user other : string) (new : Settings)
    (rows : list (string * Settings)) :
  option_map snd
    (find (fun row => String.eqb (fst row) other) (rows ++ [(user, new)]))
  = match option_map snd (find (fun row => String.eqb (fst row) other) rows) with
    | Some row => Some row
    | None => if String.eqb user other then Some new else None
    end.
Proof.
  induction rows as [|[key value] rows IH]; simpl.
  - destruct (String.eqb user other); reflexivity.
  - destruct (String.eqb key other); simpl; [reflexivity | exact IH].
Qed.



(** X18: reading the settings makes them.  For a user without a settings row
    the GET handler stores the row (1, "[]", "medium") after the existing
    rows and changes nothing else; for a user with a row it changes nothing.
    So a second GET finds the row the first one stored and leaves the tables
    as the first left them. *)
Theorem settings_made_on_read (db : Db) (user_arg : option string) (user : string) :
  truthy user_arg = Some user ->
  (settings_of user db = None ->
   fst (do_get_settings db user_arg)
   = with_settings db
       (notification_settings db
        ++ [(user, mkSettings (Some 1) (Some "[]") (Some "medium"))])%list)
  /\ (settings_of user db <> None -> fst (do_get_settings db user_arg) = db)
  /\ settings_of user (fst (do_get_settings db user_arg))
     = match settings_of user db with
       | Some row => Some row
       | None => Some (mkSettings (Some 1) (Some "[]") (Some "medium"))
       end
  /\ fst (do_get_settings (fst (do_get_settings db user_arg)) user_arg)
     = fst (do_get_settings db user_arg).
Proof.
  intro Huser.
  assert (Hnew : settings_of user
                   (with_settings db
                      (notification_settings db
                       ++ [(user, mkSettings (Some 1) (Some "[]") (Some "medium"))])%list)
                 = match settings_of user db with
                   | Some row => Some row
                   | None => Some (mkSettings (Some 1) (Some "[]") (Some "medium"))
                   end).
  { unfold settings_of at 1. cbn [notification_settings with_settings].
    rewrite settings_after_insert. fold (settings_of user db).
    destruct (settings_of user db); [reflexivity|].
    now rewrite String.eqb_refl. }
  unfold Store.get_notification_settings. rewrite Huser.
  destruct (settings_of user db) as [row|] eqn:E; cbn [fst].
  - split; [discriminate|]. split; [reflexivity|]. split; [exact E|].
    now rewrite E.
  - split; [reflexivity|]. split; [intro H; now contradiction H|].
    split; [exact Hnew|]. now rewrite Hnew.
Qed.


(** *** The insight run and the scheduled job *)

Lemma generate_outcome (db : Db) (user : string) (env : Env) :
  snd (run_generate db user env)
  = match run_failure fromisoformat by_due_asc db user with
    | Some e => Raise e
    | None => Ok tt
    end.
Proof.
  unfold Store.generate_task_insights, Store.schedule_smart_notifications,
    run_failure.
  cbn [snd]. unfold settings_of, rows_with_status.
  cbn [notification_settings tasks add_insights].
  fold (settings_of user db). fold (rows_with_status user "pending" db).
  destruct (settings_of user db) as [row|]; [| reflexivity].
  destruct (is_true (enable_push row)) eqn:Hon.
  - destruct (by_due_asc (rows_with_status user "pending" db)) as [|first rest] eqn:Ep.
    + unfold Backend.schedule_smart_notifications. rewrite Hon. reflexivity.
    + rewrite (planner_outcome fromisoformat row (first :: rest) _ _ Hon
                 ltac:(discriminate)).
      destruct (planner_failure_of fromisoformat (first :: rest)); reflexivity.
  - unfold Backend.schedule_smart_notifications. rewrite Hon. reflexivity.
Qed.

Lemma run_failure_generate (db : Db) (user other : string) (env : Env) :
  run_failure fromisoformat by_due_asc (fst (run_generate db user env)) other
  = run_failure fromisoformat by_due_asc db other.
Proof. reflexivity. Qed.

Lemma insights_of_other (db : Db) (user other : string) (env : Env) :
  other <> user ->
  filter (fun i => String.eqb (insight_user_id i) other)
    (productivity_insights (fst (run_generate db user env)))
  = filter (fun i => String.eqb (insight_user_id i) other)
      (productivity_insights db).
Proof.
  intro Hother. unfold Store.generate_task_insights.
  cbn [fst productivity_insights add_insights]. rewrite filter_app.
  match goal with
  | |- (_ ++ filter ?f ?l)%list = _ =>
      assert (Hnil : filter f l = [])
  end.
  { match goal with |- filter ?f ?l = [] => generalize (fun i => new_insights_user
        user (scoring_clock env) _ _ _ i : In i l -> _); generalize l end.
    intros l Hl. induction l as [|i l IH]; [reflexivity|]. simpl.
    rewrite (Hl i (or_introl eq_refl)).
    replace (String.eqb user other) with false
      by (symmetry; apply String.eqb_neq; congruence).
    apply IH. intros j Hj. apply Hl. now right. }
  rewrite Hnil. apply app_nil_r.
Qed.

Lemma insight_runs_outcome (users : list string) (envs : nat -> Env) :
  forall db k,
    snd (Store.insight_runs fromisoformat by_completed_desc by_due_asc
           recent_activity latest db users envs k)
    = match find (fails fromisoformat by_due_asc db) users with
      | Some user =>
          match run_failure fromisoformat by_due_asc db user with
          | Some e => Raise e
          | None => Ok tt
          end
      | None => Ok tt
      end.
Proof.
  induction users as [|user users IH]; intros db k; [reflexivity|].
  cbn [Store.insight_runs find]. rewrite generate_outcome. unfold fails at 1.
  destruct (run_failure fromisoformat by_due_asc db user) as [e|] eqn:E.
  - cbn [snd]. now rewrite E.
  - rewrite IH. reflexivity.
Qed.

Lemma insight_runs_untouched (users : list string) (envs : nat -> Env)
    (other : string) :
  forall db k before failing after,
    users = (before ++ failing :: after)%list ->
    fails fromisoformat by_due_asc db failing = true ->
    ~ In other before -> other <> failing ->
    (forall user, In user before -> fails fromisoformat by_due_asc db user = false) ->
    filter (fun i => String.eqb (insight_user_id i) other)
      (productivity_insights
         (fst (Store.insight_runs fromisoformat by_completed_desc by_due_asc
                 recent_activity latest db users envs k)))
    = filter (fun i => String.eqb (insight_user_id i) other)
        (productivity_insights db).
Proof.
  induction users as [|user users IH];
    intros db k before failing after Husers Hfail Hnot Hneq Hbefore.
  - destruct before; discriminate.
  - cbn [Store.insight_runs]. rewrite generate_outcome.
    destruct before as [|b before]; simpl in Husers; injection Husers as -> ->.
    + unfold fails in Hfail.
      destruct (run_failure fromisoformat by_due_asc db failing);
        [| discriminate].
      cbn [fst]. now apply insights_of_other.
    + pose proof (Hbefore b (or_introl eq_refl)) as Hb. unfold fails in Hb.
      destruct (run_failure fromisoformat by_due_asc db b); [discriminate|].
      rewrite (IH _ (S k) before failing after eq_refl).
      * apply insights_of_other. intro Heq. apply Hnot. now left.
      * exact Hfail.
      * intro Hin. apply Hnot. now right.
      * exact Hneq.
      * intros u Hu. apply Hbefore. now right.
Qed.

Lemma insight_runs_tasks (users : list string) (envs : nat -> Env) :
  forall db k,
    tasks (fst (Store.insight_runs fromisoformat by_completed_desc by_due_asc
                  recent_activity latest db users envs k))
    = tasks db.
Proof.
  induction users as [|u users IH]; intros db k; cbn [Store.insight_runs fst].
  - reflexivity.
  - destruct (snd (run_generate db u (envs k))); cbn [fst].
    + rewrite IH. apply generate_tables.
    + apply generate_tables.
Qed.

(** X20: one user's task stops the scheduled job for the users after them.
    The job runs the users in the order the query lists them.  When the
    planner call of a listed user raises (push is enabled for that user and
    one of their pending tasks has a number other than zero as its due date,
    or one of priority 1 or 2 has a due date text that does not parse to a
    naive value) and that of no user listed before them does, the job
    ends in that exception; the task table is unchanged, and no user other
    than that one and the ones listed before gets an insight row from the
    job. *)
Theorem job_stops_at_first_failure (db : Db) (envs : nat -> Env)
    (before after : list string) (failing : string) (e : exn) :
  distinct (map user_id (tasks db)) = (before ++ failing :: after)%list ->
  (forall user, In user before ->
                run_failure fromisoformat by_due_asc db user = None) ->
  run_failure fromisoformat by_due_asc db failing = Some e ->
  snd (run_job db envs) = Raise e
  /\ tasks (fst (run_job db envs)) = tasks db
  /\ forall other,
      ~ In other before -> other <> failing ->
      filter (fun i => String.eqb (insight_user_id i) other)
        (productivity_insights (fst (run_job db envs)))
      = filter (fun i => String.eqb (insight_user_id i) other)
          (productivity_insights db).
Proof.
  intros Husers Hbefore Hfail.
  assert (Hfails : fails fromisoformat by_due_asc db failing = true).
  { unfold fails. now rewrite Hfail. }
  assert (Hok : forall user, In user before ->
                  fails fromisoformat by_due_asc db user = false).
  { intros user Hin. unfold fails. now rewrite (Hbefore user Hin). }
  unfold Store.scheduled_insights_generation.
  split; [| split].
  - rewrite insight_runs_outcome, Husers.
    assert (Hfind : find (fails fromisoformat by_due_asc db)
                      (before ++ failing :: after) = Some failing).
    { clear Husers Hbefore. induction before as [|b before IH]; simpl.
      - now rewrite Hfails.
      - rewrite (Hok b (or_introl eq_refl)). apply IH.
        intros u Hu. apply Hok. now right. }
    now rewrite Hfind, Hfail.
  - apply insight_runs_tasks.
  - intros other Hnot Hneq.
    apply (insight_runs_untouched _ envs other db 0%nat before failing after
             Husers Hfails Hnot Hneq Hok).
Qed.

(** *** One user's requests and another user's insight runs *)

Lemma filter_both {A} (p q : A -> bool) (l : list A) :
  filter (fun x => p x && q x) l = filter q (filter p l).
Proof.
  induction l as [|x l IH]; simpl; [reflexivity|].
  destruct (p x); simpl; [| exact IH].
  destruct (q x); now rewrite IH.
Qed.

Lemma filter_none {A} (p : A -> bool) (l : list A) :
  (forall x, In x l -> p x = false) -> filter p l = [].
Proof.
  induction l as [|x l IH]; intro H; simpl; [reflexivity|].
  rewrite (H x (or_introl eq_refl)). apply IH. intros y Hy. apply H. now right.
Qed.

Lemma of_user_among_others (user other : string) (rows : list Task) :
  other <> user ->
  filter (fun task => String.eqb (user_id task) user) rows
  = filter (fun task => String.eqb (user_id task) user)
      (filter (fun task => negb (String.eqb (user_id task) other)) rows).
Proof.
  intro Hneq. induction rows as [|task rows IH]; simpl; [reflexivity|].
  destruct (String.eqb (user_id task) other) eqn:Eo; simpl.
  - apply String.eqb_eq in Eo.
    replace (String.eqb (user_id task) user) with false; [exact IH|].
    symmetry. apply String.eqb_neq. congruence.
  - destruct (String.eqb (user_id task) user); now rewrite IH.
Qed.

Lemma holdings_parts (user : string) (db db' : Db) :
  filter (fun task => String.eqb (user_id task) user) (tasks db')
  = filter (fun task => String.eqb (user_id task) user) (tasks db) ->
  filter (fun row => String.eqb (fst row) user) (user_activity db')
  = filter (fun row => String.eqb (fst row) user) (user_activity db) ->
  settings_of user db' = settings_of user db ->
  filter (fun i => String.eqb (insight_user_id i) user) (productivity_insights db')
  = filter (fun i => String.eqb (insight_user_id i) user) (productivity_insights db) ->
  holdings user db' = holdings user db.
Proof.
  intros Ht Ha Hs Hi. unfold holdings. now rewrite Ht, Ha, Hs, Hi.
Qed.

Lemma holdings_log_activity (user other : string) (db : Db) (entry : Activity) :
  other <> user ->
  holdings user (log_activity db other entry) = holdings user db.
Proof.
  intro Hneq. apply holdings_parts; try reflexivity.
  cbn [user_activity log_activity]. rewrite filter_app. simpl.
  replace (String.eqb other user) with false
    by (symmetry; now apply String.eqb_neq).
  apply app_nil_r.
Qed.

Lemma holdings_with_tasks (user : string) (db : Db) (rows : list Task) :
  filter (fun task => String.eqb (user_id task) user) rows
  = filter (fun task => String.eqb (user_id task) user) (tasks db) ->
  holdings user (with_tasks db rows) = holdings user db.
Proof.
  intro Hrows. apply holdings_parts; try reflexivity. exact Hrows.
Qed.

Lemma holdings_with_settings (user : string) (db : Db)
    (rows : list (string * Settings)) :
  option_map snd (find (fun row => String.eqb (fst row) user) rows)
  = settings_of user db ->
  holdings user (with_settings db rows) = holdings user db.
Proof.
  intro Hrows. apply holdings_parts; try reflexivity. exact Hrows.
Qed.

Lemma holdings_generate (user other : string) (db : Db) (env : Env) :
  other <> user ->
  holdings user (fst (run_generate db other env)) = holdings user db.
Proof.
  intro Hneq. destruct (generate_tables db other env) as (Ht & Ha & Hs & _).
  apply holdings_parts.
  - now rewrite Ht.
  - now rewrite Ha.
  - unfold settings_of. now rewrite Hs.
  - apply insights_of_other. congruence.
Qed.

Lemma holdings_create (user other : string) (db : Db) (data : TaskBody) (env : Env) :
  other <> user ->
  truthy (get (b_user_id data)) = Some other ->
  holdings user (fst (do_create db data env)) = holdings user db.
Proof.
  intros Hneq Huser. unfold Store.create_task. rewrite Huser.
  destruct (truthy (get (b_title data))) as [title|]; [| reflexivity].
  destruct (existsb _ (tasks db)); [reflexivity|]. cbn [fst].
  rewrite holdings_generate, holdings_log_activity by exact Hneq.
  apply holdings_with_tasks. rewrite filter_app. simpl.
  replace (String.eqb other user) with false
    by (symmetry; now apply String.eqb_neq).
  apply app_nil_r.
Qed.

Lemma holdings_update (user other : string) (db : Db) (task_id : string)
    (data : TaskBody) (env : Env) :
  other <> user ->
  truthy (get (b_user_id data)) = Some other ->
  holdings user (fst (do_update db task_id data env)) = holdings user db.
Proof.
  intros Hneq Huser. unfold Store.update_task. rewrite Huser.
  destruct (negb (existsb (owned task_id other) (tasks db))); [reflexivity|].
  destruct (negb (any_update_field data)); [reflexivity|].
  assert (Hrows : forall logged completed,
            holdings user logged = holdings user db ->
            tasks logged = tasks db ->
            holdings user
              (with_tasks logged
                 (map (fun task => if owned task_id other task
                                   then updated_row numeric_affinity data completed task
                                   else task) (tasks db)))
            = holdings user db).
  { intros logged completed Hl Ht. rewrite <- Hl.
    apply holdings_with_tasks. rewrite Ht.
    rewrite (of_user_among_others user other _ Hneq).
    rewrite others_after_update by reflexivity.
    symmetry. now apply of_user_among_others. }
  assert (Hlogged : forall entry,
            holdings user (if completing data then log_activity db other entry else db)
            = holdings user db
            /\ tasks (if completing data then log_activity db other entry else db)
               = tasks db).
  { intro entry. destruct (completing data);
      [split; [now apply holdings_log_activity | reflexivity] | now split]. }
  destruct (b_title data); try reflexivity;
    destruct (has (b_status data) || has (b_priority data) || has (b_due_date data));
    cbn [fst];
    try rewrite holdings_generate by exact Hneq;
    rewrite holdings_log_activity by exact Hneq;
    apply Hrows; apply Hlogged.
Qed.

Lemma holdings_delete (user other : string) (db : Db) (task_id : string)
    (user_arg : option string) (env : Env) :
  other <> user ->
  truthy user_arg = Some other ->
  holdings user (fst (delete_task db task_id user_arg env)) = holdings user db.
Proof.
  intros Hneq Huser. unfold delete_task. rewrite Huser.
  destruct (negb (existsb (owned task_id other) (tasks db))); [reflexivity|].
  cbn [fst]. rewrite holdings_log_activity by exact Hneq.
  apply holdings_with_tasks.
  rewrite (of_user_among_others user other _ Hneq), others_after_delete.
  symmetry. now apply of_user_among_others.
Qed.

Lemma holdings_put_settings (user other : string) (db : Db) (data : SettingsBody)
    (env : Env) :
  other <> user ->
  truthy (get (sb_user_id data)) = Some other ->
  holdings user (fst (do_put_settings db data env)) = holdings user db.
Proof.
  intros Hneq Huser. unfold Store.update_notification_settings. rewrite Huser.
  assert (Hoff : String.eqb user other = false)
    by (apply String.eqb_neq; congruence).
  destruct (existsb _ (notification_settings db)).
  - destruct (has (sb_enable_push data) || has (sb_focus_hours data)
              || has (sb_notification_frequency data)); [| reflexivity].
    cbn [fst]. apply holdings_with_settings.
    rewrite settings_after_update, Hoff. reflexivity.
  - cbn [fst]. apply holdings_with_settings.
    rewrite settings_after_insert, (String.eqb_sym other user), Hoff.
    unfold settings_of.
    now destruct (option_map snd
                    (find (fun row => String.eqb (fst row) user)
                       (notification_settings db))).
Qed.

Lemma holdings_get_settings (user other : string) (db : Db)
    (user_arg : option string) :
  other <> user ->
  truthy user_arg = Some other ->
  holdings user (fst (do_get_settings db user_arg)) = holdings user db.
Proof.
  intros Hneq Huser. unfold Store.get_notification_settings. rewrite Huser.
  assert (Hoff : String.eqb other user = false) by now apply String.eqb_neq.
  destruct (settings_of other db); [reflexivity|]. cbn [fst].
  apply holdings_with_settings. rewrite settings_after_insert, Hoff.
  unfold settings_of.
  now destruct (option_map snd
                  (find (fun row => String.eqb (fst row) user)
                     (notification_settings db))).
Qed.

Lemma rows_with_status_holdings (user value : string) (db : Db) :
  rows_with_status user value db
  = filter (status_is value)
      (filter (fun task => String.eqb (user_id task) user) (tasks db)).
Proof. unfold rows_with_status. apply filter_both. Qed.

Lemma plan_reads_holdings (user : string) (db db' : Db) (env : Env) :
  holdings user db' = holdings user db ->
  run_plan db' user env = run_plan db user env.
Proof.
  unfold holdings. intro H. injection H as Ht Ha Hs Hi.
  unfold Store.schedule_smart_notifications.
  rewrite !rows_with_status_holdings, !filter_both, Ht, Hs, Hi. reflexivity.
Qed.

Lemma generate_reads_holdings (user : string) (db db' : Db) (env : Env) :
  holdings user db' = holdings user db ->
  snd (run_generate db' user env) = snd (run_generate db user env)
  /\ added_by db' (fst (run_generate db' user env))
     = added_by db (fst (run_generate db user env)).
Proof.
  intro H. pose proof H as Hparts. unfold holdings in Hparts.
  injection Hparts as Ht Ha Hs Hi.
  assert (Hnew : forall d,
            added_by d (fst (run_generate d user env))
            = new_insights fromisoformat user (scoring_clock env)
                (by_completed_desc (rows_with_status user "completed" d))
                (by_due_asc (rows_with_status user "pending" d))
                (recent_activity
                   (map snd (filter (fun row => String.eqb (fst row) user)
                               (user_activity d))))).
  { intro d. unfold added_by, Store.generate_task_insights.
    cbn [fst productivity_insights add_insights].
    rewrite skipn_app, skipn_all, Nat.sub_diag. reflexivity. }
  assert (Hsame : new_insights fromisoformat user (scoring_clock env)
                    (by_completed_desc (rows_with_status user "completed" db'))
                    (by_due_asc (rows_with_status user "pending" db'))
                    (recent_activity
                       (map snd (filter (fun row => String.eqb (fst row) user)
                                   (user_activity db'))))
                  = new_insights fromisoformat user (scoring_clock env)
                      (by_completed_desc (rows_with_status user "completed" db))
                      (by_due_asc (rows_with_status user "pending" db))
                      (recent_activity
                         (map snd (filter (fun row => String.eqb (fst row) user)
                                     (user_activity db))))).
  { rewrite !rows_with_status_holdings, Ht, Ha. reflexivity. }
  split.
  - rewrite !generate_outcome. unfold run_failure.
    rewrite !rows_with_status_holdings, Ht, Hs. reflexivity.
  - rewrite !Hnew. exact Hsame.
Qed.

(** X21: users do not interfere.  Whatever another user asks for (creating,
    updating or deleting a task under any id, writing or reading their
    settings, an insight run of their own), the rows the tables hold on this
    user stay as they were, and so do the plan of this user's next planner
    call, the way this user's next insight run ends, and the insight rows it
    adds. *)
Theorem users_do_not_interfere (db db' : Db) (env env' : Env)
    (task_id user other : string) (data : TaskBody) (settings : SettingsBody) :
  other <> user ->
  truthy (get (b_user_id data)) = Some other ->
  truthy (get (sb_user_id settings)) = Some other ->
  In db' [fst (do_create db data env');
          fst (do_update db task_id data env');
          fst (delete_task db task_id (get (b_user_id data)) env');
          fst (do_put_settings db settings env');
          fst (do_get_settings db (get (sb_user_id settings)));
          fst (run_generate db other env')] ->
  holdings user db' = holdings user db
  /\ run_plan db' user env = run_plan db user env
  /\ snd (run_generate db' user env) = snd (run_generate db user env)
  /\ added_by db' (fst (run_generate db' user env))
     = added_by db (fst (run_generate db user env)).
Proof.
  intros Hneq Huser Hsettings Hin.
  assert (Hkept : holdings user db' = holdings user db).
  { cbn [In] in Hin.
    destruct Hin as [<- | [<- | [<- | [<- | [<- | [<- | []]]]]]].
    - now apply (holdings_create user other).
    - now apply (holdings_update user other).
    - now apply (holdings_delete user other).
    - now apply (holdings_put_settings user other).
    - now apply (holdings_get_settings user other).
    - now apply holdings_generate. }
  split; [exact Hkept|]. split; [now apply plan_reads_holdings|].
  now apply generate_reads_holdings.
Qed.

(** *** Repeating an update *)






(** *** A due date kept as a number *)


End Facts.

(** *** Sample runs of the handlers *)

Lemma other_users_untouched_witness :
  tasks_of_others "user-1"
    (fst (delete_task two_user_db "t1" (Some "user-1") sample_env))
  = [other_user_task].
Proof.
  destruct (other_users_untouched fromisoformat_ref whole_number table_order table_order
              last_hundred newest no_metadata no_completion_metadata no_metadata
              two_user_db sample_env "t1" "user-1" (status_body "user-1" "completed"))
    as (_ & _ & H).
  - reflexivity.
  - cbn [status_body b_user_id get] in H. rewrite H. reflexivity.
Defined.



Lemma generation_gate_witness :
  productivity_insights
    (fst (Store.generate_task_insights fromisoformat_ref table_order table_order
            last_hundred newest sample_db "user-1" sample_env))
  = [].
Proof.
  destruct (generation_gate fromisoformat_ref table_order table_order
              last_hundred newest sample_db "user-1" sample_env)
    as (_ & _ & _ & added & Heq & _ & _ & Hnone).
  - intro rows. apply Permutation_refl.
  - rewrite Heq, Hnone; [reflexivity|]. vm_compute. discriminate.
Defined.


Lemma settings_made_on_read_witness :
  settings_of "user-1"
    (fst (Store.get_notification_settings (list string) loads_empty_list empty_db
            (Some "user-1")))
  = Some (mkSettings (Some 1) (Some "[]") (Some "medium")).
Proof.
  destruct (settings_made_on_read (list string) loads_empty_list empty_db
              (Some "user-1") "user-1") as (_ & _ & H & _).
  - reflexivity.
  - exact H.
Defined.


Lemma job_stops_at_first_failure_witness :
  snd (Store.scheduled_insights_generation fromisoformat_ref table_order
         table_order last_hundred newest first_seen failing_db
         (fun _ => sample_env))
  = Raise ValueError.
Proof.
  destruct (job_stops_at_first_failure fromisoformat_ref table_order table_order
              last_hundred newest first_seen failing_db (fun _ => sample_env)
              [] ["user-2"] "user-1" ValueError) as [H _].
  - reflexivity.
  - intros user [].
  - reflexivity.
  - exact H.
Defined.

Lemma users_do_not_interfere_witness :
  holdings "user-2"
    (fst (Store.update_task fromisoformat_ref whole_number table_order table_order
            last_hundred newest no_completion_metadata no_metadata two_user_db
            "t1" (status_body "user-1" "completed") sample_env))
  = holdings "user-2" two_user_db.
Proof.
  destruct (users_do_not_interfere fromisoformat_ref whole_number table_order table_order
              last_hundred newest no_metadata no_completion_metadata no_metadata
              (list string) loads_empty_list two_user_db
              (fst (Store.update_task fromisoformat_ref whole_number table_order table_order
                      last_hundred newest no_completion_metadata no_metadata
                      two_user_db "t1" (status_body "user-1" "completed")
                      sample_env))
              sample_env sample_env "t1" "user-2" "user-1"
              (status_body "user-1" "completed") push_off_body) as [H _].
  - intro Hsame. discriminate Hsame.
  - reflexivity.
  - reflexivity.
  - right. left. reflexivity.
  - exact H.
Defined.



Example zero_due_date_is_skipped :
  Backend.schedule_smart_notifications fromisoformat_ref (Some push_on)
    [zero_due_date] None sample_clock = Ok (Some [])
  /\ whole_number "0" = PyInt 0
  /\ whole_number "2024" = PyInt 2024
  /\ whole_number "2024-03-15" = PyStr "2024-03-15".
Proof. repeat split. Qed.

Example create_with_bad_due_date_is_stored :
  snd (Store.create_task fromisoformat_ref whole_number table_order table_order last_hundred
         newest no_metadata (Store.mkDb [] [] [("user-1", push_on)] [])
         (Store.mkTaskBody (Value "Submit taxes") Absent Absent (Value 1) Absent
            (Value "next friday") Absent Absent (Value "user-1") Absent)
         sample_env)
  = Fail (PyError ValueError)
  /\ map id
       (tasks (fst (Store.create_task fromisoformat_ref whole_number table_order table_order
                      last_hundred newest no_metadata
                      (Store.mkDb [] [] [("user-1", push_on)] [])
                      (Store.mkTaskBody (Value "Submit taxes") Absent Absent
                         (Value 1) Absent (Value "next friday") Absent Absent
                         (Value "user-1") Absent)
                      sample_env)))
     = ["id-1"].
Proof. split; reflexivity. Qed.

End HandlerFacts.
